(** * Train and eval drivers of [engine.py]: a shallow embedding

    The development follows the layout of [src/engine.py]:
    - [Py]       : the fragment of Python the drivers rely on (floats with
                   their three special values, insertion-ordered dicts,
                   exceptions, [sum], keyword-argument merging, the
                   [012d] format specification);
    - [Loss]     : the weighted loss and the two logged views of the
                   reduced loss dict, shared by both drivers;
    - [Metric]   : the metric aggregator, as the spec describes it;
    - [Train]    : [train_one_epoch];
    - [Eval]     : [evaluate];
    - [Plot]     : [plot_image_with_labels] and [plot_prediction];
    - [CocoSample] : [show_coco_sample].
    The modules whose name ends in [Facts] hold the lemmas on the module
    of the same name, and the two [Example] modules hold small concrete
    setups on which the drivers are run.

    Floating-point numbers are idealised: a finite float is an exact
    rational, and the special values +inf, -inf and nan follow the IEEE
    rules.  Rounding and overflow are outside the model. *)

From Stdlib Require Import List String Ascii ZArith QArith Qcanon Bool Lia Lqa.
Import ListNotations.

Set Implicit Arguments.

(* ===================================================================== *)
(** * Python values                                                       *)
(* ===================================================================== *)

Module Py.

(** ** Floats *)

Inductive float : Type :=
| Fin (q : Qc)
| PInf
| NInf
| NaN.

Definition f0 : float := Fin (Q2Qc 0).
Definition f1 : float := Fin (Q2Qc 1).
Definition of_Z (z : Z) : float := Fin (Q2Qc (inject_Z z)).

(** [math.isfinite] *)
Definition isfinite (x : float) : bool :=
  match x with Fin _ => true | _ => false end.

Definition fneg (x : float) : float :=
  match x with
  | Fin q => Fin (- q)%Qc
  | PInf => NInf
  | NInf => PInf
  | NaN => NaN
  end.

Definition fadd (x y : float) : float :=
  match x, y with
  | NaN, _ | _, NaN => NaN
  | Fin a, Fin b => Fin (a + b)%Qc
  | PInf, NInf | NInf, PInf => NaN
  | PInf, _ | _, PInf => PInf
  | NInf, _ | _, NInf => NInf
  end.

(** the sign of a float as a comparison with zero; [None] for nan *)
Definition fsign (x : float) : option comparison :=
  match x with
  | Fin q => Some (q ?= Q2Qc 0)%Qc
  | PInf => Some Gt
  | NInf => Some Lt
  | NaN => None
  end.

Definition inf_of_sign (c : comparison) : float :=
  match c with Gt => PInf | Lt => NInf | Eq => NaN end.

Definition sign_mul (a b : comparison) : comparison :=
  match a, b with
  | Eq, _ | _, Eq => Eq
  | Gt, c | c, Gt => c
  | Lt, Lt => Gt
  end.

Definition fmul (x y : float) : float :=
  match x, y with
  | Fin a, Fin b => Fin (a * b)%Qc
  | _, _ =>
      match fsign x, fsign y with
      | Some a, Some b => inf_of_sign (sign_mul a b)
      | _, _ => NaN
      end
  end.

(** [x > y], [x >= y], [x <= y]: every comparison with nan is false *)
Definition fcompare (x y : float) : option comparison :=
  match x, y with
  | NaN, _ | _, NaN => None
  | Fin a, Fin b => Some (a ?= b)%Qc
  | PInf, PInf | NInf, NInf => Some Eq
  | PInf, _ | _, NInf => Some Gt
  | NInf, _ | _, PInf => Some Lt
  end.

Definition fgt (x y : float) : bool :=
  match fcompare x y with Some Gt => true | _ => false end.
Definition fge (x y : float) : bool :=
  match fcompare x y with Some Gt | Some Eq => true | _ => false end.
Definition fle (x y : float) : bool :=
  match fcompare x y with Some Lt | Some Eq => true | _ => false end.

(** ** Exceptions and results *)

Inductive exn : Type :=
| KeyError (key : string)
| AttributeError (attr : string)
| TypeError (msg : string)
| UnboundLocalError (name : string)
| IndexError
| RuntimeError (msg : string)
| ZeroDivisionError
| SystemExit (code : Z).

Inductive result (A : Type) : Type :=
| Ok (a : A)
| Raise (e : exn).
Arguments Ok {A} a.
Arguments Raise {A} e.

Definition rbind {A B} (r : result A) (k : A -> result B) : result B :=
  match r with Ok a => k a | Raise e => Raise e end.

Fixpoint mapM {A B} (f : A -> result B) (l : list A) : result (list B) :=
  match l with
  | [] => Ok []
  | a :: l' =>
      rbind (f a) (fun b => rbind (mapM f l') (fun bs => Ok (b :: bs)))
  end.

(** ** Objects that [sum] can return

    [sum(iterable)] starts from the integer [0]; over scalar tensors the
    result is a tensor as soon as one term was added, and stays the
    integer [0] when the iterable is empty. *)

Inductive pyobj : Type :=
| PyInt (n : Z)
| Tensor (x : float).

Definition py_add (a b : pyobj) : pyobj :=
  match a, b with
  | PyInt m, PyInt n => PyInt (m + n)
  | PyInt m, Tensor y => Tensor (fadd (of_Z m) y)
  | Tensor x, PyInt n => Tensor (fadd x (of_Z n))
  | Tensor x, Tensor y => Tensor (fadd x y)
  end.

Definition py_sum (l : list pyobj) : pyobj := fold_left py_add l (PyInt 0).

(** [x.item()]: defined on tensors, not on [int] *)
Definition item (o : pyobj) : result float :=
  match o with
  | Tensor x => Ok x
  | PyInt _ => Raise (AttributeError "item")
  end.

(** ** Dicts: insertion-ordered association lists *)

Section Dict.
Variable K : Type.
Variable eqb : K -> K -> bool.
Variable V : Type.

Definition dict : Type := list (K * V).

Definition keys (d : dict) : list K := map fst d.
Definition values (d : dict) : list V := map snd d.

Fixpoint dict_get (k : K) (d : dict) : option V :=
  match d with
  | [] => None
  | (k', v) :: d' => if eqb k k' then Some v else dict_get k d'
  end.

(** [k in d] *)
Definition contains (k : K) (d : dict) : bool :=
  match dict_get k d with Some _ => true | None => false end.

(** [d[k] = v]: overwrite in place, or append a new key *)
Fixpoint dict_set (k : K) (v : V) (d : dict) : dict :=
  match d with
  | [] => [(k, v)]
  | (k', v') :: d' =>
      if eqb k k' then (k, v) :: d' else (k', v') :: dict_set k v d'
  end.

(** [{k: v for (k, v) in items}] *)
Definition dict_of_items (items : list (K * V)) : dict :=
  fold_left (fun d kv => dict_set (fst kv) (snd kv) d) items [].
End Dict.

(** [d[k]] on a string-keyed dict *)
Definition getitem {V} (d : dict string V) (k : string) : result V :=
  match dict_get String.eqb k d with
  | Some v => Ok v
  | None => Raise (KeyError k)
  end.

(** keyword arguments unpacked from two dicts into one call: a keyword
    given twice is a [TypeError] *)
Fixpoint kwargs_merge {V} (a b : dict string V) : result (dict string V) :=
  match b with
  | [] => Ok a
  | (k, v) :: b' =>
      if contains String.eqb k a
      then Raise (TypeError "got multiple values for keyword argument")
      else kwargs_merge (a ++ [(k, v)]) b'
  end.

(** ** Lists as arrays *)

(** [l[i] = x] on a list that has an index [i] *)
Fixpoint list_set {A} (i : nat) (x : A) (l : list A) : list A :=
  match l, i with
  | [], _ => []
  | _ :: l', O => x :: l'
  | y :: l', S i' => y :: list_set i' x l'
  end.

(** ** The format specification [012d]

    [format(n, "012d")] writes the decimal digits of [n], without leading
    zeros, and fills with ['0'] between the sign and the digits up to a
    minimum width of 12 characters; a longer number is written in full. *)

Definition digit_char (d : Z) : ascii := ascii_of_nat (48 + Z.to_nat d).

Fixpoint decimal_fuel (fuel : nat) (n : Z) (acc : string) : string :=
  match fuel with
  | O => acc
  | S fuel' =>
      let acc' := String (digit_char (n mod 10)) acc in
      if (n / 10 =? 0)%Z then acc' else decimal_fuel fuel' (n / 10) acc'
  end.

(** [str(n)] for [0 <= n]; a number below [2^k] has at most [k] digits *)
Definition decimal (n : Z) : string :=
  decimal_fuel (S (Z.to_nat (Z.log2 n))) n EmptyString.

Fixpoint zeros (k : nat) : string :=
  match k with O => EmptyString | S k' => String "0"%char (zeros k') end.

Definition zfill (width : nat) (s : string) : string :=
  (zeros (width - String.length s) ++ s)%string.

Definition format_0d (width : nat) (n : Z) : string :=
  if (n <? 0)%Z
  then String "-"%char (zfill (width - 1) (decimal (- n)))
  else zfill width (decimal n).

End Py.

(* ===================================================================== *)
(** * Loss bookkeeping shared by both drivers                             *)
(* ===================================================================== *)

Module Loss.
Import Py.

(** LossDict: loss-term name to scalar tensor; WeightDict: name to weight *)
Definition LossDict : Type := dict string float.
Definition WeightDict : Type := dict string float.

(** [loss_dict[k] * weight_dict[k] for k in loss_dict.keys() if k in weight_dict] *)
Definition weighted_terms (loss_dict : LossDict) (weight_dict : WeightDict)
  : result (list pyobj) :=
  mapM (fun k =>
          rbind (getitem loss_dict k) (fun l =>
          rbind (getitem weight_dict k) (fun w =>
          Ok (Tensor (fmul l w)))))
       (filter (fun k => contains String.eqb k weight_dict) (keys loss_dict)).

(** [losses = sum(...)], engine.py line 82 *)
Definition losses (loss_dict : LossDict) (weight_dict : WeightDict)
  : result pyobj :=
  rbind (weighted_terms loss_dict weight_dict) (fun terms => Ok (py_sum terms)).

(** [{f'{k}_unscaled': v for k, v in loss_dict_reduced.items()}] *)
Definition loss_dict_reduced_unscaled (loss_dict_reduced : LossDict) : LossDict :=
  dict_of_items String.eqb
    (map (fun kv => ((fst kv ++ "_unscaled")%string, snd kv)) loss_dict_reduced).

(** [{k: v * weight_dict[k] for k, v in loss_dict_reduced.items() if k in weight_dict}] *)
Definition loss_dict_reduced_scaled (loss_dict_reduced : LossDict)
  (weight_dict : WeightDict) : result LossDict :=
  rbind (mapM (fun kv =>
                 rbind (getitem weight_dict (fst kv)) (fun w =>
                 Ok (fst kv, fmul (snd kv) w)))
              (filter (fun kv => contains String.eqb (fst kv) weight_dict)
                      loss_dict_reduced))
        (fun items => Ok (dict_of_items String.eqb items)).

(** [sum(loss_dict_reduced_scaled.values())] *)
Definition losses_reduced_scaled (scaled : LossDict) : pyobj :=
  py_sum (map Tensor (values scaled)).

(** the float a logged object stands for *)
Definition to_float (o : pyobj) : float :=
  match o with Tensor x => x | PyInt n => of_Z n end.

End Loss.

(* ===================================================================== *)
(** * The metric aggregator                                               *)
(* ===================================================================== *)

Module Metric.
Import Py.

(** Modelled from the spec: [SmoothedValue] of [util/misc.py] is not among
    the sources.  The spec (4.3) gives a meter a running sum and a count,
    with [global_avg = sum / count]; the sliding window and the format
    string only shape the progress lines and are left out. *)
Record SmoothedValue : Type := { count : nat; total : float }.

Definition new_meter : SmoothedValue := {| count := 0; total := f0 |}.

Definition meter_update (v : float) (m : SmoothedValue) : SmoothedValue :=
  {| count := S (count m); total := fadd (total m) v |}.

(** Modelled from the spec: [sum / count]; Python's division raises on a
    zero divisor. *)
Definition global_avg (m : SmoothedValue) : result float :=
  match count m with
  | O => Raise ZeroDivisionError
  | S _ => Ok (fmul (total m) (Fin (/ Q2Qc (inject_Z (Z.of_nat (count m))))%Qc))
  end.

(** Modelled from the spec: [MetricLogger] of [util/misc.py]; its state is
    the mapping from meter name to meter. *)
Definition MetricLogger : Type := dict string SmoothedValue.

(** Modelled from the spec: [add_meter(name, config)] pre-registers a meter. *)
Definition add_meter (name : string) (ml : MetricLogger) : MetricLogger :=
  dict_set String.eqb name new_meter ml.

(** Modelled from the spec: [update] with named values appends each value
    to its meter, creating the meter on first use. *)
Definition update_one (ml : MetricLogger) (kv : string * float) : MetricLogger :=
  let m := match dict_get String.eqb (fst kv) ml with
           | Some m => m
           | None => new_meter
           end in
  dict_set String.eqb (fst kv) (meter_update (snd kv) m) ml.

Definition update (kwargs : dict string float) (ml : MetricLogger) : MetricLogger :=
  fold_left update_one kwargs ml.

(** Modelled from the spec: [synchronize_between_processes] all-reduces
    each meter's running sum and count.  [peers] are the loggers of the
    other workers; with no peer the reduction changes nothing. *)
Definition all_reduce (peers : list MetricLogger) (name : string)
  (m : SmoothedValue) : SmoothedValue :=
  fold_left (fun acc p =>
               match dict_get String.eqb name p with
               | Some pm => {| count := count acc + count pm;
                               total := fadd (total acc) (total pm) |}
               | None => acc
               end) peers m.

Definition synchronize_between_processes (peers : list MetricLogger)
  (ml : MetricLogger) : MetricLogger :=
  map (fun km => (fst km, all_reduce peers (fst km) (snd km))) ml.

(** [{k: meter.global_avg for k, meter in metric_logger.meters.items()}] *)
Definition averages (ml : MetricLogger) : result (dict string float) :=
  rbind (mapM (fun km => rbind (global_avg (snd km)) (fun a => Ok (fst km, a))) ml)
        (fun items => Ok (dict_of_items String.eqb items)).

End Metric.

(* ===================================================================== *)
(** * Facts about the Python fragment                                     *)
(* ===================================================================== *)

Module PyFacts.
Import Py.

(** ** Float addition is a commutative monoid *)

Lemma fadd_comm (x y : float) : fadd x y = fadd y x.
Proof. destruct x, y; try reflexivity. cbn [fadd]. f_equal. ring. Qed.

Lemma fadd_assoc (x y z : float) : fadd x (fadd y z) = fadd (fadd x y) z.
Proof. destruct x, y, z; try reflexivity. cbn [fadd]. f_equal. ring. Qed.

Lemma fadd_0_l (x : float) : fadd (of_Z 0) x = x.
Proof.
  destruct x; try reflexivity. unfold of_Z. cbn [fadd]. f_equal.
  change (Q2Qc (inject_Z 0)) with 0%Qc. ring.
Qed.

Lemma fadd_0_r (x : float) : fadd x f0 = x.
Proof.
  destruct x; try reflexivity. unfold f0. cbn [fadd]. f_equal.
  change (Q2Qc 0) with 0%Qc. ring.
Qed.

(** the sum of a list of floats, as mathematics writes it *)
Definition fsum (l : list float) : float := fold_right fadd f0 l.

Lemma fold_left_fadd (l : list float) (a : float) :
  fold_left fadd l a = fadd a (fsum l).
Proof.
  revert a. induction l as [|x l IH]; intros a; simpl.
  - symmetry. apply fadd_0_r.
  - rewrite IH. symmetry. apply fadd_assoc.
Qed.

Lemma fold_left_py_add_tensor (l : list float) (a : float) :
  fold_left py_add (map Tensor l) (Tensor a) = Tensor (fold_left fadd l a).
Proof.
  revert a. induction l as [|x l IH]; intros a; simpl; [reflexivity|].
  apply IH.
Qed.

(** [sum] over tensors: the integer 0 exactly when there is no term *)
Lemma py_sum_tensors (l : list float) :
  py_sum (map Tensor l) =
  match l with [] => PyInt 0 | _ :: _ => Tensor (fsum l) end.
Proof.
  destruct l as [|x l]; [reflexivity|].
  unfold py_sum. cbn [map fold_left py_add].
  rewrite fold_left_py_add_tensor, fold_left_fadd, fadd_0_l. reflexivity.
Qed.

(** ** [mapM] *)

Lemma mapM_ok {A B} (f : A -> result B) (g : A -> B) (l : list A) :
  (forall a, In a l -> f a = Ok (g a)) -> mapM f l = Ok (map g l).
Proof.
  induction l as [|a l IH]; intros H; simpl; [reflexivity|].
  rewrite (H a (or_introl eq_refl)). simpl.
  rewrite IH by (intros; apply H; right; assumption). reflexivity.
Qed.

(** ** Dicts with string keys *)

Section StringDict.
Variable V : Type.
Implicit Types d : dict string V.

Lemma dict_get_some_in d k v :
  dict_get String.eqb k d = Some v -> In (k, v) d.
Proof.
  induction d as [|[k' v'] d IH]; simpl; [discriminate|].
  destruct (String.eqb_spec k k') as [->|Hne].
  - intros [= ->]. left. reflexivity.
  - intros H. right. apply IH, H.
Qed.

Lemma dict_get_none d k :
  dict_get String.eqb k d = None <-> ~ In k (keys d).
Proof.
  induction d as [|[k' v'] d IH]; simpl.
  - split; [intros _ []|reflexivity].
  - destruct (String.eqb_spec k k') as [->|Hne].
    + split; [discriminate|]. intros H. exfalso. apply H. left. reflexivity.
    + rewrite IH. split.
      * intros H [E|HI]; [apply Hne; symmetry; exact E|apply H, HI].
      * intros H HI. apply H. right. exact HI.
Qed.

Lemma contains_in d k : contains String.eqb k d = true <-> In k (keys d).
Proof.
  unfold contains. destruct (dict_get String.eqb k d) eqn:E.
  - split; [|reflexivity]. intros _.
    apply dict_get_some_in in E. apply (in_map fst) in E. exact E.
  - split; [discriminate|]. intros H. apply dict_get_none in E. contradiction.
Qed.

Lemma contains_not_in d k : contains String.eqb k d = false <-> ~ In k (keys d).
Proof.
  rewrite <- contains_in. destruct (contains String.eqb k d); split;
    congruence.
Qed.

Lemma dict_get_nodup d k v :
  NoDup (keys d) -> In (k, v) d -> dict_get String.eqb k d = Some v.
Proof.
  induction d as [|[k' v'] d IH]; simpl; [intros _ []|].
  intros Hnd [E|HI]; inversion Hnd as [|? ? Hni Hnd']; subst.
  - inversion E; subst. rewrite String.eqb_refl. reflexivity.
  - destruct (String.eqb_spec k k') as [->|Hne].
    + exfalso. apply Hni. apply (in_map fst) in HI. exact HI.
    + apply IH; assumption.
Qed.

Lemma dict_set_fresh d k v :
  ~ In k (keys d) -> dict_set String.eqb k v d = d ++ [(k, v)].
Proof.
  induction d as [|[k' v'] d IH]; simpl; intros H; [reflexivity|].
  destruct (String.eqb_spec k k') as [->|Hne].
  - exfalso. apply H. left. reflexivity.
  - rewrite IH; [reflexivity|]. intros HI. apply H. right. exact HI.
Qed.

Lemma keys_dict_set_present d k v :
  In k (keys d) -> keys (dict_set String.eqb k v d) = keys d.
Proof.
  induction d as [|[k' v'] d IH]; simpl; [intros []|].
  destruct (String.eqb_spec k k') as [->|Hne]; intros H; simpl.
  - reflexivity.
  - f_equal. apply IH. destruct H as [E|H]; [congruence|exact H].
Qed.

Lemma dict_get_set_same d k v :
  dict_get String.eqb k (dict_set String.eqb k v d) = Some v.
Proof.
  induction d as [|[k' v'] d IH]; simpl.
  - rewrite String.eqb_refl. reflexivity.
  - destruct (String.eqb_spec k k') as [->|Hne]; simpl.
    + rewrite String.eqb_refl. reflexivity.
    + destruct (String.eqb_spec k k'); [contradiction|]. exact IH.
Qed.

Lemma dict_get_set_other d k k' v :
  k' <> k ->
  dict_get String.eqb k' (dict_set String.eqb k v d) = dict_get String.eqb k' d.
Proof.
  intros Hne. induction d as [|[k1 v1] d IH]; simpl.
  - destruct (String.eqb_spec k' k); [contradiction|reflexivity].
  - destruct (String.eqb_spec k k1) as [->|Hne1]; simpl.
    + destruct (String.eqb_spec k' k1); [contradiction|reflexivity].
    + rewrite IH. reflexivity.
Qed.

Lemma keys_dict_set_in d k v k' :
  In k' (keys (dict_set String.eqb k v d)) <-> k' = k \/ In k' (keys d).
Proof.
  induction d as [|[k1 v1] d IH]; simpl.
  - intuition.
  - destruct (String.eqb_spec k k1) as [->|Hne]; simpl.
    + intuition.
    + rewrite IH. intuition.
Qed.

Lemma nodup_dict_set d k v :
  NoDup (keys d) -> NoDup (keys (dict_set String.eqb k v d)).
Proof.
  intros Hnd. destruct (in_dec string_dec k (keys d)) as [Hin|Hni].
  - rewrite keys_dict_set_present; assumption.
  - rewrite dict_set_fresh by assumption. unfold keys. rewrite map_app. simpl.
    apply NoDup_app; [exact Hnd|repeat constructor; intros []|].
    intros x Hx [E|[]]. subst. contradiction.
Qed.

Lemma fold_dict_set_nodup (items acc : dict string V) :
  NoDup (keys (acc ++ items)) ->
  fold_left (fun d kv => dict_set String.eqb (fst kv) (snd kv) d) items acc
  = acc ++ items.
Proof.
  revert acc. induction items as [|[k v] items IH]; intros acc Hnd; simpl.
  - rewrite app_nil_r. reflexivity.
  - assert (Hni : ~ In k (keys acc)).
    { unfold keys in *. rewrite map_app in Hnd. simpl in Hnd.
      apply NoDup_remove_2 in Hnd. intros H. apply Hnd.
      apply in_or_app. left. exact H. }
    rewrite dict_set_fresh by exact Hni.
    rewrite IH; rewrite <- app_assoc; simpl; [reflexivity|exact Hnd].
Qed.

(** a comprehension over items with distinct keys keeps them as they are *)
Lemma dict_of_items_nodup (items : dict string V) :
  NoDup (keys items) -> dict_of_items String.eqb items = items.
Proof. intros H. unfold dict_of_items. rewrite fold_dict_set_nodup; auto. Qed.

Lemma dict_set_not_nil d k v : dict_set String.eqb k v d <> [].
Proof.
  destruct d as [|[k' v'] d]; simpl; [discriminate|].
  destruct (String.eqb k k'); discriminate.
Qed.

Lemma fold_dict_set_not_nil (items acc : dict string V) :
  acc <> [] ->
  fold_left (fun d kv => dict_set String.eqb (fst kv) (snd kv) d) items acc
  <> [].
Proof.
  revert acc. induction items as [|[k v] items IH]; intros acc H; simpl.
  - exact H.
  - apply IH, dict_set_not_nil.
Qed.

(** a comprehension is empty exactly when it iterates over nothing *)
Lemma dict_of_items_nil (items : dict string V) :
  dict_of_items String.eqb items = [] <-> items = [].
Proof.
  split; [|intros ->; reflexivity].
  destruct items as [|[k v] items]; [reflexivity|].
  unfold dict_of_items. simpl. intros H. exfalso.
  revert H. apply fold_dict_set_not_nil. discriminate.
Qed.

Lemma keys_fold_dict_set (items acc : dict string V) (k : string) :
  In k (keys (fold_left (fun d kv => dict_set String.eqb (fst kv) (snd kv) d)
                        items acc)) ->
  In k (keys acc) \/ In k (keys items).
Proof.
  revert acc. induction items as [|[k1 v1] items IH]; intros acc H; simpl in *.
  - left. exact H.
  - apply IH in H as [H|H]; [|right; right; exact H].
    apply keys_dict_set_in in H as [->|H]; [right; left; reflexivity|].
    left. exact H.
Qed.

(** a comprehension has no key that its items do not have *)
Lemma keys_dict_of_items (items : dict string V) (k : string) :
  In k (keys (dict_of_items String.eqb items)) -> In k (keys items).
Proof.
  intros H. apply keys_fold_dict_set in H as [[]|H]. exact H.
Qed.

Lemma kwargs_merge_ok (b a c : dict string V) :
  kwargs_merge a b = Ok c -> c = a ++ b.
Proof.
  revert a. induction b as [|[k v] b IH]; intros a; simpl.
  - intros [= <-]. rewrite app_nil_r. reflexivity.
  - destruct (contains String.eqb k a); [discriminate|].
    intros H. apply IH in H. rewrite <- app_assoc in H. exact H.
Qed.

Lemma kwargs_merge_raise (b a : dict string V) (e : exn) :
  kwargs_merge a b = Raise e ->
  e = TypeError "got multiple values for keyword argument".
Proof.
  revert a. induction b as [|[k v] b IH]; intros a; simpl; [discriminate|].
  destruct (contains String.eqb k a); [intros [= <-]; reflexivity|apply IH].
Qed.

Lemma getitem_raise d k (e : exn) : getitem d k = Raise e -> e = KeyError k.
Proof.
  unfold getitem. destruct (dict_get String.eqb k d); [discriminate|].
  intros [= <-]. reflexivity.
Qed.

End StringDict.

(** ** Strings *)

Lemma length_append (a b : string) :
  String.length (a ++ b)%string = (String.length a + String.length b)%nat.
Proof. induction a as [|c a IH]; simpl; [reflexivity|]. rewrite IH. reflexivity. Qed.

Lemma append_inj_l (s a b : string) : (a ++ s = b ++ s)%string -> a = b.
Proof.
  revert b. induction a as [|c a IH]; intros [|c' b] H; simpl in H.
  - reflexivity.
  - exfalso. apply (f_equal String.length) in H. simpl in H.
    rewrite length_append in H. lia.
  - exfalso. apply (f_equal String.length) in H. simpl in H.
    rewrite length_append in H. lia.
  - injection H as -> H. f_equal. apply IH, H.
Qed.

End PyFacts.

(* ===================================================================== *)
(** * Facts about the decimal format                                      *)
(* ===================================================================== *)

Module FormatFacts.
Import Py PyFacts.
Local Open Scope Z_scope.

(** reading a string of decimal digits back, most significant first *)
Definition digit_val (c : ascii) : option Z :=
  let n := Z.of_nat (nat_of_ascii c) in
  if (48 <=? n) && (n <=? 57) then Some (n - 48) else None.

Fixpoint parse_digits (s : string) (acc : Z) : option Z :=
  match s with
  | EmptyString => Some acc
  | String c s' =>
      match digit_val c with
      | Some d => parse_digits s' (10 * acc + d)
      | None => None
      end
  end.

Lemma digit_val_char (d : Z) : 0 <= d < 10 -> digit_val (digit_char d) = Some d.
Proof.
  intros H.
  assert (E : d = 0 \/ d = 1 \/ d = 2 \/ d = 3 \/ d = 4 \/ d = 5 \/ d = 6 \/
              d = 7 \/ d = 8 \/ d = 9) by lia.
  repeat (destruct E as [->|E]; [reflexivity|]). subst. reflexivity.
Qed.

Lemma append_assoc_s (a b c : string) :
  ((a ++ b) ++ c = a ++ (b ++ c))%string.
Proof. induction a as [|x a IH]; simpl; [reflexivity|]. rewrite IH. reflexivity. Qed.

Lemma append_nil_r (a : string) : (a ++ "")%string = a.
Proof. induction a as [|x a IH]; simpl; [reflexivity|]. rewrite IH. reflexivity. Qed.

Lemma decimal_fuel_spec (fuel : nat) :
  forall (n : Z) (acc : string),
    0 <= n -> n < 10 ^ Z.of_nat fuel -> (1 <= fuel)%nat ->
    exists ds,
      decimal_fuel fuel n acc = (ds ++ acc)%string /\
      (forall k : nat, (1 <= k)%nat -> n < 10 ^ Z.of_nat k ->
                       (String.length ds <= k)%nat) /\
      (forall a t, parse_digits (ds ++ t) a
                   = parse_digits t (a * 10 ^ Z.of_nat (String.length ds) + n)).
Proof.
  induction fuel as [|fuel IH]; intros n acc Hn Hlt Hf; [lia|].
  cbn [decimal_fuel].
  assert (Hmod : 0 <= n mod 10 < 10) by (apply Z.mod_pos_bound; lia).
  destruct (n / 10 =? 0) eqn:Eq.
  - apply Z.eqb_eq in Eq.
    assert (Hn10 : n = n mod 10) by (rewrite (Z.div_mod n 10) at 1; lia).
    exists (String (digit_char (n mod 10)) EmptyString). split; [reflexivity|].
    split.
    + intros k Hk _. simpl. lia.
    + intros a t. cbn [append parse_digits String.length].
      rewrite digit_val_char by exact Hmod. f_equal.
      change (Z.of_nat 1) with 1. lia.
  - apply Z.eqb_neq in Eq.
    assert (Hdiv : 0 < n / 10) by (pose proof (Z.div_pos n 10); lia).
    assert (Hge : 10 <= n).
    { destruct (Z_lt_le_dec n 10) as [Hl|Hl]; [|exact Hl].
      rewrite Z.div_small in Hdiv by lia. lia. }
    assert (Hfuel : (1 <= fuel)%nat).
    { destruct fuel; [|lia]. exfalso.
      change (10 ^ Z.of_nat 1) with 10 in Hlt. lia. }
    assert (Hlt' : n / 10 < 10 ^ Z.of_nat fuel).
    { apply Z.div_lt_upper_bound; [lia|].
      rewrite Nat2Z.inj_succ, Z.pow_succ_r in Hlt by lia. exact Hlt. }
    destruct (IH (n / 10) (String (digit_char (n mod 10)) acc)
                 (Z.div_pos n 10 Hn ltac:(lia)) Hlt' Hfuel)
      as (ds & Hds & Hlen & Hparse).
    exists (ds ++ String (digit_char (n mod 10)) EmptyString)%string.
    split; [|split].
    + rewrite Hds, append_assoc_s. reflexivity.
    + intros k Hk Hnk.
      assert (Hk2 : (2 <= k)%nat).
      { destruct k as [|[|k]]; try lia.
        all: change (10 ^ Z.of_nat 1) with 10 in Hnk; lia. }
      assert (Hl : (String.length ds <= k - 1)%nat).
      { apply Hlen; [lia|]. apply Z.div_lt_upper_bound; [lia|].
        replace (Z.of_nat k) with (Z.succ (Z.of_nat (k - 1))) in Hnk by lia.
        rewrite Z.pow_succ_r in Hnk by lia. exact Hnk. }
      rewrite length_append. simpl. lia.
    + intros a t. rewrite append_assoc_s, Hparse.
      cbn [append parse_digits]. rewrite digit_val_char by exact Hmod.
      f_equal. rewrite length_append. cbn [String.length].
      rewrite Nat2Z.inj_add. change (Z.of_nat 1) with 1.
      rewrite Z.pow_add_r by lia. change (10 ^ 1) with 10.
      rewrite (Z.div_mod n 10) at 3 by lia. ring.
Qed.

Lemma decimal_spec (n : Z) :
  0 <= n ->
  (forall k : nat, (1 <= k)%nat -> n < 10 ^ Z.of_nat k ->
                   (String.length (decimal n) <= k)%nat) /\
  parse_digits (decimal n) 0 = Some n.
Proof.
  intros Hn. unfold decimal.
  assert (Hlt : n < 10 ^ Z.of_nat (S (Z.to_nat (Z.log2 n)))).
  { rewrite Nat2Z.inj_succ, Z2Nat.id by apply Z.log2_nonneg.
    destruct (Z.eq_dec n 0) as [->|Hne]; [reflexivity|].
    pose proof (Z.log2_spec n ltac:(lia)) as [_ H2].
    eapply Z.lt_le_trans; [exact H2|].
    apply Z.pow_le_mono_l. pose proof (Z.log2_nonneg n). lia. }
  destruct (@decimal_fuel_spec _ n EmptyString Hn Hlt
              ltac:(lia)) as (ds & Hds & Hlen & Hparse).
  rewrite Hds, append_nil_r. split; [exact Hlen|].
  rewrite <- (append_nil_r ds) at 1. rewrite Hparse. cbn [parse_digits].
  f_equal; lia.
Qed.

Lemma length_zeros (k : nat) : String.length (zeros k) = k.
Proof. induction k; simpl; [reflexivity|]. rewrite IHk. reflexivity. Qed.

Lemma parse_zeros (k : nat) (s : string) :
  parse_digits (zeros k ++ s) 0 = parse_digits s 0.
Proof. induction k; cbn [zeros append parse_digits]; [reflexivity|exact IHk]. Qed.

(** zero-padding a number that fits: exactly [width] digits, same value *)
Lemma zfill_decimal (width : nat) (n : Z) :
  (1 <= width)%nat -> 0 <= n < 10 ^ Z.of_nat width ->
  String.length (zfill width (decimal n)) = width /\
  parse_digits (zfill width (decimal n)) 0 = Some n.
Proof.
  intros Hw [Hn Hlt]. destruct (@decimal_spec n Hn) as [Hlen Hparse].
  specialize (Hlen width Hw Hlt). unfold zfill. split.
  - rewrite length_append, length_zeros. lia.
  - rewrite parse_zeros. exact Hparse.
Qed.

End FormatFacts.

(* ===================================================================== *)
(** * The weighted loss and its logged views                              *)
(* ===================================================================== *)

Module LossFacts.
Import Py Loss PyFacts.

(** [d[k]] as a total function, for statements: nan where [k] is absent *)
Definition at_key (d : dict string float) (k : string) : float :=
  match dict_get String.eqb k d with Some v => v | None => NaN end.

(** the keys of the loss dict that carry a weight, in the loss dict's order *)
Definition common_keys (loss_dict : LossDict) (weight_dict : WeightDict)
  : list string :=
  filter (fun k => contains String.eqb k weight_dict) (keys loss_dict).

(** the sum of [LossDict[k] * WeightDict[k]] over the keys present in both *)
Definition weighted_sum (loss_dict : LossDict) (weight_dict : WeightDict)
  : float :=
  fsum (map (fun k => fmul (at_key loss_dict k) (at_key weight_dict k))
            (common_keys loss_dict weight_dict)).

(** the entries of a dict whose key carries a weight *)
Definition restrict (weight_dict : WeightDict) (d : LossDict) : LossDict :=
  filter (fun kv => contains String.eqb (fst kv) weight_dict) d.

Lemma getitem_at_key (d : dict string float) (k : string) :
  In k (keys d) -> getitem d k = Ok (at_key d k).
Proof.
  intros H. unfold getitem, at_key.
  destruct (dict_get String.eqb k d) eqn:E; [reflexivity|].
  apply dict_get_none in E. contradiction.
Qed.

Lemma weighted_terms_ok (L : LossDict) (W : WeightDict) :
  weighted_terms L W =
  Ok (map Tensor (map (fun k => fmul (at_key L k) (at_key W k))
                      (common_keys L W))).
Proof.
  unfold weighted_terms, common_keys. rewrite map_map.
  apply mapM_ok. intros k Hk. apply filter_In in Hk as [HL HW].
  rewrite (getitem_at_key L k HL). simpl.
  rewrite (getitem_at_key W k) by (apply contains_in, HW). reflexivity.
Qed.

Lemma losses_ok (L : LossDict) (W : WeightDict) :
  losses L W =
  Ok (match common_keys L W with
      | [] => PyInt 0
      | _ :: _ => Tensor (weighted_sum L W)
      end).
Proof.
  unfold losses. rewrite weighted_terms_ok. simpl. rewrite py_sum_tensors.
  unfold weighted_sum. destruct (common_keys L W); reflexivity.
Qed.

Lemma at_key_restrict (W : WeightDict) (L : LossDict) (k : string) :
  contains String.eqb k W = true -> at_key (restrict W L) k = at_key L k.
Proof.
  intros HW. unfold at_key. induction L as [|[k' v'] L IH]; simpl; [reflexivity|].
  destruct (String.eqb_spec k k') as [->|Hne].
  - rewrite HW. simpl. rewrite String.eqb_refl. reflexivity.
  - destruct (contains String.eqb k' W); simpl; [|exact IH].
    destruct (String.eqb_spec k k'); [contradiction|exact IH].
Qed.

Lemma common_keys_restrict (W : WeightDict) (L : LossDict) :
  common_keys L W = keys (restrict W L).
Proof.
  unfold common_keys, restrict, keys.
  induction L as [|[k v] L IH]; simpl; [reflexivity|].
  destruct (contains String.eqb k W); simpl; rewrite IH; reflexivity.
Qed.

Lemma weighted_sum_restrict (W : WeightDict) (L : LossDict) :
  weighted_sum L W = weighted_sum (restrict W L) W.
Proof.
  unfold weighted_sum. f_equal.
  assert (E : common_keys (restrict W L) W = common_keys L W).
  { rewrite !common_keys_restrict. unfold restrict. f_equal.
    induction L as [|[k v] L IH]; simpl; [reflexivity|].
    destruct (contains String.eqb k W) eqn:HW; simpl; [|exact IH].
    rewrite HW. f_equal. exact IH. }
  rewrite E. apply map_ext_in. intros k Hk.
  apply filter_In in Hk as [_ HW]. rewrite at_key_restrict by exact HW.
  reflexivity.
Qed.

(** ** The scaled and unscaled views *)

Definition scaled_items (R : LossDict) (W : WeightDict) : LossDict :=
  map (fun kv => (fst kv, fmul (snd kv) (at_key W (fst kv)))) (restrict W R).

Lemma loss_dict_reduced_scaled_ok (R : LossDict) (W : WeightDict) :
  loss_dict_reduced_scaled R W =
  Ok (dict_of_items String.eqb (scaled_items R W)).
Proof.
  unfold loss_dict_reduced_scaled, scaled_items, restrict.
  erewrite mapM_ok; [reflexivity|].
  intros [k v] Hk. apply filter_In in Hk as [_ HW]. simpl in *.
  rewrite (getitem_at_key W k) by (apply contains_in, HW). reflexivity.
Qed.

Lemma keys_scaled_items (R : LossDict) (W : WeightDict) :
  keys (scaled_items R W) = common_keys R W.
Proof.
  rewrite common_keys_restrict. unfold scaled_items, keys.
  rewrite map_map. reflexivity.
Qed.

Lemma nodup_common_keys (R : LossDict) (W : WeightDict) :
  NoDup (keys R) -> NoDup (common_keys R W).
Proof. intros H. unfold common_keys. apply NoDup_filter, H. Qed.

Definition suffix : string := "_unscaled".

Definition rename (k : string) : string := (k ++ suffix)%string.

Lemma rename_inj (a b : string) : rename a = rename b -> a = b.
Proof. apply append_inj_l. Qed.

Lemma nodup_map_rename (l : list string) :
  NoDup l -> NoDup (map rename l).
Proof.
  induction 1 as [|k l Hni Hnd IH]; simpl; constructor; [|exact IH].
  intros H. apply in_map_iff in H as [k' [E Hk']].
  apply rename_inj in E. subst. contradiction.
Qed.

Lemma unscaled_nodup (R : LossDict) :
  NoDup (keys R) ->
  loss_dict_reduced_unscaled R = map (fun kv => (rename (fst kv), snd kv)) R.
Proof.
  intros H. unfold loss_dict_reduced_unscaled.
  apply dict_of_items_nodup. unfold keys. rewrite map_map. simpl.
  rewrite <- (map_map fst rename). apply nodup_map_rename, H.
Qed.

Lemma common_keys_nil_iff (L : LossDict) (W : WeightDict) :
  common_keys L W = [] <-> (forall k, In k (keys L) -> ~ In k (keys W)).
Proof.
  unfold common_keys. split.
  - intros E k HL HW. apply contains_in in HW.
    assert (H : In k (filter (fun k => contains String.eqb k W) (keys L))).
    { apply filter_In. split; assumption. }
    rewrite E in H. exact H.
  - intros H. destruct (filter _ (keys L)) as [|k l] eqn:E; [reflexivity|].
    exfalso. assert (Hk : In k (k :: l)) by (left; reflexivity).
    rewrite <- E in Hk. apply filter_In in Hk as [HL HW].
    apply contains_in in HW. exact (H k HL HW).
Qed.

(** a reduction that keeps the key set keeps the weighted keys non-empty *)
Lemma common_keys_same_keys (L R : LossDict) (W : WeightDict) :
  (forall k, In k (keys R) <-> In k (keys L)) ->
  (common_keys R W = [] <-> common_keys L W = []).
Proof.
  intros H. rewrite !common_keys_nil_iff. split; intros HH k Hk.
  - apply HH, H, Hk.
  - apply HH, H, Hk.
Qed.

(** the reduced scaled sum is the integer 0 exactly when no key is weighted *)
Lemma reduced_sum_shape (R : LossDict) (W : WeightDict) :
  losses_reduced_scaled (dict_of_items String.eqb (scaled_items R W)) =
  match common_keys R W with
  | [] => PyInt 0
  | _ :: _ =>
      Tensor (fsum (values (dict_of_items String.eqb (scaled_items R W))))
  end.
Proof.
  unfold losses_reduced_scaled. rewrite py_sum_tensors.
  rewrite <- keys_scaled_items.
  destruct (scaled_items R W) as [|kv items] eqn:E; [reflexivity|].
  destruct (values (dict_of_items String.eqb (kv :: items))) eqn:Ev;
    [|reflexivity].
  exfalso. unfold values in Ev. apply map_eq_nil in Ev.
  apply (proj1 (dict_of_items_nil _)) in Ev. discriminate.
Qed.

(** without a reduction, the logged sum is the backpropagated one *)
Lemma unreduced_sum_is_losses (L : LossDict) (W : WeightDict) :
  NoDup (keys L) ->
  losses L W =
  Ok (losses_reduced_scaled (dict_of_items String.eqb (scaled_items L W))).
Proof.
  intros Hnd. rewrite losses_ok, reduced_sum_shape. f_equal.
  destruct (common_keys L W) eqn:E; [reflexivity|]. f_equal.
  rewrite dict_of_items_nodup
    by (rewrite keys_scaled_items; apply nodup_common_keys, Hnd).
  unfold weighted_sum. f_equal. rewrite common_keys_restrict.
  unfold values, scaled_items, keys. rewrite !map_map. cbn [snd fst].
  apply map_ext_in. intros [k v] Hkv. cbn [fst snd]. f_equal.
  unfold restrict in Hkv. apply filter_In in Hkv as [Hkv _].
  unfold at_key. rewrite (dict_get_nodup L k v Hnd Hkv). reflexivity.
Qed.

(** [k] ends with [s] *)
Fixpoint ends_with (s k : string) : bool :=
  match k with
  | EmptyString => String.eqb k s
  | String _ k' => String.eqb k s || ends_with s k'
  end.

Lemma ends_with_append (s x : string) : ends_with s (x ++ s) = true.
Proof.
  induction x as [|c x IH]; cbn [append].
  - destruct s; cbn [ends_with]; rewrite String.eqb_refl; reflexivity.
  - cbn [ends_with]. rewrite IH. apply orb_true_r.
Qed.

Lemma eqb_rename (a b : string) :
  String.eqb (rename a) (rename b) = String.eqb a b.
Proof.
  destruct (String.eqb_spec a b) as [->|Hne].
  - apply String.eqb_refl.
  - apply String.eqb_neq. intros E. apply Hne, rename_inj, E.
Qed.

Lemma dict_get_renamed (R : LossDict) (k : string) :
  dict_get String.eqb (rename k)
           (map (fun kv => (rename (fst kv), snd kv)) R)
  = dict_get String.eqb k R.
Proof.
  induction R as [|[k' v'] R IH]; cbn [map dict_get fst snd]; [reflexivity|].
  rewrite eqb_rename, IH. reflexivity.
Qed.

Lemma in_common_keys (L : LossDict) (W : WeightDict) (k : string) :
  In k (common_keys L W) <-> In k (keys L) /\ In k (keys W).
Proof.
  unfold common_keys. rewrite filter_In, contains_in. reflexivity.
Qed.

Lemma dict_get_scaled_items (R : LossDict) (W : WeightDict) (k : string) :
  NoDup (keys R) -> In k (keys (scaled_items R W)) ->
  dict_get String.eqb k (scaled_items R W)
  = Some (fmul (at_key R k) (at_key W k)).
Proof.
  intros Hnd Hin. apply dict_get_nodup.
  - rewrite keys_scaled_items. apply nodup_common_keys, Hnd.
  - unfold keys in Hin. apply in_map_iff in Hin as [[k1 x] [E Hin]].
    cbn [fst] in E. subst k1. unfold scaled_items in *.
    apply in_map_iff in Hin as [[k0 v0] [E Hin]]. cbn [fst snd] in E.
    injection E as -> <-. apply in_map_iff. exists (k, v0).
    split; [|exact Hin]. cbn [fst snd]. f_equal. f_equal.
    unfold restrict in Hin. apply filter_In in Hin as [Hin _].
    unfold at_key. rewrite (dict_get_nodup R k v0 Hnd Hin). reflexivity.
Qed.

(** C3: when the reduction returns a dict with the key set of the loss
    dict, the reduced-scaled mapping that both drivers build has exactly
    the keys common to LossDict and WeightDict, each with the reduced
    value times its weight; and the reduced-unscaled mapping has exactly
    the keys of the reduced dict, each followed by the suffix
    ["_unscaled"], one per key and in the same order, with the reduced
    values unchanged. *)
Theorem reduced_views_keys (L R : LossDict) (W : WeightDict) :
  NoDup (keys R) ->
  (forall k, In k (keys R) <-> In k (keys L)) ->
  exists scaled,
    loss_dict_reduced_scaled R W = Ok scaled /\
    NoDup (keys scaled) /\
    (forall k, In k (keys scaled) <-> In k (keys L) /\ In k (keys W)) /\
    (forall k, In k (keys scaled) ->
               dict_get String.eqb k scaled
               = Some (fmul (at_key R k) (at_key W k))) /\
    let unscaled := loss_dict_reduced_unscaled R in
    keys unscaled = map (fun k => (k ++ "_unscaled")%string) (keys R) /\
    values unscaled = values R /\
    NoDup (keys unscaled) /\
    (forall k', In k' (keys unscaled) <->
                exists k, In k (keys L) /\ k' = (k ++ "_unscaled")%string) /\
    (forall k, dict_get String.eqb (k ++ "_unscaled")%string unscaled
               = dict_get String.eqb k R).
Proof.
  intros Hnd Hkeys. exists (scaled_items R W).
  assert (Hnds : NoDup (keys (scaled_items R W)))
    by (rewrite keys_scaled_items; apply nodup_common_keys, Hnd).
  split; [|split; [|split; [|split]]].
  - rewrite loss_dict_reduced_scaled_ok, dict_of_items_nodup; auto.
  - exact Hnds.
  - intros k. rewrite keys_scaled_items, in_common_keys, Hkeys. reflexivity.
  - intros k. apply dict_get_scaled_items, Hnd.
  - cbv zeta. rewrite (unscaled_nodup R Hnd).
    assert (Hk : keys (map (fun kv : string * float => (rename (fst kv), snd kv)) R)
                 = map rename (keys R)).
    { unfold keys. rewrite !map_map. reflexivity. }
    split; [exact Hk|split; [|split; [|split]]].
    + unfold values. rewrite map_map. reflexivity.
    + rewrite Hk. apply nodup_map_rename, Hnd.
    + intros k'. rewrite Hk, in_map_iff. split.
      * intros [k [E Hin]]. exists k. split; [apply Hkeys, Hin|].
        symmetry. exact E.
      * intros [k [Hin E]]. exists k. split; [symmetry; exact E|].
        apply Hkeys, Hin.
    + intros k. apply dict_get_renamed.
Qed.

End LossFacts.

(* ===================================================================== *)
(** * Facts about the metric aggregator                                   *)
(* ===================================================================== *)

Module MetricFacts.
Import Py Metric PyFacts.
Local Open Scope nat_scope.

Lemma in_dict_set_nodup (V : Type) (d : dict string V) (k0 : string) (v0 : V)
  (k : string) (m : V) :
  NoDup (keys d) ->
  In (k, m) (dict_set String.eqb k0 v0 d) ->
  (k = k0 /\ m = v0) \/ (k <> k0 /\ In (k, m) d).
Proof.
  induction d as [|[k1 v1] d IH]; cbn [dict_set keys map fst]; intros Hnd H.
  - destruct H as [[= <- <-]|[]]. left. split; reflexivity.
  - inversion Hnd as [|? ? Hni Hnd']; subst.
    destruct (String.eqb_spec k0 k1) as [->|Hne].
    + destruct H as [[= <- <-]|H]; [left; split; reflexivity|].
      right. split; [|right; exact H].
      intros ->. apply Hni. apply (in_map fst) in H. exact H.
    + destruct H as [[= <- <-]|H].
      * right. split; [congruence|left; reflexivity].
      * destruct (IH Hnd' H) as [?|[? ?]]; [left; assumption|].
        right. split; [assumption|right; assumption].
Qed.

(** every meter with no value yet is one of [names] *)
Definition counted_except (names : list string) (ml : MetricLogger) : Prop :=
  forall k m, In (k, m) ml -> count m = 0 -> In k names.

Lemma counted_except_weaken (names names' : list string) (ml : MetricLogger) :
  incl names names' -> counted_except names ml -> counted_except names' ml.
Proof. intros Hi H k m Hin Hc. apply Hi, (H k m Hin Hc). Qed.

Lemma nodup_update_one (ml : MetricLogger) (kv : string * float) :
  NoDup (keys ml) -> NoDup (keys (update_one ml kv)).
Proof. intros H. unfold update_one. apply nodup_dict_set, H. Qed.

Lemma nodup_update (kw : dict string float) (ml : MetricLogger) :
  NoDup (keys ml) -> NoDup (keys (update kw ml)).
Proof.
  revert ml. unfold update.
  induction kw as [|kv kw IH]; intros ml H; simpl; [exact H|].
  apply IH, nodup_update_one, H.
Qed.

Lemma update_one_counted (names : list string) (ml : MetricLogger)
  (kv : string * float) :
  NoDup (keys ml) -> counted_except names ml ->
  counted_except (remove string_dec (fst kv) names) (update_one ml kv).
Proof.
  intros Hnd H k m Hin Hc. unfold update_one in Hin.
  apply in_dict_set_nodup in Hin; [|exact Hnd].
  destruct Hin as [[-> ->]|[Hne Hin]].
  - discriminate.
  - apply in_in_remove; [exact Hne|]. exact (H k m Hin Hc).
Qed.

Lemma update_counted (names : list string) (kw : dict string float)
  (ml : MetricLogger) :
  NoDup (keys ml) -> counted_except names ml ->
  counted_except names (update kw ml).
Proof.
  revert ml. unfold update.
  induction kw as [|kv kw IH]; intros ml Hnd H; simpl; [exact H|].
  apply IH; [apply nodup_update_one, Hnd|].
  eapply counted_except_weaken; [|apply update_one_counted; eassumption].
  intros k Hk. apply in_remove in Hk. apply Hk.
Qed.

Lemma keys_update (kw : dict string float) (ml : MetricLogger) (k : string) :
  In k (keys (update kw ml)) -> In k (keys ml) \/ In k (keys kw).
Proof.
  revert ml. unfold update.
  induction kw as [|[k1 v1] kw IH]; intros ml H; simpl in *.
  - left. exact H.
  - apply IH in H as [H|H]; [|right; right; exact H].
    unfold update_one in H. cbn [fst snd] in H.
    apply keys_dict_set_in in H as [->|H]; [right; left; reflexivity|].
    left. exact H.
Qed.

Lemma mapM_keys (V W : Type) (f : string * V -> result (string * W))
  (l : list (string * V)) (items : list (string * W)) :
  (forall kv r, f kv = Ok r -> fst r = fst kv) ->
  mapM f l = Ok items -> keys items = keys l.
Proof.
  intros Hf. revert items. induction l as [|kv l IH]; intros items H.
  - injection H as <-. reflexivity.
  - cbn [mapM] in H. destruct (f kv) as [r|e] eqn:Er; [|discriminate].
    cbn [rbind] in H. destruct (mapM f l) as [rs|e]; [|discriminate].
    injection H as <-. cbn. rewrite (Hf kv r Er). f_equal. apply IH.
    reflexivity.
Qed.

(** the averages carry no name that is not a meter's *)
Lemma keys_averages (ml : MetricLogger) (avgs : dict string float)
  (k : string) :
  averages ml = Ok avgs -> In k (keys avgs) -> In k (keys ml).
Proof.
  unfold averages. intros H Hk.
  destruct (mapM _ ml) as [items|e] eqn:E; [|discriminate].
  injection H as <-. apply keys_dict_of_items in Hk.
  erewrite mapM_keys in Hk; [exact Hk| |exact E].
  intros [k1 m1] r Hr. cbn [fst snd] in Hr.
  destruct (global_avg m1); [|discriminate]. injection Hr as <-. reflexivity.
Qed.

Lemma count_all_reduce (peers : list MetricLogger) (name : string)
  (m : SmoothedValue) : count m <= count (all_reduce peers name m).
Proof.
  unfold all_reduce. revert m.
  induction peers as [|p peers IH]; intros m; simpl; [lia|].
  destruct (dict_get String.eqb name p) as [pm|].
  - etransitivity; [|apply IH]. simpl. lia.
  - apply IH.
Qed.

Lemma keys_synchronize (peers : list MetricLogger) (ml : MetricLogger) :
  keys (synchronize_between_processes peers ml) = keys ml.
Proof.
  unfold synchronize_between_processes, keys. rewrite map_map. reflexivity.
Qed.

Lemma counted_synchronize (peers : list MetricLogger) (ml : MetricLogger) :
  counted_except [] ml ->
  counted_except [] (synchronize_between_processes peers ml).
Proof.
  intros H k m Hin Hc. unfold synchronize_between_processes in Hin.
  apply in_map_iff in Hin as [[k' m'] [E Hin]]. cbn [fst snd] in E.
  injection E as -> <-. apply (H k m' Hin).
  pose proof (count_all_reduce peers k m'). lia.
Qed.

(** the value of [global_avg] on a meter that has one *)
Definition avg_value (m : SmoothedValue) : float :=
  fmul (total m) (Fin (/ Q2Qc (inject_Z (Z.of_nat (count m))))%Qc).

Lemma global_avg_counted (m : SmoothedValue) :
  count m <> 0 -> global_avg m = Ok (avg_value m).
Proof.
  unfold global_avg, avg_value. destruct (count m); [congruence|reflexivity].
Qed.

(** with every meter counted, the averages are defined, meter by meter *)
Lemma averages_counted (ml : MetricLogger) :
  NoDup (keys ml) -> counted_except [] ml ->
  averages ml = Ok (map (fun km => (fst km, avg_value (snd km))) ml).
Proof.
  intros Hnd H. unfold averages.
  rewrite (mapM_ok _ (fun km => (fst km, avg_value (snd km)))).
  - cbn [rbind]. rewrite dict_of_items_nodup; [reflexivity|].
    unfold keys. rewrite map_map. exact Hnd.
  - intros [k m] Hin. cbn [fst snd]. rewrite global_avg_counted; [reflexivity|].
    intros Hc. exact (H k m Hin Hc).
Qed.

End MetricFacts.

(* ===================================================================== *)
(** * [train_one_epoch]                                                   *)
(* ===================================================================== *)

Module Train.
Import Py Loss Metric PyFacts LossFacts MetricFacts.

Section Driver.

(** The collaborators of the driver.  [model] and [criterion] stand for
    the forward passes in training mode; [reduce_dict] is the distributed
    reduction of [util/misc.py], whose result depends on the other
    workers; autograd, gradient clipping and the optimizer belong to the
    tensor library. *)
Variables Samples Targets Outputs Params Grads Optimizer : Type.
Variable model : Params -> Samples -> Outputs.
Variable criterion : Outputs -> Targets -> LossDict.
Variable weight_dict : WeightDict.
Variable reduce_dict : LossDict -> LossDict.
Variable zero_grad : Grads -> Grads.
Variable backward : Params -> Samples -> Targets -> Grads -> Grads.
Variable clip_grad_norm_ : float -> Grads -> Grads.
Variable optimizer_step : Optimizer -> Params -> Grads -> Optimizer * Params.
Variable param_groups_0_lr : Optimizer -> float.
Variable peers : list MetricLogger.

(** What the driver mutates: the parameters with their accumulated
    gradients, and the optimizer. *)
Record World : Type := {
  params : Params;
  grads : Grads;
  optimizer : Optimizer
}.

(** The calls the driver makes on its collaborators, and what it prints. *)
Inductive Event : Type :=
| Call_model_train
| Call_criterion_train
| Print_loss_is (loss_value : float)
| Print_loss_dict (loss_dict_reduced : LossDict)
| Call_zero_grad
| Call_backward (losses : float)
| Call_clip_grad_norm_ (max_norm : float)
| Call_optimizer_step (g : Grads)
| Call_synchronize
| Print_averaged_stats (ml : MetricLogger).

(** A computation reads and writes the world, logs events, and either
    returns or raises. *)
Definition M (A : Type) : Type := World -> result A * World * list Event.

Definition ret {A} (a : A) : M A := fun w => (Ok a, w, []).
Definition raise {A} (e : exn) : M A := fun w => (Raise e, w, []).
Definition lift {A} (r : result A) : M A := fun w => (r, w, []).
Definition emit (ev : Event) : M unit := fun w => (Ok tt, w, [ev]).
Definition get : M World := fun w => (Ok w, w, []).
Definition put (w : World) : M unit := fun _ => (Ok tt, w, []).

Definition bind {A B} (m : M A) (k : A -> M B) : M B :=
  fun w =>
    match m w with
    | (Ok a, w1, ev1) =>
        match k a w1 with (r, w2, ev2) => (r, w2, ev1 ++ ev2) end
    | (Raise e, w1, ev1) => (Raise e, w1, ev1)
    end.

Notation "x <- m ;; k" := (bind m (fun x => k))
  (at level 61, m at next level, right associativity).
Notation "m ;;; k" := (bind m (fun _ => k))
  (at level 61, right associativity).

(** [optimizer.zero_grad()] *)
Definition do_zero_grad : M unit :=
  w <- get ;;
  put {| params := params w; grads := zero_grad (grads w);
         optimizer := optimizer w |} ;;;
  emit Call_zero_grad.

(** [losses.backward()]: an [int] has no such method *)
Definition do_backward (losses : pyobj) (samples : Samples) (targets : Targets)
  : M unit :=
  match losses with
  | PyInt _ => raise (AttributeError "backward")
  | Tensor x =>
      w <- get ;;
      put {| params := params w;
             grads := backward (params w) samples targets (grads w);
             optimizer := optimizer w |} ;;;
      emit (Call_backward x)
  end.

(** [torch.nn.utils.clip_grad_norm_(model.parameters(), max_norm)] *)
Definition do_clip (max_norm : float) : M unit :=
  w <- get ;;
  put {| params := params w; grads := clip_grad_norm_ max_norm (grads w);
         optimizer := optimizer w |} ;;;
  emit (Call_clip_grad_norm_ max_norm).

(** [optimizer.step()] *)
Definition do_step : M unit :=
  w <- get ;;
  let (o, p) := optimizer_step (optimizer w) (params w) (grads w) in
  put {| params := p; grads := grads w; optimizer := o |} ;;;
  emit (Call_optimizer_step (grads w)).

(** The body of the loop, engine.py lines 53 to 107.  Moving a batch to
    the device changes no value and is left out. *)
Definition train_batch (max_norm : float) (metric_logger : MetricLogger)
  (batch : Samples * Targets) : M MetricLogger :=
  let (samples, targets) := batch in
  w <- get ;;
  let outputs := model (params w) samples in
  let loss_dict := criterion outputs targets in
  losses_ <- lift (losses loss_dict weight_dict) ;;
  let loss_dict_reduced := reduce_dict loss_dict in
  let unscaled := loss_dict_reduced_unscaled loss_dict_reduced in
  scaled <- lift (loss_dict_reduced_scaled loss_dict_reduced weight_dict) ;;
  loss_value <- lift (item (losses_reduced_scaled scaled)) ;;
  (if negb (isfinite loss_value)
   then emit (Print_loss_is loss_value) ;;;
        emit (Print_loss_dict loss_dict_reduced) ;;;
        raise (SystemExit 1)
   else ret tt) ;;;
  do_zero_grad ;;;
  do_backward losses_ samples targets ;;;
  (if fgt max_norm f0 then do_clip max_norm else ret tt) ;;;
  do_step ;;;
  kw1 <- lift (kwargs_merge [("loss"%string, loss_value)] scaled) ;;
  kw <- lift (kwargs_merge kw1 unscaled) ;;
  let ml1 := update kw metric_logger in
  class_error <- lift (getitem loss_dict_reduced "class_error") ;;
  let ml2 := update [("class_error"%string, class_error)] ml1 in
  w' <- get ;;
  ret (update [("lr"%string, param_groups_0_lr (optimizer w'))] ml2).

(** [for samples, targets in metric_logger.log_every(data_loader, ...)]:
    the batches in the order the loader yields them *)
Fixpoint train_loop (max_norm : float) (metric_logger : MetricLogger)
  (data_loader : list (Samples * Targets)) : M MetricLogger :=
  match data_loader with
  | [] => ret metric_logger
  | batch :: rest =>
      ml <- train_batch max_norm metric_logger batch ;;
      train_loop max_norm ml rest
  end.

(** what follows the loop, engine.py lines 110 to 112 *)
Definition train_epilogue (metric_logger : MetricLogger) : M (dict string float) :=
  emit Call_synchronize ;;;
  let ml := synchronize_between_processes peers metric_logger in
  emit (Print_averaged_stats ml) ;;;
  lift (averages ml).

Definition initial_logger : MetricLogger :=
  add_meter "class_error" (add_meter "lr" []).

Definition train_one_epoch (data_loader : list (Samples * Targets))
  (max_norm : float) : M (dict string float) :=
  emit Call_model_train ;;;
  emit Call_criterion_train ;;;
  ml <- train_loop max_norm initial_logger data_loader ;;
  train_epilogue ml.

(** ** One batch, case by case *)

Definition loss_dict_of (w : World) (batch : Samples * Targets) : LossDict :=
  criterion (model (params w) (fst batch)) (snd batch).

Definition reduced_of (w : World) (batch : Samples * Targets) : LossDict :=
  reduce_dict (loss_dict_of w batch).

Definition scaled_of (w : World) (batch : Samples * Targets) : LossDict :=
  dict_of_items String.eqb (scaled_items (reduced_of w batch) weight_dict).

(** the three [metric_logger.update] calls that end the loop body *)
Definition log_batch (ml : MetricLogger) (loss_value : float)
  (scaled unscaled reduced : LossDict) (lr : float) : result MetricLogger :=
  rbind (kwargs_merge [("loss"%string, loss_value)] scaled) (fun kw1 =>
  rbind (kwargs_merge kw1 unscaled) (fun kw =>
  rbind (getitem reduced "class_error") (fun class_error =>
  Ok (update [("lr"%string, lr)]
        (update [("class_error"%string, class_error)] (update kw ml)))))).

(** the gradients the optimizer steps on *)
Definition stepped_grads (max_norm : float) (w : World)
  (batch : Samples * Targets) : Grads :=
  let g := backward (params w) (fst batch) (snd batch) (zero_grad (grads w)) in
  if fgt max_norm f0 then clip_grad_norm_ max_norm g else g.

Definition after_step (max_norm : float) (w : World)
  (batch : Samples * Targets) : World :=
  let g := stepped_grads max_norm w batch in
  let op := optimizer_step (optimizer w) (params w) g in
  {| params := snd op; grads := g; optimizer := fst op |}.

Definition step_events (max_norm x : float) (g : Grads) : list Event :=
  Call_zero_grad :: Call_backward x ::
  (if fgt max_norm f0 then [Call_clip_grad_norm_ max_norm] else []) ++
  [Call_optimizer_step g].

Lemma train_batch_eq (max_norm : float) (ml : MetricLogger)
  (batch : Samples * Targets) (w : World) :
  train_batch max_norm ml batch w =
  match item (losses_reduced_scaled (scaled_of w batch)) with
  | Raise e => (Raise e, w, [])
  | Ok loss_value =>
      if isfinite loss_value then
        match common_keys (loss_dict_of w batch) weight_dict with
        | [] =>
            (Raise (AttributeError "backward"),
             {| params := params w; grads := zero_grad (grads w);
                optimizer := optimizer w |},
             [Call_zero_grad])
        | _ :: _ =>
            let w' := after_step max_norm w batch in
            (log_batch ml loss_value (scaled_of w batch)
               (loss_dict_reduced_unscaled (reduced_of w batch))
               (reduced_of w batch) (param_groups_0_lr (optimizer w')),
             w',
             step_events max_norm
               (weighted_sum (loss_dict_of w batch) weight_dict)
               (stepped_grads max_norm w batch))
        end
      else
        (Raise (SystemExit 1), w,
         [Print_loss_is loss_value; Print_loss_dict (reduced_of w batch)])
  end.
Proof.
  destruct batch as [samples targets].
  unfold train_batch, scaled_of, reduced_of, loss_dict_of, bind, get, lift.
  cbn [fst snd].
  rewrite losses_ok, loss_dict_reduced_scaled_ok.
  set (L := criterion (model (params w) samples) targets).
  set (sc := dict_of_items String.eqb (scaled_items (reduce_dict L) weight_dict)).
  destruct (item (losses_reduced_scaled sc)) as [v|e]; [|reflexivity].
  destruct (isfinite v); cbn [negb]; [|reflexivity].
  destruct (common_keys L weight_dict) as [|k ks] eqn:Eck.
  - reflexivity.
  - unfold after_step, stepped_grads, step_events, log_batch, do_zero_grad,
      do_backward, do_clip, do_step, bind, get, put, emit, ret, lift.
    cbn [fst snd params grads optimizer app].
    destruct (fgt max_norm f0);
      cbn [fst snd params grads optimizer app];
      match goal with
      | |- context [optimizer_step ?o ?p ?g] =>
          destruct (optimizer_step o p g) as [o' p'] eqn:Eop
      end;
      cbn [fst snd params grads optimizer app];
      destruct (kwargs_merge [("loss"%string, v)] sc) as [kw1|e1];
        cbn [rbind app]; try reflexivity;
      destruct (kwargs_merge kw1 _) as [kw|e2];
        cbn [rbind app]; try reflexivity;
      destruct (getitem (reduce_dict L) "class_error") as [ce|e3];
        cbn [rbind app]; reflexivity.
Qed.

(** ** The loss that is backpropagated *)

Definition backward_calls (evs : list Event) : list float :=
  flat_map (fun ev => match ev with Call_backward x => [x] | _ => [] end) evs.

Lemma backward_calls_step_events (max_norm x : float) (g : Grads) :
  backward_calls (step_events max_norm x g) = [x].
Proof. unfold step_events. destruct (fgt max_norm f0); reflexivity. Qed.

(** C1: in [train_one_epoch] the loss object [losses] has the value of the
    sum of [LossDict[k] * WeightDict[k]] over the keys [k] present in both
    dicts; two loss dicts that agree on their weighted entries give the same
    [losses], so a term whose key has no weight never contributes; and the
    value handed to [backward] on a batch, when the batch gets that far, is
    this sum. *)
Theorem losses_is_weighted_sum (max_norm : float) (ml : MetricLogger)
  (batch : Samples * Targets) (w : World) :
  let L := loss_dict_of w batch in
  (exists o, losses L weight_dict = Ok o /\
             to_float o = weighted_sum L weight_dict) /\
  (forall L' : LossDict,
      restrict weight_dict L' = restrict weight_dict L ->
      losses L' weight_dict = losses L weight_dict) /\
  backward_calls (snd (train_batch max_norm ml batch w)) =
  match item (losses_reduced_scaled (scaled_of w batch)),
        common_keys L weight_dict with
  | Ok v, _ :: _ => if isfinite v then [weighted_sum L weight_dict] else []
  | _, _ => []
  end.
Proof.
  intros L. split; [|split].
  - rewrite losses_ok. unfold weighted_sum.
    destruct (common_keys L weight_dict); eexists; split; reflexivity.
  - intros L' E. rewrite !losses_ok, !common_keys_restrict, E.
    rewrite (weighted_sum_restrict weight_dict L'), E.
    rewrite <- (weighted_sum_restrict weight_dict L). reflexivity.
  - rewrite train_batch_eq. fold L.
    destruct (item (losses_reduced_scaled (scaled_of w batch))) as [v|e];
      [|destruct (common_keys L weight_dict); reflexivity].
    destruct (isfinite v); destruct (common_keys L weight_dict);
      cbn [snd]; try reflexivity.
    apply backward_calls_step_events.
Qed.

(** ** The guard on a loss that is not finite *)

Lemma log_batch_no_exit (ml : MetricLogger) (v : float)
  (scaled unscaled reduced : LossDict) (lr : float) (code : Z) :
  log_batch ml v scaled unscaled reduced lr <> Raise (SystemExit code).
Proof.
  unfold log_batch.
  destruct (kwargs_merge [("loss"%string, v)] scaled) as [kw1|e1] eqn:E1;
    cbn [rbind].
  2: { apply kwargs_merge_raise in E1. subst. discriminate. }
  destruct (kwargs_merge kw1 unscaled) as [kw|e2] eqn:E2; cbn [rbind].
  2: { apply kwargs_merge_raise in E2. subst. discriminate. }
  destruct (getitem reduced "class_error") as [ce|e3] eqn:E3; cbn [rbind].
  - discriminate.
  - apply getitem_raise in E3. subst. discriminate.
Qed.

(** C2, as amended: the guard tests the sum of the reduced scaled terms.
    When that value is not finite the batch prints it, prints the reduced
    loss dict and exits with status 1, with no call to [zero_grad],
    [backward] or [step] and with parameters, gradients and optimizer as
    they were; when it is finite the batch does not exit.  When the
    reduction returns its input, as on a single worker, the tested value is
    the value of the unreduced [losses]. *)
Theorem guard_tests_reduced_loss (max_norm : float) (ml : MetricLogger)
  (batch : Samples * Targets) (w : World) (loss_value : float) :
  item (losses_reduced_scaled (scaled_of w batch)) = Ok loss_value ->
  (isfinite loss_value = false ->
   train_batch max_norm ml batch w =
   (Raise (SystemExit 1), w,
    [Print_loss_is loss_value; Print_loss_dict (reduced_of w batch)])) /\
  (isfinite loss_value = true ->
   forall code : Z,
     fst (fst (train_batch max_norm ml batch w)) <> Raise (SystemExit code)) /\
  (reduced_of w batch = loss_dict_of w batch ->
   NoDup (keys (loss_dict_of w batch)) ->
   losses (loss_dict_of w batch) weight_dict = Ok (Tensor loss_value)).
Proof.
  intros Hitem. split; [|split].
  - intros Hfin. rewrite train_batch_eq, Hitem, Hfin. reflexivity.
  - intros Hfin code. rewrite train_batch_eq, Hitem, Hfin.
    destruct (common_keys (loss_dict_of w batch) weight_dict);
      cbn [fst]; [discriminate|apply log_batch_no_exit].
  - intros Hid Hnd. rewrite (@unreduced_sum_is_losses _ weight_dict Hnd).
    unfold scaled_of in Hitem. rewrite Hid in Hitem.
    destruct (losses_reduced_scaled _); [discriminate|].
    injection Hitem as ->. reflexivity.
Qed.

(** ** The key intersection must not be empty *)

(** C10: when the reduction keeps the key set of the loss dict, a
    non-empty intersection of the LossDict and WeightDict keys makes both
    the unreduced weighted sum and the reduced scaled sum tensors, on which
    [item] and [backward] are defined; with an empty intersection both sums
    are the integer 0, the batch raises at [item] with the world untouched
    and no call made, and an epoch that starts with such a batch ends there
    without an optimizer step. *)
Theorem key_intersection_required (max_norm : float) (ml : MetricLogger)
  (batch : Samples * Targets) (rest : list (Samples * Targets)) (w : World) :
  (forall k, In k (keys (reduced_of w batch)) <->
             In k (keys (loss_dict_of w batch))) ->
  let L := loss_dict_of w batch in
  (common_keys L weight_dict <> [] ->
   exists x y,
     losses L weight_dict = Ok (Tensor x) /\
     losses_reduced_scaled (scaled_of w batch) = Tensor y /\
     item (losses_reduced_scaled (scaled_of w batch)) = Ok y /\
     forall w1, fst (fst (do_backward (Tensor x) (fst batch) (snd batch) w1))
                = Ok tt) /\
  (common_keys L weight_dict = [] ->
   losses L weight_dict = Ok (PyInt 0) /\
   losses_reduced_scaled (scaled_of w batch) = PyInt 0 /\
   train_batch max_norm ml batch w = (Raise (AttributeError "item"), w, []) /\
   train_one_epoch (batch :: rest) max_norm w =
   (Raise (AttributeError "item"), w,
    [Call_model_train; Call_criterion_train])).
Proof.
  intros Hkeys L.
  pose proof (common_keys_same_keys _ _ weight_dict Hkeys) as Hnil.
  fold L in Hnil. unfold reduced_of in Hnil. fold L in Hnil.
  assert (Hshape := reduced_sum_shape (reduce_dict L) weight_dict).
  split.
  - intros Hne. rewrite losses_ok. unfold scaled_of, reduced_of. fold L.
    rewrite Hshape.
    destruct (common_keys L weight_dict) eqn:EL; [contradiction|].
    destruct (common_keys (reduce_dict L) weight_dict) eqn:ER.
    { exfalso. apply Hne. apply Hnil. reflexivity. }
    eexists. eexists. repeat split.
  - intros Hempty. rewrite losses_ok, Hempty.
    assert (Hsum : losses_reduced_scaled (scaled_of w batch) = PyInt 0).
    { unfold scaled_of, reduced_of. fold L. rewrite Hshape.
      rewrite (proj2 Hnil Hempty). reflexivity. }
    assert (Hb : forall ml0, train_batch max_norm ml0 batch w
                             = (Raise (AttributeError "item"), w, [])).
    { intros ml0. rewrite train_batch_eq, Hsum. reflexivity. }
    repeat split; try assumption; [apply Hb|].
    unfold train_one_epoch. cbn [train_loop]. unfold bind, emit.
    rewrite Hb. reflexivity.
Qed.

(** ** Gradient clipping *)

Lemma snd_bind {A B} (m : M A) (k : A -> M B) (w : World) :
  snd (bind m k w) =
  snd (m w) ++
  match m w with
  | (Ok a, w1, _) => snd (k a w1)
  | (Raise _, _, _) => []
  end.
Proof.
  unfold bind. destruct (m w) as [[[a|e] w1] ev1]; cbn [snd].
  - destruct (k a w1) as [[r2 w2] ev2]. reflexivity.
  - rewrite app_nil_r. reflexivity.
Qed.

Definition clip_calls (evs : list Event) : list float :=
  flat_map (fun ev => match ev with
                      | Call_clip_grad_norm_ m => [m]
                      | _ => []
                      end) evs.

Definition step_grads (evs : list Event) : list Grads :=
  flat_map (fun ev => match ev with
                      | Call_optimizer_step g => [g]
                      | _ => []
                      end) evs.

(** the gradient that [backward] leaves on zeroed gradients, before any
    clipping *)
Definition raw_grad (w : World) (batch : Samples * Targets) : Grads :=
  backward (params w) (fst batch) (snd batch) (zero_grad (grads w)).

(** batch after batch, the loss that is backpropagated and the gradient
    it leaves; every batch starts from the world the one before it left *)
Fixpoint batch_grads (max_norm : float) (w : World)
  (data_loader : list (Samples * Targets)) : list (float * Grads) :=
  match data_loader with
  | [] => []
  | batch :: rest =>
      (weighted_sum (loss_dict_of w batch) weight_dict, raw_grad w batch)
        :: batch_grads max_norm (after_step max_norm w batch) rest
  end.

(** the calls of a batch that reaches the optimizer step, lines 99 to
    103: the clip call, when there is one, sits between [backward] and
    [step], and then [step] is taken on what the clip returned *)
Definition batch_events (max_norm : float) (xg : float * Grads) : list Event :=
  Call_zero_grad :: Call_backward (fst xg) ::
  (if fgt max_norm f0
   then [Call_clip_grad_norm_ max_norm;
         Call_optimizer_step (clip_grad_norm_ max_norm (snd xg))]
   else [Call_optimizer_step (snd xg)]).

Lemma step_events_batch_events (max_norm : float) (w : World)
  (batch : Samples * Targets) (x : float) :
  step_events max_norm x (stepped_grads max_norm w batch)
  = batch_events max_norm (x, raw_grad w batch).
Proof.
  unfold step_events, stepped_grads, batch_events, raw_grad. cbn [fst snd].
  destruct (fgt max_norm f0); reflexivity.
Qed.

(** a loop that goes through all its batches makes these calls and no
    other *)
Lemma train_loop_events (max_norm : float)
  (data_loader : list (Samples * Targets)) :
  forall (ml ml' : MetricLogger) (w w' : World) (evs : list Event),
    train_loop max_norm ml data_loader w = (Ok ml', w', evs) ->
    evs = flat_map (batch_events max_norm) (batch_grads max_norm w data_loader).
Proof.
  induction data_loader as [|batch rest IH]; intros ml ml' w w' evs H.
  - cbn in H. injection H as _ _ <-. reflexivity.
  - cbn [train_loop] in H. unfold bind in H.
    destruct (train_batch max_norm ml batch w) as [[[ml1|e] w1] ev1] eqn:Eb;
      [|discriminate].
    destruct (train_loop max_norm ml1 rest w1) as [[r w2] ev2] eqn:El.
    injection H as -> -> <-.
    rewrite train_batch_eq in Eb.
    destruct (item _) as [v|]; [|discriminate].
    destruct (isfinite v); [|discriminate].
    destruct (common_keys _ _); [discriminate|].
    cbv zeta in Eb. injection Eb as _ <- <-.
    cbn [batch_grads flat_map]. rewrite step_events_batch_events.
    f_equal. exact (IH _ _ _ _ _ El).
Qed.

Lemma length_batch_grads (max_norm : float)
  (data_loader : list (Samples * Targets)) :
  forall w : World,
    List.length (batch_grads max_norm w data_loader) = List.length data_loader.
Proof.
  induction data_loader as [|batch rest IH]; intros w; cbn; [reflexivity|].
  rewrite IH. reflexivity.
Qed.

Lemma batch_events_clipping (max_norm : float) (l : list (float * Grads)) :
  fgt max_norm f0 = true ->
  clip_calls (flat_map (batch_events max_norm) l)
  = repeat max_norm (List.length l) /\
  step_grads (flat_map (batch_events max_norm) l)
  = map (fun xg => clip_grad_norm_ max_norm (snd xg)) l.
Proof.
  intros Hgt. unfold clip_calls, step_grads.
  induction l as [|xg l [IHc IHs]]; [split; reflexivity|].
  cbn [flat_map]. rewrite !flat_map_app, IHc, IHs.
  unfold batch_events. rewrite Hgt. split; reflexivity.
Qed.

Lemma batch_events_no_clipping (max_norm : float) (l : list (float * Grads)) :
  fgt max_norm f0 = false ->
  clip_calls (flat_map (batch_events max_norm) l) = [] /\
  step_grads (flat_map (batch_events max_norm) l) = map snd l.
Proof.
  intros Hgt. unfold clip_calls, step_grads.
  induction l as [|xg l [IHc IHs]]; [split; reflexivity|].
  cbn [flat_map]. rewrite !flat_map_app, IHc, IHs.
  unfold batch_events. rewrite Hgt. split; reflexivity.
Qed.

(** on any run, also one that a batch cuts short: one clip call with
    [max_norm] for every optimizer step when [max_norm > 0], none
    otherwise *)
Definition once_per_step (max_norm : float) (evs : list Event) : Prop :=
  clip_calls evs =
  (if fgt max_norm f0 then map (fun _ => max_norm) (step_grads evs) else []).

Lemma once_per_step_app (max_norm : float) (a b : list Event) :
  once_per_step max_norm a -> once_per_step max_norm b ->
  once_per_step max_norm (a ++ b).
Proof.
  unfold once_per_step, clip_calls, step_grads. intros Ha Hb.
  rewrite !flat_map_app, Ha, Hb.
  destruct (fgt max_norm f0); [rewrite map_app|]; reflexivity.
Qed.

Lemma once_per_step_quiet (max_norm : float) (evs : list Event) :
  clip_calls evs = [] -> step_grads evs = [] -> once_per_step max_norm evs.
Proof.
  unfold once_per_step. intros -> ->. destruct (fgt max_norm f0); reflexivity.
Qed.

Lemma once_per_step_batch (max_norm : float) (ml : MetricLogger)
  (batch : Samples * Targets) (w : World) :
  once_per_step max_norm (snd (train_batch max_norm ml batch w)).
Proof.
  rewrite train_batch_eq.
  destruct (item (losses_reduced_scaled (scaled_of w batch))) as [v|e];
    [|apply once_per_step_quiet; reflexivity].
  destruct (isfinite v); [|apply once_per_step_quiet; reflexivity].
  destruct (common_keys (loss_dict_of w batch) weight_dict);
    [apply once_per_step_quiet; reflexivity|].
  cbn [snd]. unfold once_per_step, step_events.
  destruct (fgt max_norm f0); reflexivity.
Qed.

Lemma once_per_step_loop (max_norm : float)
  (data_loader : list (Samples * Targets)) (ml : MetricLogger) (w : World) :
  once_per_step max_norm (snd (train_loop max_norm ml data_loader w)).
Proof.
  revert ml w. induction data_loader as [|batch rest IH]; intros ml w.
  - apply once_per_step_quiet; reflexivity.
  - cbn [train_loop]. rewrite snd_bind. apply once_per_step_app.
    + apply once_per_step_batch.
    + destruct (train_batch max_norm ml batch w) as [[[ml'|e] w1] ev1].
      * apply IH.
      * apply once_per_step_quiet; reflexivity.
Qed.

Lemma once_per_step_epoch (max_norm : float)
  (data_loader : list (Samples * Targets)) (w : World) :
  once_per_step max_norm (snd (train_one_epoch data_loader max_norm w)).
Proof.
  unfold train_one_epoch.
  rewrite snd_bind. cbn [emit snd]. apply once_per_step_app.
  { apply once_per_step_quiet; reflexivity. }
  rewrite snd_bind. cbn [emit snd]. apply once_per_step_app.
  { apply once_per_step_quiet; reflexivity. }
  rewrite snd_bind. apply once_per_step_app; [apply once_per_step_loop|].
  destruct (train_loop max_norm initial_logger data_loader w)
    as [[[ml'|e] w1] ev1].
  - unfold train_epilogue. rewrite !snd_bind. cbn [emit snd lift app].
    apply once_per_step_quiet; reflexivity.
  - apply once_per_step_quiet; reflexivity.
Qed.

(** *** The clipping of the tensor library *)

(** [1e-6] *)
Definition eps : float := Fin (Q2Qc (1 # 1000000)).

(** [x / y] on tensors: a division by zero gives an infinity or nan, not
    an exception; zero is taken as positive *)
Definition fdiv (x y : float) : float :=
  match x, y with
  | Fin a, Fin b =>
      match (b ?= Q2Qc 0)%Qc with
      | Eq => inf_of_sign (a ?= Q2Qc 0)%Qc
      | _ => Fin (a / b)%Qc
      end
  | Fin _, PInf | Fin _, NInf => f0
  | PInf, Fin b => match (b ?= Q2Qc 0)%Qc with Lt => NInf | _ => PInf end
  | NInf, Fin b => match (b ?= Q2Qc 0)%Qc with Lt => PInf | _ => NInf end
  | _, _ => NaN
  end.

(** [torch.clamp(x, max=hi)]: nan stays nan *)
Definition clamp_max (x hi : float) : float := if fgt x hi then hi else x.

(** the coefficient by which [clip_grad_norm_] multiplies the gradients:
    [torch.clamp(max_norm / (total_norm + 1e-6), max=1.0)] *)
Definition clip_coef_clamped (max_norm total_norm : float) : float :=
  clamp_max (fdiv max_norm (fadd total_norm eps)) f1.

Lemma this_plus (a b : Qc) : (this (a + b) == this a + this b)%Q.
Proof. apply Qred_correct. Qed.

Lemma this_mult (a b : Qc) : (this (a * b) == this a * this b)%Q.
Proof. apply Qred_correct. Qed.

Lemma coef_bound (m n e : Qc) :
  (0 < m)%Qc -> (0 <= n)%Qc -> (0 < e)%Qc ->
  (n + e)%Qc <> 0%Qc /\
  (0 <= m / (n + e))%Qc /\
  (m / (n + e) * n <= m)%Qc /\
  ((1 < m / (n + e))%Qc -> (1 * n <= m)%Qc).
Proof.
  intros Hm Hn He.
  assert (Hd : (0 < n + e)%Qc).
  { unfold Qclt, Qcle in *. rewrite this_plus.
    change (this 0%Qc) with 0%Q in *. lra. }
  assert (Hne : (n + e)%Qc <> 0%Qc).
  { intros E. rewrite E in Hd. unfold Qclt in Hd.
    change (this 0%Qc) with 0%Q in Hd. lra. }
  split; [exact Hne|].
  assert (E : (m / (n + e) * (n + e) = m)%Qc) by (field; exact Hne).
  set (c := (m / (n + e))%Qc) in *.
  assert (E' : (this c * (this n + this e) == this m)%Q).
  { transitivity (this (c * (n + e))%Qc);
      [rewrite this_mult, this_plus; reflexivity|rewrite E; reflexivity]. }
  unfold Qclt, Qcle in *. rewrite ?this_mult, ?this_plus in *.
  change (this 0%Qc) with 0%Q in *. change (this 1%Qc) with 1%Q in *.
  assert (Hc : (0 <= this c)%Q) by nra.
  split; [exact Hc|]. split; [nra|]. intros Hc1. nra.
Qed.

Lemma fle_Fin (a b : Qc) : (a <= b)%Qc -> fle (Fin a) (Fin b) = true.
Proof.
  intros H. unfold fle, fcompare.
  destruct (a ?= b)%Qc eqn:E; try reflexivity.
  exfalso. apply (proj1 (Qle_alt (this a) (this b)) H). exact E.
Qed.

Lemma fgt_Fin (a b : Qc) : fgt (Fin a) (Fin b) = true -> (b < a)%Qc.
Proof.
  unfold fgt, fcompare. intros H.
  apply (proj2 (Qgt_alt (this a) (this b))).
  destruct (a ?= b)%Qc eqn:E; try discriminate. exact E.
Qed.

Section TorchClip.

(** Modelled from the library: [torch.nn.utils.clip_grad_norm_] is not
    code of this repository.  As the library documents it, it takes the
    norm of all gradients taken together, computes the coefficient
    [max_norm / (total_norm + 1e-6)] clamped to at most 1.0, and
    multiplies every gradient by it in place.  [total_norm] is the L2
    norm and [mul_] the multiplication of the gradients by a number; of
    the two, the norm of a gradient multiplied by a number that is not
    negative is that number times its norm. *)
Variable total_norm : Grads -> float.
Variable mul_ : float -> Grads -> Grads.

Hypothesis norm_mul_ :
  forall (c : Qc) (g : Grads),
    (0 <= c)%Qc -> total_norm (mul_ (Fin c) g) = fmul (Fin c) (total_norm g).

Hypothesis clip_is_torch :
  forall (max_norm : float) (g : Grads),
    clip_grad_norm_ max_norm g
    = mul_ (clip_coef_clamped max_norm (total_norm g)) g.

(** gradients of finite norm come out of the clip with a norm that is at
    most [max_norm] *)
Lemma torch_clip_bound (max_norm : float) (g : Grads) (n : Qc) :
  fgt max_norm f0 = true -> total_norm g = Fin n -> (0 <= n)%Qc ->
  fle (total_norm (clip_grad_norm_ max_norm g)) max_norm = true.
Proof.
  intros Hgt Hn Hpos. rewrite clip_is_torch, Hn.
  unfold clip_coef_clamped, eps. cbn [fadd].
  assert (He : (0 < Q2Qc (1 # 1000000))%Qc) by reflexivity.
  destruct max_norm as [m| | |]; try discriminate.
  - apply fgt_Fin in Hgt. change (Q2Qc 0) with 0%Qc in Hgt.
    destruct (coef_bound Hgt Hpos He) as (Hne & Hc & Hle & Hone).
    unfold fdiv. change (Q2Qc 0) with 0%Qc.
    destruct (n + Q2Qc (1 # 1000000) ?= 0)%Qc eqn:Ecmp.
    + exfalso. apply Hne. apply Qceq_alt. exact Ecmp.
    + unfold clamp_max.
      destruct (fgt (Fin (m / (n + Q2Qc (1 # 1000000)))) f1) eqn:E1.
      * apply fgt_Fin in E1. change (Q2Qc 1) with 1%Qc in E1.
        unfold f1. change (Q2Qc 1) with 1%Qc.
        rewrite norm_mul_, Hn by discriminate. cbn [fmul].
        apply fle_Fin, Hone, E1.
      * rewrite norm_mul_, Hn by exact Hc. cbn [fmul]. apply fle_Fin, Hle.
    + unfold clamp_max.
      destruct (fgt (Fin (m / (n + Q2Qc (1 # 1000000)))) f1) eqn:E1.
      * apply fgt_Fin in E1. change (Q2Qc 1) with 1%Qc in E1.
        unfold f1. change (Q2Qc 1) with 1%Qc.
        rewrite norm_mul_, Hn by discriminate. cbn [fmul].
        apply fle_Fin, Hone, E1.
      * rewrite norm_mul_, Hn by exact Hc. cbn [fmul]. apply fle_Fin, Hle.
  - assert (Hd : (0 < n + Q2Qc (1 # 1000000))%Qc).
    { unfold Qclt, Qcle in *. rewrite this_plus.
      change (this 0%Qc) with 0%Q in *. lra. }
    unfold fdiv. change (Q2Qc 0) with 0%Qc.
    apply Qclt_alt in Hd. apply Qcgt_alt in Hd. rewrite Hd.
    unfold clamp_max. change (fgt PInf f1) with true. cbv iota.
    unfold f1. change (Q2Qc 1) with 1%Qc.
    rewrite norm_mul_, Hn by discriminate. reflexivity.
Qed.


End TorchClip.

(** ** What the epoch returns *)

(** distinct meter names, and every meter outside [names] has a value *)
Definition logger_inv (names : list string) (ml : MetricLogger) : Prop :=
  NoDup (keys ml) /\ counted_except names ml.

Lemma initial_logger_inv :
  logger_inv ["lr"%string; "class_error"%string] initial_logger.
Proof.
  split.
  - cbn. repeat constructor; cbn; intuition discriminate.
  - intros k m Hin _. cbn in Hin.
    destruct Hin as [[= <- _]|[[= <- _]|[]]]; cbn; auto.
Qed.

(** a batch that completes has logged the loss value, every scaled and
    unscaled reduced term, the reduced class error and the learning rate *)
Lemma train_batch_completes (max_norm : float) (ml ml1 : MetricLogger)
  (batch : Samples * Targets) (w w1 : World) (evs1 : list Event) :
  train_batch max_norm ml batch w = (Ok ml1, w1, evs1) ->
  exists loss_value class_error,
    item (losses_reduced_scaled (scaled_of w batch)) = Ok loss_value /\
    getitem (reduced_of w batch) "class_error" = Ok class_error /\
    w1 = after_step max_norm w batch /\
    ml1 =
    update [("lr"%string, param_groups_0_lr (optimizer w1))]
      (update [("class_error"%string, class_error)]
         (update ((("loss"%string, loss_value) :: scaled_of w batch) ++
                  loss_dict_reduced_unscaled (reduced_of w batch)) ml)).
Proof.
  rewrite train_batch_eq.
  destruct (item (losses_reduced_scaled (scaled_of w batch))) as [v|e];
    [|discriminate].
  destruct (isfinite v); [|discriminate].
  destruct (common_keys (loss_dict_of w batch) weight_dict); [discriminate|].
  cbv zeta. unfold log_batch.
  destruct (kwargs_merge [("loss"%string, v)] (scaled_of w batch))
    as [kw1|e1] eqn:E1; cbn [rbind]; [|discriminate].
  destruct (kwargs_merge kw1 _) as [kw|e2] eqn:E2; cbn [rbind]; [|discriminate].
  destruct (getitem (reduced_of w batch) "class_error") as [ce|e3] eqn:E3;
    cbn [rbind]; [|discriminate].
  intros [= <- <- <-]. exists v, ce.
  apply kwargs_merge_ok in E1, E2. subst kw1 kw.
  repeat split; reflexivity.
Qed.

Lemma train_batch_inv (max_norm : float) (ml ml1 : MetricLogger)
  (batch : Samples * Targets) (w w1 : World) (evs1 : list Event) :
  logger_inv ["lr"%string; "class_error"%string] ml ->
  train_batch max_norm ml batch w = (Ok ml1, w1, evs1) ->
  logger_inv [] ml1.
Proof.
  intros [Hnd Hc] H.
  apply train_batch_completes in H as (v & ce & _ & _ & _ & ->).
  set (kw := (("loss"%string, v) :: scaled_of w batch) ++ _).
  assert (Hnd1 := nodup_update kw ml Hnd).
  assert (Hc1 := update_counted kw Hnd Hc).
  change (update [("class_error"%string, ce)] (update kw ml))
    with (update_one (update kw ml) ("class_error"%string, ce)).
  set (ml2 := update_one (update kw ml) ("class_error"%string, ce)).
  assert (Hnd2 : NoDup (keys ml2)) by (apply nodup_update_one, Hnd1).
  assert (Hc2 : counted_except ["lr"%string] ml2).
  { exact (update_one_counted ("class_error"%string, ce) Hnd1 Hc1). }
  match goal with
  | |- logger_inv [] (update [?kv] ml2) =>
      change (update [kv] ml2) with (update_one ml2 kv);
      split; [apply nodup_update_one, Hnd2|];
      exact (update_one_counted kv Hnd2 Hc2)
  end.
Qed.

Lemma logger_inv_weaken (ml : MetricLogger) :
  logger_inv [] ml -> logger_inv ["lr"%string; "class_error"%string] ml.
Proof.
  intros [Hnd Hc]. split; [exact Hnd|].
  eapply counted_except_weaken; [|exact Hc]. intros k [].
Qed.

Lemma train_loop_inv (max_norm : float) (data_loader : list (Samples * Targets))
  (ml ml' : MetricLogger) (w w' : World) (evs : list Event) :
  logger_inv ["lr"%string; "class_error"%string] ml ->
  train_loop max_norm ml data_loader w = (Ok ml', w', evs) ->
  data_loader <> [] \/ logger_inv [] ml ->
  logger_inv [] ml'.
Proof.
  revert ml w evs. induction data_loader as [|batch rest IH];
    intros ml w evs Hinv H Hor.
  - cbn in H. injection H as <- <- <-.
    destruct Hor as [Hne|Hi]; [contradiction|exact Hi].
  - cbn [train_loop] in H. unfold bind in H.
    destruct (train_batch max_norm ml batch w) as [[[ml1|e] w1] ev1] eqn:Eb;
      [|discriminate].
    destruct (train_loop max_norm ml1 rest w1) as [[r2 w2] ev2] eqn:El.
    injection H as -> -> <-.
    pose proof (@train_batch_inv _ _ _ _ _ _ _ Hinv Eb) as H1.
    eapply IH; [apply logger_inv_weaken, H1|exact El|right; exact H1].
Qed.

Lemma kwargs_merge_clash (V : Type) (b a : dict string V) (k : string) :
  In k (keys a) -> In k (keys b) ->
  kwargs_merge a b =
  Raise (TypeError "got multiple values for keyword argument"%string).
Proof.
  revert a. induction b as [|[k1 v1] b IH]; intros a Ha Hb; [destruct Hb|].
  cbn [kwargs_merge]. destruct (contains String.eqb k1 a) eqn:Ec;
    [reflexivity|].
  cbn [keys map fst] in Hb. destruct Hb as [->|Hb].
  - apply contains_in in Ha. congruence.
  - apply IH; [|exact Hb]. unfold keys. rewrite map_app.
    apply in_or_app. left. exact Ha.
Qed.

(** ** The aggregator over the epoch *)

(** the meter under a name, a new one when there is none yet *)
Definition meter_of (k : string) (ml : MetricLogger) : SmoothedValue :=
  match dict_get String.eqb k ml with Some m => m | None => new_meter end.

(** what a batch that completes makes of the aggregator, engine.py lines
    105 to 107 *)
Definition logged (max_norm : float) (w : World) (batch : Samples * Targets)
  (ml : MetricLogger) : MetricLogger :=
  update [("lr"%string,
           param_groups_0_lr (optimizer (after_step max_norm w batch)))]
    (update [("class_error"%string,
              at_key (reduced_of w batch) "class_error")]
       (update ((("loss"%string,
                  to_float (losses_reduced_scaled (scaled_of w batch)))
                   :: scaled_of w batch) ++
                loss_dict_reduced_unscaled (reduced_of w batch)) ml)).

(** all the batches, each starting from the world the one before it left *)
Fixpoint logged_epoch (max_norm : float) (ml : MetricLogger) (w : World)
  (data_loader : list (Samples * Targets)) : MetricLogger * World :=
  match data_loader with
  | [] => (ml, w)
  | batch :: rest =>
      logged_epoch max_norm (logged max_norm w batch ml)
                   (after_step max_norm w batch) rest
  end.

(** the loss values of the batches *)
Fixpoint loss_values (max_norm : float) (w : World)
  (data_loader : list (Samples * Targets)) : list float :=
  match data_loader with
  | [] => []
  | batch :: rest =>
      to_float (losses_reduced_scaled (scaled_of w batch))
        :: loss_values max_norm (after_step max_norm w batch) rest
  end.

Lemma meter_of_update_one (k : string) (ml : MetricLogger)
  (kv : string * float) :
  meter_of k (update_one ml kv)
  = if String.eqb k (fst kv) then meter_update (snd kv) (meter_of k ml)
    else meter_of k ml.
Proof.
  unfold meter_of, update_one.
  destruct (String.eqb_spec k (fst kv)) as [->|Hne].
  - rewrite dict_get_set_same. reflexivity.
  - rewrite dict_get_set_other by exact Hne. reflexivity.
Qed.

Lemma meter_of_update_other (k : string) (kw : dict string float) :
  forall ml : MetricLogger,
    ~ In k (keys kw) -> meter_of k (update kw ml) = meter_of k ml.
Proof.
  unfold update. induction kw as [|kv kw IH]; intros ml H; cbn [fold_left];
    [reflexivity|].
  rewrite IH by (intros Hin; apply H; right; exact Hin).
  rewrite meter_of_update_one.
  destruct (String.eqb_spec k (fst kv)) as [->|Hne]; [|reflexivity].
  exfalso. apply H. left. reflexivity.
Qed.

Lemma logged_loss_meter (max_norm : float) (w : World)
  (batch : Samples * Targets) (ml : MetricLogger) :
  ~ In "loss"%string (keys (scaled_of w batch)) ->
  ~ In "loss"%string (keys (loss_dict_reduced_unscaled (reduced_of w batch))) ->
  meter_of "loss" (logged max_norm w batch ml)
  = meter_update (to_float (losses_reduced_scaled (scaled_of w batch)))
                 (meter_of "loss" ml).
Proof.
  intros Hs Hu. unfold logged.
  rewrite (meter_of_update_other "loss"
             [("lr"%string,
               param_groups_0_lr (optimizer (after_step max_norm w batch)))])
    by (cbn; intuition discriminate).
  rewrite (meter_of_update_other "loss"
             [("class_error"%string,
               at_key (reduced_of w batch) "class_error")])
    by (cbn; intuition discriminate).
  unfold update. cbn [app fold_left].
  change (fold_left update_one ?kw ?m) with (update kw m).
  rewrite meter_of_update_other.
  - rewrite meter_of_update_one. reflexivity.
  - unfold keys. rewrite map_app. intros Hin.
    apply in_app_or in Hin as [Hin|Hin]; [exact (Hs Hin)|exact (Hu Hin)].
Qed.

(** a batch that completes: the world and the aggregator it leaves, and
    no loss term is called ["loss"] *)
Lemma train_batch_logged (max_norm : float) (ml ml1 : MetricLogger)
  (batch : Samples * Targets) (w w1 : World) (evs1 : list Event) :
  train_batch max_norm ml batch w = (Ok ml1, w1, evs1) ->
  w1 = after_step max_norm w batch /\
  ml1 = logged max_norm w batch ml /\
  ~ In "loss"%string (keys (scaled_of w batch)) /\
  ~ In "loss"%string (keys (loss_dict_reduced_unscaled (reduced_of w batch))).
Proof.
  rewrite train_batch_eq.
  destruct (item (losses_reduced_scaled (scaled_of w batch))) as [v|e] eqn:Ei;
    [|discriminate].
  destruct (isfinite v); [|discriminate].
  destruct (common_keys (loss_dict_of w batch) weight_dict); [discriminate|].
  cbv zeta. unfold log_batch.
  destruct (kwargs_merge [("loss"%string, v)] (scaled_of w batch))
    as [kw1|e1] eqn:E1; cbn [rbind]; [|discriminate].
  destruct (kwargs_merge kw1 _) as [kw|e2] eqn:E2; cbn [rbind]; [|discriminate].
  destruct (getitem (reduced_of w batch) "class_error") as [ce|e3] eqn:E3;
    cbn [rbind]; [|discriminate].
  intros [= <- <- <-].
  assert (Hv : to_float (losses_reduced_scaled (scaled_of w batch)) = v).
  { destruct (losses_reduced_scaled (scaled_of w batch)); cbn in Ei;
      [discriminate|]. injection Ei as ->. reflexivity. }
  assert (Hce : at_key (reduced_of w batch) "class_error" = ce).
  { unfold getitem in E3. unfold at_key.
    destruct (dict_get String.eqb "class_error"%string (reduced_of w batch));
      [|discriminate]. injection E3 as ->. reflexivity. }
  pose proof (kwargs_merge_ok _ _ E1) as K1. subst kw1.
  split; [reflexivity|]. split; [|split].
  - unfold logged. rewrite Hv, Hce.
    apply kwargs_merge_ok in E2. subst kw. reflexivity.
  - intros Hin.
    rewrite (@kwargs_merge_clash _ (scaled_of w batch)
               [("loss"%string, v)] "loss"%string) in E1;
      [discriminate|left; reflexivity|exact Hin].
  - intros Hin.
    rewrite (@kwargs_merge_clash _
               (loss_dict_reduced_unscaled (reduced_of w batch))
               ([("loss"%string, v)] ++ scaled_of w batch) "loss"%string)
      in E2; [discriminate|left; reflexivity|exact Hin].
Qed.

(** a loop that goes through all its batches, as the updates of all of
    them; the meter of the loss gets one value per batch *)
Lemma train_loop_logged (max_norm : float)
  (data_loader : list (Samples * Targets)) :
  forall (ml ml' : MetricLogger) (w w' : World) (evs : list Event),
    train_loop max_norm ml data_loader w = (Ok ml', w', evs) ->
    (ml', w') = logged_epoch max_norm ml w data_loader /\
    count (meter_of "loss" ml')
    = (count (meter_of "loss" ml) + List.length data_loader)%nat /\
    total (meter_of "loss" ml')
    = fold_left fadd (loss_values max_norm w data_loader)
                (total (meter_of "loss" ml)).
Proof.
  induction data_loader as [|batch rest IH]; intros ml ml' w w' evs H.
  - cbn in H. injection H as <- <- _. cbn. rewrite Nat.add_0_r.
    repeat split.
  - cbn [train_loop] in H. unfold bind in H.
    destruct (train_batch max_norm ml batch w) as [[[ml1|e] w1] ev1] eqn:Eb;
      [|discriminate].
    destruct (train_loop max_norm ml1 rest w1) as [[r w2] ev2] eqn:El.
    injection H as -> -> _.
    apply train_batch_logged in Eb as (-> & -> & Hs & Hu).
    destruct (IH _ _ _ _ _ El) as (Hlog & Hc & Ht).
    rewrite (logged_loss_meter max_norm w batch ml Hs Hu) in Hc, Ht.
    cbn [logged_epoch loss_values fold_left List.length].
    split; [exact Hlog|]. split.
    + rewrite Hc. cbn [count meter_update]. lia.
    + rewrite Ht. reflexivity.
Qed.

Lemma dict_get_map_values (V W : Type) (f : string -> V -> W)
  (d : dict string V) (k : string) :
  dict_get String.eqb k (map (fun kv => (fst kv, f (fst kv) (snd kv))) d)
  = option_map (f k) (dict_get String.eqb k d).
Proof.
  induction d as [|[k1 v1] d IH]; cbn; [reflexivity|].
  destruct (String.eqb_spec k k1) as [->|Hne]; [reflexivity|exact IH].
Qed.


(** ** Further facts on the training loop *)

Lemma isfinite_fmul_l (x w : float) :
  isfinite x = false -> isfinite (fmul x w) = false.
Proof.
  destruct x as [q| | |]; [discriminate| | |]; intros _.
  - destruct w as [q| | |]; cbn; try reflexivity.
    destruct (q ?= Q2Qc 0)%Qc; reflexivity.
  - destruct w as [q| | |]; cbn; try reflexivity.
    destruct (q ?= Q2Qc 0)%Qc; reflexivity.
  - destruct w; reflexivity.
Qed.

Lemma isfinite_fadd_l (x y : float) :
  isfinite x = false -> isfinite (fadd x y) = false.
Proof. destruct x, y; cbn; intros H; try reflexivity; discriminate. Qed.

Lemma isfinite_fadd_r (x y : float) :
  isfinite y = false -> isfinite (fadd x y) = false.
Proof. destruct x, y; cbn; intros H; try reflexivity; discriminate. Qed.

Lemma isfinite_fsum (l : list float) (x : float) :
  In x l -> isfinite x = false -> isfinite (fsum l) = false.
Proof.
  induction l as [|y l IH]; intros Hin Hx; [destruct Hin|].
  change (fsum (y :: l)) with (fadd y (fsum l)).
  destruct Hin as [->|Hin].
  - apply isfinite_fadd_l, Hx.
  - apply isfinite_fadd_r. apply IH; assumption.
Qed.

(** X1: a weighted term of the reduced loss dict that is nan or infinite
    makes the tested loss value not finite, whatever its weight, and the
    batch exits with status 1 with the world as it was and nothing but
    the two prints. *)
Theorem nonfinite_term_exits (max_norm : float) (ml : MetricLogger)
  (batch : Samples * Targets) (w : World) (k : string) :
  NoDup (keys (reduced_of w batch)) ->
  In k (common_keys (reduced_of w batch) weight_dict) ->
  isfinite (at_key (reduced_of w batch) k) = false ->
  exists v,
    isfinite v = false /\
    train_batch max_norm ml batch w =
    (Raise (SystemExit 1), w,
     [Print_loss_is v; Print_loss_dict (reduced_of w batch)]).
Proof.
  intros Hnd Hk Hinf. set (R := reduced_of w batch) in *.
  assert (Hsc : scaled_of w batch = scaled_items R weight_dict).
  { unfold scaled_of. fold R. apply dict_of_items_nodup.
    rewrite keys_scaled_items. apply nodup_common_keys, Hnd. }
  assert (Hin : In (fmul (at_key R k) (at_key weight_dict k))
                   (values (scaled_items R weight_dict))).
  { rewrite <- keys_scaled_items in Hk.
    pose proof (dict_get_scaled_items R weight_dict k Hnd Hk) as Hg.
    apply dict_get_some_in in Hg. apply (in_map snd) in Hg. exact Hg. }
  exists (fsum (values (scaled_items R weight_dict))).
  assert (Hnf : isfinite (fsum (values (scaled_items R weight_dict))) = false).
  { eapply isfinite_fsum; [exact Hin|]. apply isfinite_fmul_l, Hinf. }
  split; [exact Hnf|].
  rewrite train_batch_eq, Hsc. unfold losses_reduced_scaled.
  rewrite py_sum_tensors.
  destruct (values (scaled_items R weight_dict)) as [|x l] eqn:Ev;
    [destruct Hin|].
  cbn [item]. rewrite Hnf. reflexivity.
Qed.

(** the loop over a loader in two parts *)
Lemma train_loop_app (max_norm : float) (a b : list (Samples * Targets)) :
  forall (ml : MetricLogger) (w : World),
    train_loop max_norm ml (a ++ b) w =
    match train_loop max_norm ml a w with
    | (Ok ml1, w1, ev1) =>
        match train_loop max_norm ml1 b w1 with
        | (r, w2, ev2) => (r, w2, ev1 ++ ev2)
        end
    | (Raise e, w1, ev1) => (Raise e, w1, ev1)
    end.
Proof.
  induction a as [|batch a IH]; intros ml w; cbn [app train_loop].
  - unfold ret. destruct (train_loop max_norm ml b w) as [[r w2] ev2].
    reflexivity.
  - unfold bind.
    destruct (train_batch max_norm ml batch w) as [[[ml0|e] w0] ev0];
      [|reflexivity].
    rewrite IH.
    destruct (train_loop max_norm ml0 a w0) as [[[ml1|e] w1] ev1].
    + destruct (train_loop max_norm ml1 b w1) as [[r w2] ev2].
      rewrite app_assoc. reflexivity.
    + reflexivity.
Qed.

(** X2: a batch that raises ends the epoch there: the exception is the
    epoch's outcome, the world is the one that batch left, the batches
    after it are not run, and the aggregator is neither synchronized nor
    printed. *)
Theorem epoch_stops_at_raise (pre rest : list (Samples * Targets))
  (bad : Samples * Targets) (max_norm : float) (w w1 w2 : World)
  (ml1 : MetricLogger) (ev1 ev2 : list Event) (e : exn) :
  train_loop max_norm initial_logger pre w = (Ok ml1, w1, ev1) ->
  train_batch max_norm ml1 bad w1 = (Raise e, w2, ev2) ->
  train_one_epoch (pre ++ bad :: rest) max_norm w =
  (Raise e, w2, [Call_model_train; Call_criterion_train] ++ ev1 ++ ev2).
Proof.
  intros Hpre Hbad. unfold train_one_epoch, bind, emit.
  rewrite train_loop_app, Hpre. cbn [train_loop]. unfold bind.
  rewrite Hbad. reflexivity.
Qed.

(** X3: a weighted loss term called ["loss"] collides with the keyword
    under which the total is logged: on a finite loss the batch raises a
    [TypeError], and only after the optimizer has stepped. *)
Theorem loss_keyword_clash (max_norm : float) (ml : MetricLogger)
  (batch : Samples * Targets) (w : World) (v : float) :
  item (losses_reduced_scaled (scaled_of w batch)) = Ok v ->
  isfinite v = true ->
  common_keys (loss_dict_of w batch) weight_dict <> [] ->
  In "loss"%string (keys (scaled_of w batch)) ->
  train_batch max_norm ml batch w =
  (Raise (TypeError "got multiple values for keyword argument"%string),
   after_step max_norm w batch,
   step_events max_norm (weighted_sum (loss_dict_of w batch) weight_dict)
               (stepped_grads max_norm w batch)).
Proof.
  intros Hitem Hfin Hne Hloss. rewrite train_batch_eq, Hitem, Hfin.
  destruct (common_keys (loss_dict_of w batch) weight_dict);
    [contradiction|].
  cbv zeta. unfold log_batch.
  rewrite (@kwargs_merge_clash _ (scaled_of w batch)
             [("loss"%string, v)] "loss"%string);
    [reflexivity|left; reflexivity|exact Hloss].
Qed.

(** X4: when the reduced loss dict has no ["class_error"] entry, a batch
    with a finite loss fails, and it fails after the optimizer has
    stepped: the world is the one after the step and the calls of the
    step have all been made. *)
Theorem missing_class_error_fails_after_step (max_norm : float)
  (ml : MetricLogger) (batch : Samples * Targets) (w : World) (v : float) :
  item (losses_reduced_scaled (scaled_of w batch)) = Ok v ->
  isfinite v = true ->
  common_keys (loss_dict_of w batch) weight_dict <> [] ->
  ~ In "class_error"%string (keys (reduced_of w batch)) ->
  exists e,
    (e = KeyError "class_error"%string \/
     e = TypeError "got multiple values for keyword argument"%string) /\
    train_batch max_norm ml batch w =
    (Raise e, after_step max_norm w batch,
     step_events max_norm (weighted_sum (loss_dict_of w batch) weight_dict)
                 (stepped_grads max_norm w batch)).
Proof.
  intros Hitem Hfin Hne Hce. rewrite train_batch_eq, Hitem, Hfin.
  destruct (common_keys (loss_dict_of w batch) weight_dict);
    [contradiction|].
  cbv zeta. unfold log_batch.
  destruct (kwargs_merge [("loss"%string, v)] (scaled_of w batch))
    as [kw1|e1] eqn:E1; cbn [rbind].
  2: { apply kwargs_merge_raise in E1. subst.
       eexists. split; [right; reflexivity|reflexivity]. }
  destruct (kwargs_merge kw1 _) as [kw|e2] eqn:E2; cbn [rbind].
  2: { apply kwargs_merge_raise in E2. subst.
       eexists. split; [right; reflexivity|reflexivity]. }
  unfold getitem.
  destruct (dict_get String.eqb "class_error"%string (reduced_of w batch))
    eqn:Eg.
  - exfalso. apply Hce. apply dict_get_some_in in Eg.
    apply (in_map fst) in Eg. exact Eg.
  - cbn [rbind]. eexists. split; [left; reflexivity|reflexivity].
Qed.

Definition zero_grad_calls (evs : list Event) : nat :=
  List.length (filter (fun ev => match ev with
                                 | Call_zero_grad => true
                                 | _ => false
                                 end) evs).

Lemma step_events_counts (max_norm x : float) (g : Grads) :
  zero_grad_calls (step_events max_norm x g) = 1%nat /\
  backward_calls (step_events max_norm x g) = [x] /\
  step_grads (step_events max_norm x g) = [g].
Proof. unfold step_events. destruct (fgt max_norm f0); repeat split. Qed.

(** X5: over a loop that goes through all its batches, every batch zeroes
    the gradients once, backpropagates once and steps the optimizer once:
    the three calls are made as many times as there are batches. *)
Theorem one_step_per_batch (max_norm : float)
  (data_loader : list (Samples * Targets)) :
  forall (ml ml' : MetricLogger) (w w' : World) (evs : list Event),
    train_loop max_norm ml data_loader w = (Ok ml', w', evs) ->
    zero_grad_calls evs = List.length data_loader /\
    List.length (backward_calls evs) = List.length data_loader /\
    List.length (step_grads evs) = List.length data_loader.
Proof.
  induction data_loader as [|batch rest IH]; intros ml ml' w w' evs H.
  - cbn in H. injection H as _ _ <-. repeat split.
  - cbn [train_loop] in H. unfold bind in H.
    destruct (train_batch max_norm ml batch w) as [[[ml1|e] w1] ev1] eqn:Eb;
      [|discriminate].
    destruct (train_loop max_norm ml1 rest w1) as [[r w2] ev2] eqn:El.
    injection H as -> -> <-.
    destruct (IH _ _ _ _ _ El) as (Hz & Hb & Hs).
    assert (Hev : exists x g, ev1 = step_events max_norm x g).
    { rewrite train_batch_eq in Eb.
      destruct (item _) as [v|]; [|discriminate].
      destruct (isfinite v); [|discriminate].
      destruct (common_keys _ _); [discriminate|].
      cbv zeta in Eb. injection Eb as _ _ <-. eauto. }
    destruct Hev as (x & g & ->).
    destruct (step_events_counts max_norm x g) as (Hz1 & Hb1 & Hs1).
    unfold zero_grad_calls, backward_calls, step_grads in *.
    rewrite filter_app, !flat_map_app, !length_app, Hz1, Hb1, Hs1, Hz, Hb, Hs.
    repeat split.
Qed.

End Driver.
End Train.

(* ===================================================================== *)
(** * A small training setup                                              *)
(* ===================================================================== *)

Module TrainExample.
Import Py Loss Metric PyFacts LossFacts MetricFacts Train.

(** One loss term of weight 1 next to the class error.  A sample is the
    value of its loss; parameters and optimizer carry no data; the
    gradient is a single non-negative number, its own norm. *)
Definition ex_model (p : unit) (sample : float) : float := sample.

Definition ex_criterion (outputs : float) (targets : unit) : LossDict :=
  [("loss_ce"%string, outputs); ("class_error"%string, f0)].

Definition ex_weight_dict : WeightDict := [("loss_ce"%string, f1)].

Definition ex_zero_grad (g : float) : float := f0.

Definition ex_backward (p : unit) (sample : float) (targets : unit)
  (g : float) : float := fadd g sample.

(** scale the gradient down to the bound when it is above it *)
Definition ex_clip (max_norm g : float) : float :=
  if fle g max_norm then g else max_norm.

Definition ex_step (o p : unit) (g : float) : unit * unit := (tt, tt).

Definition ex_lr (o : unit) : float := f1.

Definition single_worker (d : LossDict) : LossDict := d.

(** Modelled from the spec: [reduce_dict] of [util/misc.py] is not among
    the sources.  The spec (2 and 4.1) has it average each term across the
    workers, for logging; [others] are the loss dicts of the other workers
    for the same step, and with no other worker the dict comes back as it
    is. *)
Definition reduce_dict_avg (others : list LossDict) (input_dict : LossDict)
  : LossDict :=
  match others with
  | [] => input_dict
  | _ :: _ =>
      let world_size := Z.of_nat (S (List.length others)) in
      map (fun kv =>
             (fst kv,
              fmul (fold_left fadd (map (fun d => at_key d (fst kv)) others)
                              (snd kv))
                   (Fin (/ Q2Qc (inject_Z world_size))%Qc)))
          input_dict
  end.

(** a second worker whose loss has diverged *)
Definition diverged_peer : LossDict :=
  [("loss_ce"%string, NaN); ("class_error"%string, f0)].

Definition ex_world : World unit float unit :=
  {| params := tt; grads := f0; optimizer := tt |}.

Definition ex_batch (reduce : LossDict -> LossDict) (max_norm : float)
  (ml : MetricLogger) (batch : float * unit)
  : M unit float unit MetricLogger :=
  train_batch ex_model ex_criterion ex_weight_dict reduce ex_zero_grad
    ex_backward ex_clip ex_step ex_lr max_norm ml batch.

Definition ex_loop (max_norm : float) (loader : list (float * unit))
  : M unit float unit MetricLogger :=
  train_loop ex_model ex_criterion ex_weight_dict single_worker ex_zero_grad
    ex_backward ex_clip ex_step ex_lr max_norm initial_logger loader.

Definition ex_epoch (max_norm : float) (loader : list (float * unit))
  : M unit float unit (dict string float) :=
  train_one_epoch ex_model ex_criterion ex_weight_dict single_worker
    ex_zero_grad ex_backward ex_clip ex_step ex_lr [] loader max_norm.

(** two batches with losses 1.0 and 3.0 *)
Definition two_batches : list (float * unit) :=
  [(of_Z 1, tt); (of_Z 3, tt)].

Definition ex_logger : MetricLogger :=
  match fst (fst (ex_loop f0 two_batches ex_world)) with
  | Ok ml => ml
  | Raise _ => []
  end.

Lemma ex_clip_contract (m g : float) :
  fgt m f0 = true -> fle (ex_clip m g) m = true.
Proof.
  unfold ex_clip. intros Hm. destruct (fle g m) eqn:E; [exact E|].
  destruct m as [q| | |]; try discriminate; [|reflexivity].
  unfold fle, fcompare. rewrite (proj1 (Qceq_alt q q) eq_refl). reflexivity.
Qed.

(** C2, the claim as stated fails: on a worker whose own weighted loss is
    the finite 1.0, the reduction with a diverged second worker makes the
    tested value nan, and the batch exits with status 1. *)
Lemma finite_unreduced_loss_exits :
  (exists x, losses (ex_criterion (of_Z 1) tt) ex_weight_dict = Ok (Tensor x)
             /\ isfinite x = true) /\
  ex_batch (reduce_dict_avg [diverged_peer]) f0 initial_logger
           (of_Z 1, tt) ex_world
  = (Raise (SystemExit 1), ex_world,
     [Print_loss_is float NaN;
      Print_loss_dict float
        (reduce_dict_avg [diverged_peer] (ex_criterion (of_Z 1) tt))]).
Proof.
  split.
  - eexists. split; [vm_compute; reflexivity|reflexivity].
  - vm_compute. reflexivity.
Qed.

(** the guard at work on that batch *)
Lemma guard_tests_reduced_loss_witness :
  item (losses_reduced_scaled
          (scaled_of ex_model ex_criterion ex_weight_dict
                     (reduce_dict_avg [diverged_peer]) ex_world (of_Z 1, tt)))
  = Ok NaN /\
  ex_batch (reduce_dict_avg [diverged_peer]) f0 initial_logger
           (of_Z 1, tt) ex_world
  = (Raise (SystemExit 1), ex_world,
     [Print_loss_is float NaN;
      Print_loss_dict float
        (reduced_of ex_model ex_criterion (reduce_dict_avg [diverged_peer])
                    ex_world (of_Z 1, tt))]).
Proof.
  assert (H : item (losses_reduced_scaled
                      (scaled_of ex_model ex_criterion ex_weight_dict
                                 (reduce_dict_avg [diverged_peer]) ex_world
                                 (of_Z 1, tt))) = Ok NaN)
    by (vm_compute; reflexivity).
  split; [exact H|].
  exact (proj1 (@guard_tests_reduced_loss _ _ _ _ _ _ ex_model ex_criterion
                  ex_weight_dict (reduce_dict_avg [diverged_peer])
                  ex_zero_grad ex_backward ex_clip ex_step ex_lr f0
                  initial_logger (of_Z 1, tt) ex_world NaN H) eq_refl).
Defined.

(** an epoch whose criterion has no weighted term stops at its first batch *)
Lemma key_intersection_required_witness :
  (forall k,
      In k (keys (reduced_of ex_model ex_criterion single_worker ex_world
                             (of_Z 1, tt))) <->
      In k (keys (loss_dict_of ex_model ex_criterion ex_world (of_Z 1, tt))))
  /\
  train_one_epoch ex_model ex_criterion [] single_worker ex_zero_grad
    ex_backward ex_clip ex_step ex_lr [] [(of_Z 1, tt); (of_Z 3, tt)] f0
    ex_world
  = (Raise (AttributeError "item"), ex_world,
     [Call_model_train float; Call_criterion_train float]).
Proof.
  assert (H : forall k,
             In k (keys (reduced_of ex_model ex_criterion single_worker
                                    ex_world (of_Z 1, tt))) <->
             In k (keys (loss_dict_of ex_model ex_criterion ex_world
                                      (of_Z 1, tt))))
    by (intros k; split; intros Hk; exact Hk).
  split; [exact H|].
  exact (proj2 (proj2 (proj2
           (proj2 (@key_intersection_required _ _ _ _ _ _ ex_model
                     ex_criterion [] single_worker ex_zero_grad ex_backward
                     ex_clip ex_step ex_lr [] f0 initial_logger (of_Z 1, tt)
                     [(of_Z 3, tt)] ex_world H) eq_refl)))).
Defined.

(** the clipping of the library on the gradient of the example, a single
    number that is its own norm: multiplied by the clamped coefficient *)
Definition torch_clip (max_norm g : float) : float :=
  fmul (clip_coef_clamped max_norm g) g.

Definition torch_loop (max_norm : float) (loader : list (float * unit))
  : M unit float unit MetricLogger :=
  train_loop ex_model ex_criterion ex_weight_dict single_worker ex_zero_grad
    ex_backward torch_clip ex_step ex_lr max_norm initial_logger loader.

Definition torch_epoch (max_norm : float) (loader : list (float * unit))
  : M unit float unit (dict string float) :=
  train_one_epoch ex_model ex_criterion ex_weight_dict single_worker
    ex_zero_grad ex_backward torch_clip ex_step ex_lr [] loader max_norm.




(** the end-to-end scenario of the spec: losses 1.0 and 3.0 with weight 1
    give an epoch mean of 2.0 for the logged loss *)
Example two_batch_epoch_mean_loss :
  exists stats,
    fst (fst (ex_epoch f0 two_batches ex_world)) = Ok stats /\
    keys stats = ["lr"; "class_error"; "loss"; "loss_ce"; "loss_ce_unscaled";
                  "class_error_unscaled"]%string /\
    fcompare (at_key stats "loss") (of_Z 2) = Some Eq.
Proof. eexists. split; [vm_compute; reflexivity|]. split; reflexivity. Qed.

(** a batch of loss 3.0 backpropagates 3.0 *)
Example backward_on_weighted_sum :
  backward_calls
    (snd (ex_batch single_worker f0 initial_logger (of_Z 3, tt) ex_world))
  = [weighted_sum (ex_criterion (of_Z 3) tt) ex_weight_dict] /\
  fcompare (weighted_sum (ex_criterion (of_Z 3) tt) ex_weight_dict) (of_Z 3)
  = Some Eq.
Proof. split; vm_compute; reflexivity. Qed.

(** the two logged views of the example's loss dict *)
Lemma reduced_views_keys_witness :
  NoDup (keys (ex_criterion (of_Z 1) tt)) /\
  (forall k, In k (keys (single_worker (ex_criterion (of_Z 1) tt))) <->
             In k (keys (ex_criterion (of_Z 1) tt))) /\
  exists scaled,
    loss_dict_reduced_scaled (single_worker (ex_criterion (of_Z 1) tt))
                             ex_weight_dict = Ok scaled /\
    keys scaled = ["loss_ce"%string] /\
    keys (loss_dict_reduced_unscaled (single_worker (ex_criterion (of_Z 1) tt)))
    = ["loss_ce_unscaled"; "class_error_unscaled"]%string.
Proof.
  assert (Hnd : NoDup (keys (ex_criterion (of_Z 1) tt))).
  { cbn. repeat constructor; cbn; intuition discriminate. }
  assert (Hk : forall k,
             In k (keys (single_worker (ex_criterion (of_Z 1) tt))) <->
             In k (keys (ex_criterion (of_Z 1) tt)))
    by (intros k; split; intros H; exact H).
  split; [exact Hnd|]. split; [exact Hk|].
  destruct (@reduced_views_keys (ex_criterion (of_Z 1) tt)
              (single_worker (ex_criterion (of_Z 1) tt)) ex_weight_dict
              Hnd Hk) as (scaled & Hs & _ & _ & _ & Hu & _).
  exists scaled. split; [exact Hs|]. split; [|exact Hu].
  vm_compute in Hs. injection Hs as <-. reflexivity.
Defined.

(** ** Instances of the further facts on the training loop *)

(** a batch whose only weighted term is infinite *)
Lemma nonfinite_term_exits_witness :
  NoDup (keys (reduced_of ex_model ex_criterion single_worker ex_world
                          (PInf, tt))) /\
  In "loss_ce"%string
     (common_keys (reduced_of ex_model ex_criterion single_worker ex_world
                              (PInf, tt)) ex_weight_dict) /\
  isfinite (at_key (reduced_of ex_model ex_criterion single_worker ex_world
                               (PInf, tt)) "loss_ce") = false /\
  exists v,
    isfinite v = false /\
    ex_batch single_worker f0 initial_logger (PInf, tt) ex_world
    = (Raise (SystemExit 1), ex_world,
       [Print_loss_is float v;
        Print_loss_dict float
          (reduced_of ex_model ex_criterion single_worker ex_world
                      (PInf, tt))]).
Proof.
  assert (Hnd : NoDup (keys (reduced_of ex_model ex_criterion single_worker
                                        ex_world (PInf, tt)))).
  { cbn. repeat constructor; cbn; intuition discriminate. }
  assert (Hin : In "loss_ce"%string
                   (common_keys (reduced_of ex_model ex_criterion
                                            single_worker ex_world (PInf, tt))
                                ex_weight_dict))
    by (left; reflexivity).
  assert (Hinf : isfinite (at_key (reduced_of ex_model ex_criterion
                                              single_worker ex_world
                                              (PInf, tt)) "loss_ce") = false)
    by reflexivity.
  split; [exact Hnd|]. split; [exact Hin|]. split; [exact Hinf|].
  exact (@nonfinite_term_exits _ _ _ _ _ _ ex_model ex_criterion
           ex_weight_dict single_worker ex_zero_grad ex_backward ex_clip
           ex_step ex_lr f0 initial_logger (PInf, tt) ex_world "loss_ce"
           Hnd Hin Hinf).
Defined.

(** the aggregator after the first batch of the example *)
Definition ex_logger1 : MetricLogger :=
  match fst (fst (ex_loop f0 [(of_Z 1, tt)] ex_world)) with
  | Ok ml => ml
  | Raise _ => []
  end.

(** a nan batch between the two batches of the example ends the epoch *)
Lemma epoch_stops_at_raise_witness :
  ex_loop f0 [(of_Z 1, tt)] ex_world
  = (Ok ex_logger1, snd (fst (ex_loop f0 [(of_Z 1, tt)] ex_world)),
     snd (ex_loop f0 [(of_Z 1, tt)] ex_world)) /\
  ex_batch single_worker f0 ex_logger1 (NaN, tt)
           (snd (fst (ex_loop f0 [(of_Z 1, tt)] ex_world)))
  = (Raise (SystemExit 1), snd (fst (ex_loop f0 [(of_Z 1, tt)] ex_world)),
     [Print_loss_is float NaN;
      Print_loss_dict float (ex_criterion NaN tt)]) /\
  ex_epoch f0 ([(of_Z 1, tt)] ++ (NaN, tt) :: [(of_Z 3, tt)]) ex_world
  = (Raise (SystemExit 1), snd (fst (ex_loop f0 [(of_Z 1, tt)] ex_world)),
     [Call_model_train float; Call_criterion_train float] ++
     snd (ex_loop f0 [(of_Z 1, tt)] ex_world) ++
     [Print_loss_is float NaN;
      Print_loss_dict float (ex_criterion NaN tt)]).
Proof.
  assert (Hpre : ex_loop f0 [(of_Z 1, tt)] ex_world
                 = (Ok ex_logger1,
                    snd (fst (ex_loop f0 [(of_Z 1, tt)] ex_world)),
                    snd (ex_loop f0 [(of_Z 1, tt)] ex_world)))
    by (vm_compute; reflexivity).
  assert (Hbad : ex_batch single_worker f0 ex_logger1 (NaN, tt)
                          (snd (fst (ex_loop f0 [(of_Z 1, tt)] ex_world)))
                 = (Raise (SystemExit 1),
                    snd (fst (ex_loop f0 [(of_Z 1, tt)] ex_world)),
                    [Print_loss_is float NaN;
                     Print_loss_dict float (ex_criterion NaN tt)]))
    by (vm_compute; reflexivity).
  split; [exact Hpre|]. split; [exact Hbad|].
  exact (@epoch_stops_at_raise _ _ _ _ _ _ ex_model ex_criterion
           ex_weight_dict single_worker ex_zero_grad ex_backward ex_clip
           ex_step ex_lr [] [(of_Z 1, tt)] [(of_Z 3, tt)] (NaN, tt) f0
           ex_world _ _ _ _ _ _ Hpre Hbad).
Defined.

(** a criterion whose single term is called ["loss"] *)
Definition clash_criterion (outputs : float) (targets : unit) : LossDict :=
  [("loss"%string, outputs); ("class_error"%string, f0)].

Definition clash_weight_dict : WeightDict := [("loss"%string, f1)].

Lemma loss_keyword_clash_witness :
  item (losses_reduced_scaled
          (scaled_of ex_model clash_criterion clash_weight_dict single_worker
                     ex_world (of_Z 1, tt)))
  = Ok (fadd (fmul (of_Z 1) f1) f0) /\
  In "loss"%string
     (keys (scaled_of ex_model clash_criterion clash_weight_dict single_worker
                      ex_world (of_Z 1, tt))) /\
  train_batch ex_model clash_criterion clash_weight_dict single_worker
    ex_zero_grad ex_backward ex_clip ex_step ex_lr f0 initial_logger
    (of_Z 1, tt) ex_world
  = (Raise (TypeError "got multiple values for keyword argument"),
     after_step ex_zero_grad ex_backward ex_clip ex_step f0 ex_world
                (of_Z 1, tt),
     step_events f0
       (weighted_sum (loss_dict_of ex_model clash_criterion ex_world
                                   (of_Z 1, tt)) clash_weight_dict)
       (stepped_grads ex_zero_grad ex_backward ex_clip f0 ex_world
                      (of_Z 1, tt))).
Proof.
  assert (Hitem : item (losses_reduced_scaled
                          (scaled_of ex_model clash_criterion
                                     clash_weight_dict single_worker ex_world
                                     (of_Z 1, tt)))
                  = Ok (fadd (fmul (of_Z 1) f1) f0))
    by (vm_compute; reflexivity).
  assert (Hin : In "loss"%string
                   (keys (scaled_of ex_model clash_criterion clash_weight_dict
                                    single_worker ex_world (of_Z 1, tt))))
    by (left; reflexivity).
  split; [exact Hitem|]. split; [exact Hin|].
  refine (@loss_keyword_clash _ _ _ _ _ _ ex_model clash_criterion
            clash_weight_dict single_worker ex_zero_grad ex_backward ex_clip
            ex_step ex_lr f0 initial_logger (of_Z 1, tt) ex_world _
            Hitem eq_refl _ Hin).
  discriminate.
Defined.

(** a criterion that reports no class error *)
Definition bare_criterion (outputs : float) (targets : unit) : LossDict :=
  [("loss_ce"%string, outputs)].

Lemma missing_class_error_fails_after_step_witness :
  item (losses_reduced_scaled
          (scaled_of ex_model bare_criterion ex_weight_dict single_worker
                     ex_world (of_Z 1, tt)))
  = Ok (fadd (fmul (of_Z 1) f1) f0) /\
  exists e,
    (e = KeyError "class_error"%string \/
     e = TypeError "got multiple values for keyword argument"%string) /\
    train_batch ex_model bare_criterion ex_weight_dict single_worker
      ex_zero_grad ex_backward ex_clip ex_step ex_lr f0 initial_logger
      (of_Z 1, tt) ex_world
    = (Raise e,
       after_step ex_zero_grad ex_backward ex_clip ex_step f0
                  ex_world (of_Z 1, tt),
       step_events f0
         (weighted_sum (loss_dict_of ex_model bare_criterion ex_world
                                     (of_Z 1, tt)) ex_weight_dict)
         (stepped_grads ex_zero_grad ex_backward ex_clip f0 ex_world
                        (of_Z 1, tt))).
Proof.
  assert (Hitem : item (losses_reduced_scaled
                          (scaled_of ex_model bare_criterion ex_weight_dict
                                     single_worker ex_world (of_Z 1, tt)))
                  = Ok (fadd (fmul (of_Z 1) f1) f0))
    by (vm_compute; reflexivity).
  split; [exact Hitem|].
  refine (@missing_class_error_fails_after_step _ _ _ _ _ _ ex_model
            bare_criterion ex_weight_dict single_worker ex_zero_grad
            ex_backward ex_clip ex_step ex_lr f0 initial_logger (of_Z 1, tt)
            ex_world _ Hitem eq_refl _ _).
  - discriminate.
  - cbn. intuition discriminate.
Defined.

(** the two batches of the example: two of each call *)
Lemma one_step_per_batch_witness :
  ex_loop f0 two_batches ex_world
  = (Ok ex_logger, snd (fst (ex_loop f0 two_batches ex_world)),
     snd (ex_loop f0 two_batches ex_world)) /\
  zero_grad_calls (snd (ex_loop f0 two_batches ex_world)) = 2%nat /\
  List.length (backward_calls (snd (ex_loop f0 two_batches ex_world)))
  = 2%nat /\
  List.length (step_grads (snd (ex_loop f0 two_batches ex_world))) = 2%nat.
Proof.
  assert (Hloop : ex_loop f0 two_batches ex_world
                  = (Ok ex_logger, snd (fst (ex_loop f0 two_batches ex_world)),
                     snd (ex_loop f0 two_batches ex_world)))
    by (vm_compute; reflexivity).
  split; [exact Hloop|].
  exact (@one_step_per_batch _ _ _ _ _ _ ex_model ex_criterion ex_weight_dict
           single_worker ex_zero_grad ex_backward ex_clip ex_step ex_lr f0
           two_batches initial_logger ex_logger ex_world _ _ Hloop).
Defined.

End TrainExample.

(* ===================================================================== *)
(** * [evaluate]                                                          *)
(* ===================================================================== *)

Module Eval.
Import Py Loss Metric PyFacts LossFacts MetricFacts.

(** [f"{image_id:012d}.png"], engine.py line 168 *)
Definition file_name (image_id : Z) : string :=
  (format_0d 12 image_id ++ ".png")%string.

(** [torch.stack(tensors, dim=0)] wants at least one tensor *)
Definition torch_stack {A} (tensors : list A) : result (list A) :=
  match tensors with
  | [] => Raise (RuntimeError "stack expects a non-empty TensorList")
  | _ :: _ => Ok tensors
  end.

(** The fields of a target that [evaluate] reads.  [image_id] is the
    Python integer that [.item()] takes out of the id tensor. *)
Record Target : Type := {
  image_id : Z;
  orig_size : Z * Z;
  size : Z * Z
}.

Section Driver.

(** The collaborators: the model and the criterion in evaluation mode, the
    reduction, the postprocessors as opaque callables with the three ways
    the driver calls them, and what the two accumulators report. *)
Variables Samples Outputs Result PostProcessor Segments PQ BaseDs : Type.
Variable model : Samples -> Outputs.
Variable criterion : Outputs -> list Target -> LossDict.
Variable weight_dict : WeightDict.
Variable reduce_dict : LossDict -> LossDict.
Variable peers : list MetricLogger.
Variable os_path_join : string -> string -> string.

(** what a panoptic result holds under a key *)
Inductive PanoVal : Type :=
| PanoInt (n : Z)
| PanoStr (s : string)
| PanoData (d : Segments).

Definition PanoResult : Type := dict string PanoVal.

Variable call_bbox : PostProcessor -> Outputs -> list (Z * Z) -> list Result.
Variable call_segm :
  PostProcessor -> list Result -> Outputs -> list (Z * Z) -> list (Z * Z) ->
  list Result.
Variable call_panoptic :
  PostProcessor -> Outputs -> list (Z * Z) -> list (Z * Z) -> list PanoResult.

(** An accumulator is what it was built with and what it was fed. *)
Record CocoEvaluator : Type := {
  coco_gt : BaseDs;
  iou_types : list string;
  coco_updates : list (dict Z Result)
}.

Record PanopticEvaluator : Type := {
  ann_file : string;
  ann_folder : string;
  pano_output_dir : string;
  pano_updates : list (list PanoResult)
}.

(** [coco_evaluator.coco_eval[iou_type].stats.tolist()] and
    [panoptic_evaluator.summarize()] *)
Variable coco_eval_stats : CocoEvaluator -> string -> result (list float).
Variable panoptic_summarize : PanopticEvaluator -> option (dict string PQ).

(** the loader: its batches, and the two attributes of its dataset that
    only a panoptic dataset has *)
Record DataLoader : Type := {
  batches : list (Samples * list Target);
  dataset_ann_file : option string;
  dataset_ann_folder : option string
}.

Inductive StatVal : Type :=
| StatFloat (x : float)
| StatList (l : list float)
| StatPQ (q : PQ).

Inductive Event : Type :=
| Call_model_eval
| Call_criterion_eval
| New_CocoEvaluator (types : list string)
| New_PanopticEvaluator (file folder output_dir : string)
| Call_coco_update (res : dict Z Result)
| Call_panoptic_update (res_pano : list PanoResult)
| Call_synchronize
| Print_averaged_stats (ml : MetricLogger)
| Call_coco_synchronize
| Call_panoptic_synchronize
| Call_coco_accumulate
| Call_coco_summarize
| Call_panoptic_summarize.

(** a computation logs events, and returns or raises *)
Definition M (A : Type) : Type := (result A * list Event)%type.

Definition ret {A} (a : A) : M A := (Ok a, []).
Definition raise {A} (e : exn) : M A := (Raise e, []).
Definition lift {A} (r : result A) : M A := (r, []).
Definition emit (ev : Event) : M unit := (Ok tt, [ev]).

Definition bind {A B} (m : M A) (k : A -> M B) : M B :=
  match m with
  | (Ok a, ev1) => match k a with (r, ev2) => (r, ev1 ++ ev2) end
  | (Raise e, ev1) => (Raise e, ev1)
  end.

Notation "x <- m ;; k" := (bind m (fun x => k))
  (at level 61, m at next level, right associativity).
Notation "m ;;; k" := (bind m (fun _ => k))
  (at level 61, right associativity).

(** the local variables that live across the iterations of the loop;
    [target_sizes] is unbound until the segm branch assigns it *)
Record Locals : Type := {
  metric_logger : MetricLogger;
  coco_evaluator : CocoEvaluator;
  panoptic_evaluator : option PanopticEvaluator;
  target_sizes : option (list (Z * Z))
}.

(** engine.py lines 166 to 170: every target, by its index, writes its id
    and file name into the panoptic result of the same index *)
Fixpoint annotate (i : nat) (targets : list Target)
  (res_pano : list PanoResult) : result (list PanoResult) :=
  match targets with
  | [] => Ok res_pano
  | target :: rest =>
      match nth_error res_pano i with
      | None => Raise IndexError
      | Some r =>
          let r1 := dict_set String.eqb "image_id"%string (PanoInt (image_id target)) r in
          let r2 := dict_set String.eqb "file_name"%string
                             (PanoStr (file_name (image_id target))) r1 in
          annotate (S i) rest (list_set i r2 res_pano)
      end
  end.

(** the body of the loop, engine.py lines 137 to 172 *)
Definition eval_batch (postprocessors : dict string PostProcessor)
  (st : Locals) (batch : Samples * list Target) : M Locals :=
  let (samples, targets) := batch in
  let outputs := model samples in
  let loss_dict := criterion outputs targets in
  let loss_dict_reduced := reduce_dict loss_dict in
  scaled <- lift (loss_dict_reduced_scaled loss_dict_reduced weight_dict) ;;
  let unscaled := loss_dict_reduced_unscaled loss_dict_reduced in
  kw1 <- lift (kwargs_merge
                 [("loss"%string, to_float (losses_reduced_scaled scaled))]
                 scaled) ;;
  kw <- lift (kwargs_merge kw1 unscaled) ;;
  let ml1 := update kw (metric_logger st) in
  class_error <- lift (getitem loss_dict_reduced "class_error") ;;
  let ml2 := update [("class_error"%string, class_error)] ml1 in
  orig_target_sizes <- lift (torch_stack (map orig_size targets)) ;;
  pp_bbox <- lift (getitem postprocessors "bbox") ;;
  let results := call_bbox pp_bbox outputs orig_target_sizes in
  refined <-
    (if contains String.eqb "segm"%string postprocessors then
       sizes <- lift (torch_stack (map size targets)) ;;
       pp_segm <- lift (getitem postprocessors "segm") ;;
       ret (call_segm pp_segm results outputs orig_target_sizes sizes,
            Some sizes)
     else ret (results, target_sizes st)) ;;
  let res := dict_of_items Z.eqb
               (map (fun tr => (image_id (fst tr), snd tr))
                    (combine targets (fst refined))) in
  emit (Call_coco_update res) ;;;
  let coco := {| coco_gt := coco_gt (coco_evaluator st);
                 iou_types := iou_types (coco_evaluator st);
                 coco_updates := coco_updates (coco_evaluator st) ++ [res] |} in
  match panoptic_evaluator st with
  | None =>
      ret {| metric_logger := ml2; coco_evaluator := coco;
             panoptic_evaluator := None; target_sizes := snd refined |}
  | Some pe =>
      pp_panoptic <- lift (getitem postprocessors "panoptic") ;;
      sizes <- match snd refined with
               | Some sizes => ret sizes
               | None => raise (UnboundLocalError "target_sizes")
               end ;;
      let res_pano := call_panoptic pp_panoptic outputs sizes orig_target_sizes in
      annotated <- lift (annotate 0 targets res_pano) ;;
      emit (Call_panoptic_update annotated) ;;;
      ret {| metric_logger := ml2; coco_evaluator := coco;
             panoptic_evaluator :=
               Some {| ann_file := ann_file pe; ann_folder := ann_folder pe;
                       pano_output_dir := pano_output_dir pe;
                       pano_updates := pano_updates pe ++ [annotated] |};
             target_sizes := snd refined |}
  end.

Fixpoint eval_loop (postprocessors : dict string PostProcessor)
  (st : Locals) (data : list (Samples * list Target)) : M Locals :=
  match data with
  | [] => ret st
  | batch :: rest =>
      st' <- eval_batch postprocessors st batch ;;
      eval_loop postprocessors st' rest
  end.

(** an attribute that the object may lack *)
Definition getattr (name : string) (a : option string) : result string :=
  match a with Some v => Ok v | None => Raise (AttributeError name) end.

(** engine.py lines 128 to 134 *)
Definition make_panoptic_evaluator (postprocessors : dict string PostProcessor)
  (data_loader : DataLoader) (output_dir : string)
  : M (option PanopticEvaluator) :=
  if contains String.eqb "panoptic"%string postprocessors then
    file <- lift (getattr "ann_file" (dataset_ann_file data_loader)) ;;
    folder <- lift (getattr "ann_folder" (dataset_ann_folder data_loader)) ;;
    let out := os_path_join output_dir "panoptic_eval" in
    emit (New_PanopticEvaluator file folder out) ;;;
    ret (Some {| ann_file := file; ann_folder := folder;
                 pano_output_dir := out; pano_updates := [] |})
  else ret None.

(** engine.py lines 186 to 198: the stats mapping *)
Definition make_stats (postprocessors : dict string PostProcessor)
  (ml : MetricLogger) (coco : CocoEvaluator)
  (panoptic_res : option (dict string PQ)) : result (dict string StatVal) :=
  rbind (averages ml) (fun avgs =>
  let stats0 := map (fun kv => (fst kv, StatFloat (snd kv))) avgs in
  rbind (if contains String.eqb "bbox"%string postprocessors
         then rbind (coco_eval_stats coco "bbox") (fun s =>
              Ok (dict_set String.eqb "coco_eval_bbox"%string (StatList s) stats0))
         else Ok stats0) (fun stats1 =>
  rbind (if contains String.eqb "segm"%string postprocessors
         then rbind (coco_eval_stats coco "segm") (fun s =>
              Ok (dict_set String.eqb "coco_eval_masks"%string (StatList s) stats1))
         else Ok stats1) (fun stats2 =>
  match panoptic_res with
  | None => Ok stats2
  | Some res =>
      rbind (getitem res "All") (fun pq_all =>
      rbind (getitem res "Things") (fun pq_th =>
      rbind (getitem res "Stuff") (fun pq_st =>
      Ok (dict_set String.eqb "PQ_st"%string (StatPQ pq_st)
            (dict_set String.eqb "PQ_th"%string (StatPQ pq_th)
               (dict_set String.eqb "PQ_all"%string (StatPQ pq_all) stats2))))))
  end))).

(** after the loop, engine.py lines 175 to 199 *)
Definition eval_epilogue (postprocessors : dict string PostProcessor)
  (st : Locals) : M (dict string StatVal * CocoEvaluator) :=
  emit Call_synchronize ;;;
  let ml := synchronize_between_processes peers (metric_logger st) in
  emit (Print_averaged_stats ml) ;;;
  emit Call_coco_synchronize ;;;
  match panoptic_evaluator st with
  | Some _ => emit Call_panoptic_synchronize
  | None => ret tt
  end ;;;
  emit Call_coco_accumulate ;;;
  emit Call_coco_summarize ;;;
  panoptic_res <-
    match panoptic_evaluator st with
    | Some pe => emit Call_panoptic_summarize ;;; ret (panoptic_summarize pe)
    | None => ret None
    end ;;
  stats <- lift (make_stats postprocessors ml (coco_evaluator st) panoptic_res) ;;
  ret (stats, coco_evaluator st).

Definition evaluate (postprocessors : dict string PostProcessor)
  (data_loader : DataLoader) (base_ds : BaseDs) (output_dir : string)
  : M (dict string StatVal * CocoEvaluator) :=
  emit Call_model_eval ;;;
  emit Call_criterion_eval ;;;
  let logger := add_meter "class_error" [] in
  let types := filter (fun k => contains String.eqb k postprocessors)
                      ["segm"%string; "bbox"%string] in
  emit (New_CocoEvaluator types) ;;;
  let coco := {| coco_gt := base_ds; iou_types := types; coco_updates := [] |} in
  pe <- make_panoptic_evaluator postprocessors data_loader output_dir ;;
  st <- eval_loop postprocessors
          {| metric_logger := logger; coco_evaluator := coco;
             panoptic_evaluator := pe; target_sizes := None |}
          (batches data_loader) ;;
  eval_epilogue postprocessors st.

(** ** Inverting a run *)

Lemma bind_ok {A B} (m : M A) (k : A -> M B) (b : B) (evs : list Event) :
  bind m k = (Ok b, evs) ->
  exists a ev1 ev2, m = (Ok a, ev1) /\ k a = (Ok b, ev2) /\ evs = ev1 ++ ev2.
Proof.
  unfold bind. destruct m as [[a|e] ev1]; [|discriminate].
  destruct (k a) as [r ev2] eqn:E. intros [= -> <-].
  exists a, ev1, ev2. split; [reflexivity|]. split; [exact E|reflexivity].
Qed.

Lemma bind_lift_ok {A B} (r : result A) (k : A -> M B) (b : B)
  (evs : list Event) :
  bind (lift r) k = (Ok b, evs) -> exists a, r = Ok a /\ k a = (Ok b, evs).
Proof.
  intros H. apply bind_ok in H as (a & ev1 & ev2 & Hm & Hk & ->).
  unfold lift in Hm. injection Hm as -> <-. exists a. split; [reflexivity|].
  exact Hk.
Qed.

Lemma bind_emit_ok {B} (ev : Event) (k : unit -> M B) (b : B)
  (evs : list Event) :
  bind (emit ev) k = (Ok b, evs) ->
  exists evs', k tt = (Ok b, evs') /\ evs = ev :: evs'.
Proof.
  intros H. apply bind_ok in H as (a & ev1 & ev2 & Hm & Hk & ->).
  unfold emit in Hm. injection Hm as <- <-.
  exists ev2. split; [exact Hk|reflexivity].
Qed.

Definition reduced_of (batch : Samples * list Target) : LossDict :=
  reduce_dict (criterion (model (fst batch)) (snd batch)).

Definition scaled_of (batch : Samples * list Target) : LossDict :=
  dict_of_items String.eqb (scaled_items (reduced_of batch) weight_dict).

(** the keyword arguments of the first [update] of a batch *)
Definition logged_of (batch : Samples * list Target) : dict string float :=
  (("loss"%string, to_float (losses_reduced_scaled (scaled_of batch)))
     :: scaled_of batch) ++ loss_dict_reduced_unscaled (reduced_of batch).

Definition panoptic_constructions (evs : list Event) : list string :=
  flat_map (fun ev => match ev with
                      | New_PanopticEvaluator _ _ out => [out]
                      | _ => []
                      end) evs.

(** a batch that completes: what it logged, and that it builds no
    accumulator; without a panoptic accumulator it leaves none *)
Lemma eval_batch_completes (postprocessors : dict string PostProcessor)
  (st st' : Locals) (batch : Samples * list Target) (evs : list Event) :
  eval_batch postprocessors st batch = (Ok st', evs) ->
  (exists class_error,
     metric_logger st' =
     update [("class_error"%string, class_error)]
            (update (logged_of batch) (metric_logger st))) /\
  panoptic_constructions evs = [] /\
  (panoptic_evaluator st = None -> panoptic_evaluator st' = None) /\
  (forall pe, panoptic_evaluator st = Some pe ->
     exists sizes annotated,
       (if contains String.eqb "segm"%string postprocessors
        then Some sizes = Some sizes else target_sizes st = Some sizes) /\
       In (Call_panoptic_update annotated) evs).
Proof.
  destruct batch as [samples targets]. unfold eval_batch.
  rewrite loss_dict_reduced_scaled_ok. intros H.
  apply bind_lift_ok in H as (scaled & [= <-] & H).
  fold (reduced_of (samples, targets)) in H.
  fold (scaled_of (samples, targets)) in H.
  apply bind_lift_ok in H as (kw1 & Hkw1 & H).
  apply bind_lift_ok in H as (kw & Hkw & H).
  apply kwargs_merge_ok in Hkw1, Hkw. subst kw1 kw.
  apply bind_lift_ok in H as (ce & Hce & H).
  apply bind_lift_ok in H as (osz & Hosz & H).
  apply bind_lift_ok in H as (ppb & Hppb & H).
  apply bind_ok in H as ([results tsz] & ev1 & ev2 & Href & H & ->).
  assert (Eev1 : ev1 = []).
  { destruct (contains String.eqb "segm"%string postprocessors).
    - apply bind_lift_ok in Href as (? & _ & Href).
      apply bind_lift_ok in Href as (? & _ & Href).
      unfold ret in Href. injection Href as _ _ <-. reflexivity.
    - unfold ret in Href. injection Href as _ _ <-. reflexivity. }
  subst ev1. cbn [app fst snd] in H.
  apply bind_emit_ok in H as (evs' & H & ->).
  destruct (panoptic_evaluator st) as [pe|] eqn:Epe.
  - apply bind_lift_ok in H as (ppp & Hppp & H).
    apply bind_ok in H as (sizes & ev3 & ev4 & Hsz & H & ->).
    destruct tsz as [sz|]; [|discriminate].
    unfold ret in Hsz. injection Hsz as <- <-.
    apply bind_lift_ok in H as (annotated & Hann & H).
    apply bind_emit_ok in H as (ev5 & H & ->).
    unfold ret in H. injection H as <- <-. cbn.
    split; [exists ce; reflexivity|]. split; [reflexivity|].
    split; [discriminate|]. intros pe' _.
    exists sz, annotated. split; [|right; left; reflexivity].
    destruct (contains String.eqb "segm"%string postprocessors); [reflexivity|].
    unfold ret in Href. injection Href as _ ->. reflexivity.
  - unfold ret in H. injection H as <- <-. cbn.
    split; [exists ce; reflexivity|]. split; [reflexivity|].
    split; [reflexivity|]. discriminate.
Qed.

(** ** No panoptic accumulator without a panoptic postprocessor *)

(** a computation that constructs no panoptic accumulator *)
Definition quiet {A} (m : M A) : Prop := panoptic_constructions (snd m) = [].

Lemma quiet_bind {A B} (m : M A) (k : A -> M B) :
  quiet m -> (forall a, quiet (k a)) -> quiet (bind m k).
Proof.
  unfold quiet, bind. intros Hm Hk. destruct m as [[a|e] ev1]; [|exact Hm].
  specialize (Hk a). destruct (k a) as [r ev2]. cbn [snd] in *.
  unfold panoptic_constructions in *. rewrite flat_map_app, Hm, Hk.
  reflexivity.
Qed.

Lemma quiet_lift {A} (r : result A) : quiet (lift r).
Proof. reflexivity. Qed.

Lemma quiet_ret {A} (a : A) : quiet (ret a).
Proof. reflexivity. Qed.

Lemma quiet_raise {A} (e : exn) : quiet (@raise A e).
Proof. reflexivity. Qed.

Ltac quiet_steps :=
  repeat first
    [ apply quiet_lift | apply quiet_ret | apply quiet_raise | reflexivity
    | apply quiet_bind; [|intros ?]
    | match goal with
      | |- quiet (if ?c then _ else _) => destruct c
      | |- quiet (match ?x with _ => _ end) => destruct x
      end ].

Lemma quiet_batch (postprocessors : dict string PostProcessor) (st : Locals)
  (batch : Samples * list Target) :
  quiet (eval_batch postprocessors st batch).
Proof. unfold eval_batch. destruct batch as [samples targets]. quiet_steps. Qed.

Lemma quiet_loop (postprocessors : dict string PostProcessor)
  (data : list (Samples * list Target)) (st : Locals) :
  quiet (eval_loop postprocessors st data).
Proof.
  revert st. induction data as [|batch rest IH]; intros st; cbn [eval_loop].
  - reflexivity.
  - apply quiet_bind; [apply quiet_batch|intros st'; apply IH].
Qed.

Lemma quiet_epilogue (postprocessors : dict string PostProcessor)
  (st : Locals) : quiet (eval_epilogue postprocessors st).
Proof. unfold eval_epilogue. quiet_steps. Qed.

(** the names a meter of the evaluation pass can bear *)
Definition meter_name (data : list (Samples * list Target)) (k : string)
  : Prop :=
  k = "class_error"%string \/ k = "loss"%string \/
  ends_with suffix k = true \/
  exists batch, In batch data /\
                In k (common_keys (reduced_of batch) weight_dict).

Lemma meter_name_more (data : list (Samples * list Target))
  (batch : Samples * list Target) (k : string) :
  meter_name data k -> meter_name (batch :: data) k.
Proof.
  intros [H|[H|[H|[b [Hb H]]]]]; unfold meter_name; auto.
  right. right. right. exists b. split; [right; exact Hb|exact H].
Qed.

Lemma keys_logged_of (batch : Samples * list Target) (k : string) :
  In k (keys (logged_of batch)) -> meter_name [batch] k.
Proof.
  unfold logged_of, keys. rewrite map_app. cbn [map fst]. intros H.
  apply in_app_or in H as [[<-|H]|H].
  - right. left. reflexivity.
  - right. right. right. exists batch. split; [left; reflexivity|].
    apply keys_dict_of_items in H. rewrite keys_scaled_items in H. exact H.
  - right. right. left. apply keys_dict_of_items in H. unfold keys in H.
    rewrite map_map in H. apply in_map_iff in H as [kv [<- _]].
    apply ends_with_append.
Qed.

Lemma eval_loop_completes (postprocessors : dict string PostProcessor)
  (data : list (Samples * list Target)) (st st' : Locals)
  (evs : list Event) :
  eval_loop postprocessors st data = (Ok st', evs) ->
  (panoptic_evaluator st = None -> panoptic_evaluator st' = None) /\
  coco_gt (coco_evaluator st') = coco_gt (coco_evaluator st) /\
  (forall k, In k (keys (metric_logger st')) ->
             In k (keys (metric_logger st)) \/ meter_name data k).
Proof.
  revert st evs. induction data as [|batch rest IH]; intros st evs H;
    cbn [eval_loop] in H.
  - unfold ret in H. injection H as <- <-. repeat split; auto.
  - apply bind_ok in H as (st1 & ev1 & ev2 & Hb & Hl & ->).
    pose proof (eval_batch_completes _ _ _ Hb) as ([ce Hml] & _ & Hnone & _).
    destruct (IH _ _ Hl) as (Hnone' & Hgt & Hnames).
    split; [|split].
    + intros Hn. apply Hnone', Hnone, Hn.
    + rewrite Hgt. clear -Hb. revert Hb. unfold eval_batch.
      destruct batch as [samples targets]. intros H.
      repeat (apply bind_lift_ok in H as (? & _ & H)).
      apply bind_ok in H as (? & ? & ? & _ & H & _).
      apply bind_emit_ok in H as (? & H & _).
      destruct (panoptic_evaluator st).
      * apply bind_lift_ok in H as (? & _ & H).
        apply bind_ok in H as (? & ? & ? & _ & H & _).
        apply bind_lift_ok in H as (? & _ & H).
        apply bind_emit_ok in H as (? & H & _).
        unfold ret in H. injection H as <-. reflexivity.
      * unfold ret in H. injection H as <-. reflexivity.
    + intros k Hk. apply Hnames in Hk as [Hk|Hk].
      * rewrite Hml in Hk. apply keys_update in Hk as [Hk|Hk].
        -- apply keys_update in Hk as [Hk|Hk]; [left; exact Hk|].
           right. apply keys_logged_of in Hk.
           destruct Hk as [H|[H|[H|[b [[<-|[]] H]]]]]; unfold meter_name; auto.
           right. right. right. exists batch. split; [left; reflexivity|exact H].
        -- right. left. destruct Hk as [<-|[]]. reflexivity.
      * right. apply meter_name_more, Hk.
Qed.

Lemma only_bbox (postprocessors : dict string PostProcessor) :
  keys postprocessors = ["bbox"%string] ->
  contains String.eqb "bbox"%string postprocessors = true /\
  contains String.eqb "segm"%string postprocessors = false /\
  contains String.eqb "panoptic"%string postprocessors = false.
Proof.
  intros H. split; [|split].
  - apply contains_in. rewrite H. left. reflexivity.
  - apply contains_not_in. rewrite H. intros [E|[]]. discriminate.
  - apply contains_not_in. rewrite H. intros [E|[]]. discriminate.
Qed.

(** C5: when the postprocessors mapping has the one key ["bbox"], no run
    of [evaluate] constructs a panoptic accumulator, and the returned
    stats have none of the keys ["PQ_all"], ["PQ_th"], ["PQ_st"] and
    ["coco_eval_masks"]: their keys are meter names and
    ["coco_eval_bbox"].  The loss terms are those the criterion documents
    (engine.py lines 70 to 78: [loss_ce], [loss_bbox], [loss_giou] and the
    like), none of which bears one of these four names. *)
Theorem bbox_only_stats (postprocessors : dict string PostProcessor)
  (data_loader : DataLoader) (base_ds : BaseDs) (output_dir : string) :
  keys postprocessors = ["bbox"%string] ->
  (forall batch k,
      In batch (batches data_loader) ->
      In k (common_keys (reduced_of batch) weight_dict) ->
      ~ In k ["PQ_all"; "PQ_th"; "PQ_st"; "coco_eval_masks"]%string) ->
  let run := evaluate postprocessors data_loader base_ds output_dir in
  panoptic_constructions (snd run) = [] /\
  forall stats coco,
    fst run = Ok (stats, coco) ->
    (forall k, In k (keys stats) ->
               k = "coco_eval_bbox"%string \/
               meter_name (batches data_loader) k) /\
    (forall k,
        In k ["PQ_all"; "PQ_th"; "PQ_st"; "coco_eval_masks"]%string ->
        ~ In k (keys stats)).
Proof.
  intros Hkeys Hterms run.
  destruct (only_bbox _ Hkeys) as (Hbbox & Hsegm & Hpano).
  assert (Hmake : make_panoptic_evaluator postprocessors data_loader output_dir
                  = ret None).
  { unfold make_panoptic_evaluator. rewrite Hpano. reflexivity. }
  split.
  - unfold run, evaluate. rewrite Hmake.
    repeat (apply quiet_bind; [reflexivity|intros ?]).
    apply quiet_bind; [apply quiet_loop|intros st; apply quiet_epilogue].
  - intros stats coco Hrun.
    assert (Hnames : forall k, In k (keys stats) ->
                       k = "coco_eval_bbox"%string \/
                       meter_name (batches data_loader) k).
    { unfold run, evaluate in Hrun. rewrite Hmake in Hrun.
      destruct (bind _ _) as [r evs] eqn:E in Hrun. cbn [fst] in Hrun.
      subst r.
      apply bind_emit_ok in E as (? & E & _).
      apply bind_emit_ok in E as (? & E & _).
      apply bind_emit_ok in E as (? & E & _).
      apply bind_ok in E as (pe & ? & ? & Hpe & E & _).
      unfold ret in Hpe. injection Hpe as <- _.
      apply bind_ok in E as (st & ? & ? & Hloop & E & _).
      apply eval_loop_completes in Hloop as (Hnone & _ & Hml).
      cbn [panoptic_evaluator metric_logger] in Hnone, Hml.
      specialize (Hnone eq_refl).
      unfold eval_epilogue in E. rewrite Hnone in E.
      apply bind_emit_ok in E as (? & E & _).
      apply bind_emit_ok in E as (? & E & _).
      apply bind_emit_ok in E as (? & E & _).
      apply bind_ok in E as (? & ? & ? & _ & E & _).
      apply bind_emit_ok in E as (? & E & _).
      apply bind_emit_ok in E as (? & E & _).
      apply bind_ok in E as (pres & ? & ? & Hpres & E & _).
      unfold ret in Hpres. injection Hpres as <- _.
      apply bind_lift_ok in E as (stats' & Hstats & E).
      unfold ret in E. injection E as -> _ _.
      unfold make_stats in Hstats. rewrite Hbbox, Hsegm in Hstats.
      destruct (averages _) as [avgs|e] eqn:Eavg; [|discriminate].
      cbn [rbind] in Hstats.
      destruct (coco_eval_stats _ _) as [cs|e]; [|discriminate].
      cbn [rbind] in Hstats. injection Hstats as <-.
      intros k Hk. apply keys_dict_set_in in Hk as [->|Hk]; [left; reflexivity|].
      right. unfold keys in Hk. rewrite map_map in Hk. cbn [fst] in Hk.
      apply (@keys_averages _ _ k Eavg) in Hk.
      rewrite keys_synchronize in Hk. apply Hml in Hk as [Hk|Hk]; [|exact Hk].
      cbn in Hk. destruct Hk as [<-|[]]. left. reflexivity. }
    split; [exact Hnames|].
    intros k Hk Hin. apply Hnames in Hin.
    assert (Hbatch : exists batch,
               In batch (batches data_loader) /\
               In k (common_keys (reduced_of batch) weight_dict)).
    { cbn [In] in Hk.
      destruct Hk as [<-|[<-|[<-|[<-|[]]]]];
        (destruct Hin as [Hin|[Hin|[Hin|[Hin|Hin]]]];
         [discriminate Hin|discriminate Hin|discriminate Hin
         |cbn in Hin; discriminate Hin|exact Hin]). }
    destruct Hbatch as (batch & Hb & Hck).
    exact (Hterms batch k Hb Hck Hk).
Qed.

(** ** The panoptic results and their file names *)

Lemma nth_error_list_set_same {A} (l : list A) (i : nat) (x y : A) :
  nth_error l i = Some y -> nth_error (list_set i x l) i = Some x.
Proof.
  revert i. induction l as [|z l IH]; intros [|i] H; simpl in *;
    try discriminate; [reflexivity|]. apply IH, H.
Qed.

Lemma nth_error_list_set_other {A} (l : list A) (i j : nat) (x : A) :
  i <> j -> nth_error (list_set i x l) j = nth_error l j.
Proof.
  revert i j. induction l as [|z l IH]; intros [|i] [|j] H; simpl;
    try reflexivity; [contradiction|]. apply IH. intros E. apply H. f_equal.
  exact E.
Qed.

(** a panoptic result with the id and the file name of its target *)
Definition tagged (target : Target) (r : PanoResult) : PanoResult :=
  dict_set String.eqb "file_name"%string
    (PanoStr (file_name (image_id target)))
    (dict_set String.eqb "image_id"%string (PanoInt (image_id target)) r).

Lemma annotate_spec (targets : list Target) :
  forall (i : nat) (res_pano annotated : list PanoResult),
    annotate i targets res_pano = Ok annotated ->
    (forall j, (j < i)%nat -> nth_error annotated j = nth_error res_pano j) /\
    (forall j target,
        nth_error targets j = Some target ->
        exists r0, nth_error res_pano (i + j) = Some r0 /\
                   nth_error annotated (i + j) = Some (tagged target r0)).
Proof.
  induction targets as [|target rest IH]; intros i res_pano annotated H;
    cbn [annotate] in H.
  - injection H as <-. split; [reflexivity|]. intros [|j] t Ht; discriminate.
  - destruct (nth_error res_pano i) as [r|] eqn:Er; [|discriminate].
    apply IH in H as [H1 H2]. fold (tagged target r) in H1, H2. split.
    + intros j Hj. rewrite H1 by lia. apply nth_error_list_set_other. lia.
    + intros [|j] t Ht; cbn [nth_error] in Ht.
      * injection Ht as <-. rewrite Nat.add_0_r. exists r.
        split; [exact Er|]. rewrite H1 by lia.
        apply nth_error_list_set_same with (y := r), Er.
      * destruct (H2 j t Ht) as (r0 & Hr0 & Ha).
        rewrite nth_error_list_set_other in Hr0 by lia.
        replace (i + S j)%nat with (S i + j)%nat by lia.
        exists r0. split; assumption.
Qed.

(** C7, as amended: for an image id from 0 up to, and without, 10^12 the
    file name is twelve decimal digits that read as the id, followed by
    [".png"]; the id 17 gives ["000000000017.png"]; and in the panoptic
    branch every target, in the order of the batch, leaves this file name
    and its id in the panoptic result of its index. *)
Theorem file_name_zero_padded (id : Z) :
  (0 <= id < 10 ^ 12)%Z ->
  (exists digits,
      file_name id = (digits ++ ".png")%string /\
      String.length digits = 12%nat /\
      FormatFacts.parse_digits digits 0 = Some id) /\
  file_name 17 = "000000000017.png"%string /\
  (forall targets res_pano annotated j target,
      annotate 0 targets res_pano = Ok annotated ->
      nth_error targets j = Some target ->
      exists r,
        nth_error annotated j = Some r /\
        dict_get String.eqb "file_name"%string r
        = Some (PanoStr (file_name (image_id target))) /\
        dict_get String.eqb "image_id"%string r
        = Some (PanoInt (image_id target))).
Proof.
  intros Hid. split; [|split].
  - exists (zfill 12 (decimal id)).
    destruct (@FormatFacts.zfill_decimal 12 id ltac:(lia) Hid) as [Hlen Hparse].
    repeat split; [|exact Hlen|exact Hparse].
    unfold file_name, format_0d.
    destruct (Z.ltb_spec id 0) as [Hneg|_]; [lia|reflexivity].
  - reflexivity.
  - intros targets res_pano annotated j target Hann Hj.
    destruct (annotate_spec _ _ _ Hann) as [_ H].
    destruct (H j target Hj) as (r0 & _ & Hr). cbn [Nat.add] in Hr.
    exists (tagged target r0). split; [exact Hr|]. unfold tagged. split.
    + apply dict_get_set_same.
    + rewrite dict_get_set_other by discriminate. apply dict_get_set_same.
Qed.

(** ** A panoptic postprocessor without a segm one *)

(** with the panoptic accumulator in place and [target_sizes] never
    assigned, no batch completes *)
Lemma panoptic_batch_needs_segm (postprocessors : dict string PostProcessor)
  (st : Locals) (batch : Samples * list Target) (pe : PanopticEvaluator) :
  panoptic_evaluator st = Some pe -> target_sizes st = None ->
  contains String.eqb "segm"%string postprocessors = false ->
  exists e, fst (eval_batch postprocessors st batch) = Raise e.
Proof.
  intros Hpe Hts Hsegm.
  destruct (eval_batch postprocessors st batch) as [[st'|e] evs] eqn:E;
    [exfalso|exists e; reflexivity].
  apply eval_batch_completes in E as (_ & _ & _ & H).
  destruct (H pe Hpe) as (sizes & annotated & Hsz & _).
  rewrite Hsegm, Hts in Hsz. discriminate.
Qed.

(** so [evaluate] returns from no loader that has a batch *)
Lemma panoptic_needs_segm (postprocessors : dict string PostProcessor)
  (data_loader : DataLoader) (base_ds : BaseDs) (output_dir : string) :
  contains String.eqb "panoptic"%string postprocessors = true ->
  contains String.eqb "segm"%string postprocessors = false ->
  batches data_loader <> [] ->
  exists e,
    fst (evaluate postprocessors data_loader base_ds output_dir) = Raise e.
Proof.
  intros Hpano Hsegm Hne.
  destruct (evaluate postprocessors data_loader base_ds output_dir)
    as [[r|e] evs] eqn:E; [exfalso|exists e; reflexivity].
  unfold evaluate in E.
  apply bind_emit_ok in E as (? & E & _).
  apply bind_emit_ok in E as (? & E & _).
  apply bind_emit_ok in E as (? & E & _).
  apply bind_ok in E as (pe & ? & ? & Hpe & E & _).
  apply bind_ok in E as (st & ? & ? & Hloop & _ & _).
  unfold make_panoptic_evaluator in Hpe. rewrite Hpano in Hpe.
  apply bind_lift_ok in Hpe as (? & _ & Hpe).
  apply bind_lift_ok in Hpe as (? & _ & Hpe).
  apply bind_emit_ok in Hpe as (? & Hpe & _).
  unfold ret in Hpe. injection Hpe as <- _.
  destruct (batches data_loader) as [|batch rest]; [contradiction|].
  cbn [eval_loop] in Hloop.
  apply bind_ok in Hloop as (st1 & ? & ? & Hb & _ & _).
  edestruct (panoptic_batch_needs_segm postprocessors) as [e He];
    [| |exact Hsegm|rewrite Hb in He; discriminate]; reflexivity.
Qed.

(** ** Further facts on the evaluation pass *)

Lemma bind_lift_Ok {A B} (a : A) (k : A -> M B) : bind (lift (Ok a)) k = k a.
Proof. unfold bind, lift. destruct (k a) as [r ev]. reflexivity. Qed.

Lemma bind_lift_Raise {A B} (e : exn) (k : A -> M B) :
  bind (lift (Raise e)) k = (Raise e, []).
Proof. reflexivity. Qed.

Lemma bind_Ok_eq {A B} (a : A) (ev : list Event) (k : A -> M B) :
  bind (Ok a, ev) k = (fst (k a), ev ++ snd (k a)).
Proof. unfold bind. destruct (k a) as [r evs]. reflexivity. Qed.

Lemma bind_Raise_eq {A B} (e : exn) (ev : list Event) (k : A -> M B) :
  bind (Raise e, ev) k = (Raise e, ev).
Proof. reflexivity. Qed.

Lemma bind_emit_eq {B} (ev : Event) (k : unit -> M B) :
  bind (emit ev) k = (fst (k tt), ev :: snd (k tt)).
Proof. unfold bind, emit. destruct (k tt) as [r evs]. reflexivity. Qed.

(** without a ["bbox"] postprocessor a batch raises before it feeds
    anything *)
Lemma eval_batch_needs_bbox (postprocessors : dict string PostProcessor)
  (st : Locals) (batch : Samples * list Target) :
  contains String.eqb "bbox"%string postprocessors = false ->
  exists e, eval_batch postprocessors st batch = (Raise e, []).
Proof.
  intros Hb. destruct batch as [samples targets]. unfold eval_batch.
  cbv zeta.
  do 5 (match goal with
        | |- exists e, bind (lift ?r) _ = _ =>
            destruct r as [?|?];
            [rewrite bind_lift_Ok
            |rewrite bind_lift_Raise; eexists; reflexivity]
        end).
  assert (Hg : getitem postprocessors "bbox" = Raise (KeyError "bbox")).
  { unfold getitem. unfold contains in Hb.
    destruct (dict_get _ _ _); [discriminate|reflexivity]. }
  rewrite Hg, bind_lift_Raise. eexists. reflexivity.
Qed.

(** X6: the ["bbox"] postprocessor is read on every batch: without it,
    [evaluate] on a loader that has a batch raises, and it has made no
    call beyond building the accumulators. *)
Theorem evaluate_needs_bbox (postprocessors : dict string PostProcessor)
  (data_loader : DataLoader) (base_ds : BaseDs) (output_dir : string) :
  contains String.eqb "bbox"%string postprocessors = false ->
  batches data_loader <> [] ->
  exists e,
    evaluate postprocessors data_loader base_ds output_dir =
    (Raise e,
     [Call_model_eval; Call_criterion_eval;
      New_CocoEvaluator
        (filter (fun k => contains String.eqb k postprocessors)
                ["segm"%string; "bbox"%string])] ++
     snd (make_panoptic_evaluator postprocessors data_loader output_dir)).
Proof.
  intros Hb Hne. unfold evaluate. cbv zeta. rewrite !bind_emit_eq.
  destruct (make_panoptic_evaluator postprocessors data_loader output_dir)
    as [[pe|e] evp]; [|exists e; reflexivity].
  destruct (batches data_loader) as [|batch rest]; [contradiction|].
  rewrite bind_Ok_eq. cbv beta. cbn [eval_loop].
  match goal with
  | |- context [eval_batch ?p ?st0 ?b] =>
      destruct (@eval_batch_needs_bbox p st0 b Hb) as [e He]; rewrite He
  end.
  rewrite !bind_Raise_eq. exists e. cbn [fst snd app].
  rewrite app_nil_r. reflexivity.
Qed.

(** What the detection accumulator is fed for a batch: the results of the
    ["bbox"] postprocessor, refined by the ["segm"] one when there is one,
    keyed by the image ids of the targets. *)
Definition detections (postprocessors : dict string PostProcessor)
  (batch : Samples * list Target) : list Result :=
  match dict_get String.eqb "bbox"%string postprocessors with
  | None => []
  | Some pp_bbox =>
      let outputs := model (fst batch) in
      let orig_target_sizes := map orig_size (snd batch) in
      let results := call_bbox pp_bbox outputs orig_target_sizes in
      match dict_get String.eqb "segm"%string postprocessors with
      | Some pp_segm =>
          call_segm pp_segm results outputs orig_target_sizes
                    (map size (snd batch))
      | None => results
      end
  end.

Definition res_dict (targets : list Target) (results : list Result)
  : dict Z Result :=
  dict_of_items Z.eqb
    (map (fun tr => (image_id (fst tr), snd tr)) (combine targets results)).

Definition res_of (postprocessors : dict string PostProcessor)
  (batch : Samples * list Target) : dict Z Result :=
  res_dict (snd batch) (detections postprocessors batch).

Definition is_panoptic_update (ev : Event) : bool :=
  match ev with Call_panoptic_update _ => true | _ => false end.

Definition panoptic_update_calls (evs : list Event) : nat :=
  List.length (filter is_panoptic_update evs).

Definition has_panoptic (st : Locals) : bool :=
  match panoptic_evaluator st with Some _ => true | None => false end.

Lemma torch_stack_ok {A} (l l' : list A) : torch_stack l = Ok l' -> l' = l.
Proof. destruct l; [discriminate|]. intros [= <-]. reflexivity. Qed.

Lemma getitem_ok {V} (d : dict string V) (k : string) (v : V) :
  getitem d k = Ok v -> dict_get String.eqb k d = Some v.
Proof.
  unfold getitem. destruct (dict_get String.eqb k d); [|discriminate].
  intros [= <-]. reflexivity.
Qed.

(** a batch that completes: what each accumulator got *)
Lemma eval_batch_feeds (postprocessors : dict string PostProcessor)
  (st st' : Locals) (batch : Samples * list Target) (evs : list Event) :
  eval_batch postprocessors st batch = (Ok st', evs) ->
  coco_evaluator st' =
  {| coco_gt := coco_gt (coco_evaluator st);
     iou_types := iou_types (coco_evaluator st);
     coco_updates := coco_updates (coco_evaluator st) ++
                     [res_of postprocessors batch] |} /\
  has_panoptic st' = has_panoptic st /\
  panoptic_update_calls evs = (if has_panoptic st then 1 else 0)%nat.
Proof.
  destruct batch as [samples targets]. unfold eval_batch. intros H.
  apply bind_lift_ok in H as (scaled & _ & H).
  apply bind_lift_ok in H as (kw1 & _ & H).
  apply bind_lift_ok in H as (kw & _ & H).
  apply bind_lift_ok in H as (ce & _ & H).
  apply bind_lift_ok in H as (osz & Hosz & H).
  apply bind_lift_ok in H as (ppb & Hppb & H).
  apply torch_stack_ok in Hosz. subst osz. apply getitem_ok in Hppb.
  apply bind_ok in H as ([results tsz] & ev1 & ev2 & Href & H & ->).
  assert (Eref : ev1 = [] /\
                 results = detections postprocessors (samples, targets)).
  { unfold detections. cbn [fst snd]. rewrite Hppb.
    destruct (contains String.eqb "segm"%string postprocessors) eqn:Es.
    - apply bind_lift_ok in Href as (sizes & Hsz & Href).
      apply bind_lift_ok in Href as (pps & Hpps & Href).
      apply torch_stack_ok in Hsz. subst sizes. apply getitem_ok in Hpps.
      rewrite Hpps. unfold ret in Href. injection Href as <- _ <-.
      split; reflexivity.
    - unfold contains in Es.
      destruct (dict_get String.eqb "segm"%string postprocessors);
        [discriminate|].
      unfold ret in Href. injection Href as <- _ <-. split; reflexivity. }
  destruct Eref as [-> ->]. cbn [app fst snd] in H.
  apply bind_emit_ok in H as (evs' & H & ->).
  unfold has_panoptic.
  destruct (panoptic_evaluator st) as [pe|] eqn:Epe.
  - apply bind_lift_ok in H as (ppp & _ & H).
    apply bind_ok in H as (sizes & ev3 & ev4 & Hsz & H & ->).
    destruct tsz as [sz|]; [|discriminate].
    unfold ret in Hsz. injection Hsz as <- <-.
    apply bind_lift_ok in H as (annotated & _ & H).
    apply bind_emit_ok in H as (ev5 & H & ->).
    unfold ret in H. injection H as <- <-. cbn.
    repeat split.
  - unfold ret in H. injection H as <- <-. cbn. repeat split.
Qed.

Lemma eval_loop_feeds (postprocessors : dict string PostProcessor)
  (data : list (Samples * list Target)) :
  forall (st st' : Locals) (evs : list Event),
    eval_loop postprocessors st data = (Ok st', evs) ->
    coco_gt (coco_evaluator st') = coco_gt (coco_evaluator st) /\
    iou_types (coco_evaluator st') = iou_types (coco_evaluator st) /\
    coco_updates (coco_evaluator st') =
    coco_updates (coco_evaluator st) ++ map (res_of postprocessors) data /\
    has_panoptic st' = has_panoptic st /\
    panoptic_update_calls evs =
    (if has_panoptic st then List.length data else 0)%nat.
Proof.
  induction data as [|batch rest IH]; intros st st' evs H;
    cbn [eval_loop] in H.
  - unfold ret in H. injection H as <- <-. rewrite app_nil_r.
    repeat split. destruct (has_panoptic st); reflexivity.
  - apply bind_ok in H as (st1 & ev1 & ev2 & Hb & Hl & ->).
    apply eval_batch_feeds in Hb as (Hc & Hp & Hn).
    apply IH in Hl as (Hgt & Hty & Hup & Hp' & Hn').
    rewrite Hgt, Hty, Hup, Hp', Hc, Hp. cbn [coco_gt iou_types coco_updates].
    repeat split.
    + rewrite <- app_assoc. reflexivity.
    + unfold panoptic_update_calls in *.
      rewrite filter_app, length_app, Hn, Hn', Hp.
      destruct (has_panoptic st); reflexivity.
Qed.

(** the parts of a run of [evaluate] that returns *)
Lemma evaluate_returns (postprocessors : dict string PostProcessor)
  (data_loader : DataLoader) (base_ds : BaseDs) (output_dir : string)
  (r : dict string StatVal * CocoEvaluator) (evs : list Event) :
  evaluate postprocessors data_loader base_ds output_dir = (Ok r, evs) ->
  exists pe evp st evl eve,
    make_panoptic_evaluator postprocessors data_loader output_dir
    = (Ok pe, evp) /\
    eval_loop postprocessors
      {| metric_logger := add_meter "class_error" [];
         coco_evaluator :=
           {| coco_gt := base_ds;
              iou_types := filter (fun k => contains String.eqb k postprocessors)
                                  ["segm"%string; "bbox"%string];
              coco_updates := [] |};
         panoptic_evaluator := pe; target_sizes := None |}
      (batches data_loader) = (Ok st, evl) /\
    eval_epilogue postprocessors st = (Ok r, eve) /\
    evs = [Call_model_eval; Call_criterion_eval;
           New_CocoEvaluator
             (filter (fun k => contains String.eqb k postprocessors)
                     ["segm"%string; "bbox"%string])] ++ evp ++ evl ++ eve.
Proof.
  unfold evaluate. intros E.
  apply bind_emit_ok in E as (? & E & ->).
  apply bind_emit_ok in E as (? & E & ->).
  apply bind_emit_ok in E as (? & E & ->).
  apply bind_ok in E as (pe & evp & ? & Hpe & E & ->).
  apply bind_ok in E as (st & evl & eve & Hloop & E & ->).
  exists pe, evp, st, evl, eve. repeat split; assumption.
Qed.

Lemma eval_epilogue_returns (postprocessors : dict string PostProcessor)
  (st : Locals) (stats : dict string StatVal) (coco : CocoEvaluator)
  (eve : list Event) :
  eval_epilogue postprocessors st = (Ok (stats, coco), eve) ->
  coco = coco_evaluator st /\
  make_stats postprocessors
    (synchronize_between_processes peers (metric_logger st))
    (coco_evaluator st)
    (match panoptic_evaluator st with
     | Some pe => panoptic_summarize pe
     | None => None
     end) = Ok stats /\
  panoptic_update_calls eve = 0%nat.
Proof.
  unfold eval_epilogue. intros E.
  apply bind_emit_ok in E as (? & E & ->).
  apply bind_emit_ok in E as (? & E & ->).
  apply bind_emit_ok in E as (? & E & ->).
  destruct (panoptic_evaluator st) as [pe|].
  - apply bind_emit_ok in E as (? & E & ->).
    apply bind_emit_ok in E as (? & E & ->).
    apply bind_emit_ok in E as (? & E & ->).
    apply bind_ok in E as (pres & ? & ? & Hpres & E & ->).
    apply bind_emit_ok in Hpres as (? & Hpres & ->).
    unfold ret in Hpres. injection Hpres as <- <-.
    apply bind_lift_ok in E as (stats' & Hstats & E).
    unfold ret in E. injection E as <- <- <-.
    repeat split. exact Hstats.
  - apply bind_ok in E as (? & ? & ? & Hu & E & ->).
    unfold ret in Hu. injection Hu as _ <-.
    apply bind_emit_ok in E as (? & E & ->).
    apply bind_emit_ok in E as (? & E & ->).
    apply bind_ok in E as (pres & ? & ? & Hpres & E & ->).
    unfold ret in Hpres. injection Hpres as <- <-.
    apply bind_lift_ok in E as (stats' & Hstats & E).
    unfold ret in E. injection E as <- <- <-.
    repeat split. exact Hstats.
Qed.

(** X7: when [evaluate] returns, the detection accumulator it returns
    was built on [base_ds] for the types ["segm"] and ["bbox"], in that
    order, that have a postprocessor, and was fed once per batch, in the
    order of the loader, the results of that batch keyed by image id. *)
Theorem detections_fed_per_batch (postprocessors : dict string PostProcessor)
  (data_loader : DataLoader) (base_ds : BaseDs) (output_dir : string)
  (stats : dict string StatVal) (coco : CocoEvaluator) :
  fst (evaluate postprocessors data_loader base_ds output_dir)
  = Ok (stats, coco) ->
  coco_gt coco = base_ds /\
  iou_types coco = filter (fun k => contains String.eqb k postprocessors)
                          ["segm"%string; "bbox"%string] /\
  coco_updates coco = map (res_of postprocessors) (batches data_loader).
Proof.
  intros Hrun.
  destruct (evaluate postprocessors data_loader base_ds output_dir)
    as [r evs] eqn:E. cbn [fst] in Hrun. subst r.
  apply evaluate_returns in E as (pe & evp & st & evl & eve & _ & Hl & He & _).
  apply eval_epilogue_returns in He as (-> & _ & _).
  apply eval_loop_feeds in Hl as (Hgt & Hty & Hup & _ & _).
  rewrite Hgt, Hty, Hup. repeat split.
Qed.

(** X8: with a ["panoptic"] postprocessor, a run of [evaluate] that
    returns has read both annotation attributes of the dataset, built the
    panoptic accumulator once, on the directory ["panoptic_eval"] under
    the output directory, and fed it once per batch. *)
Theorem panoptic_fed_per_batch (postprocessors : dict string PostProcessor)
  (data_loader : DataLoader) (base_ds : BaseDs) (output_dir : string)
  (r : dict string StatVal * CocoEvaluator) :
  contains String.eqb "panoptic"%string postprocessors = true ->
  fst (evaluate postprocessors data_loader base_ds output_dir) = Ok r ->
  exists file folder,
    dataset_ann_file data_loader = Some file /\
    dataset_ann_folder data_loader = Some folder /\
    In (New_PanopticEvaluator file folder
          (os_path_join output_dir "panoptic_eval"))
       (snd (evaluate postprocessors data_loader base_ds output_dir)) /\
    panoptic_constructions
      (snd (evaluate postprocessors data_loader base_ds output_dir))
    = [os_path_join output_dir "panoptic_eval"] /\
    panoptic_update_calls
      (snd (evaluate postprocessors data_loader base_ds output_dir))
    = List.length (batches data_loader).
Proof.
  intros Hpano Hrun.
  destruct (evaluate postprocessors data_loader base_ds output_dir)
    as [r0 evs] eqn:E. cbn [fst snd] in *. subst r0.
  apply evaluate_returns in E
    as (pe & evp & st & evl & eve & Hpe & Hl & He & ->).
  unfold make_panoptic_evaluator in Hpe. rewrite Hpano in Hpe.
  apply bind_lift_ok in Hpe as (file & Hfile & Hpe).
  apply bind_lift_ok in Hpe as (folder & Hfolder & Hpe).
  apply bind_emit_ok in Hpe as (? & Hpe & ->).
  unfold ret in Hpe. injection Hpe as <- <-.
  unfold getattr in Hfile, Hfolder.
  destruct (dataset_ann_file data_loader) as [f|]; [|discriminate].
  destruct (dataset_ann_folder data_loader) as [g|]; [|discriminate].
  injection Hfile as ->. injection Hfolder as ->.
  exists file, folder. split; [reflexivity|]. split; [reflexivity|].
  pose proof (quiet_loop postprocessors (batches data_loader)
                {| metric_logger := add_meter "class_error" [];
                   coco_evaluator :=
                     {| coco_gt := base_ds;
                        iou_types :=
                          filter (fun k => contains String.eqb k postprocessors)
                                 ["segm"%string; "bbox"%string];
                        coco_updates := [] |};
                   panoptic_evaluator :=
                     Some {| ann_file := file; ann_folder := folder;
                             pano_output_dir :=
                               os_path_join output_dir "panoptic_eval";
                             pano_updates := [] |};
                   target_sizes := None |}) as Hql.
  pose proof (quiet_epilogue postprocessors st) as Hqe.
  unfold quiet in Hql, Hqe. rewrite Hl in Hql. rewrite He in Hqe.
  cbn [snd] in Hql, Hqe.
  destruct r as [stats coco].
  apply eval_epilogue_returns in He as (_ & _ & Hne).
  apply eval_loop_feeds in Hl as (_ & _ & _ & _ & Hnl).
  cbn in Hnl.
  split; [|split].
  - cbn. auto.
  - unfold panoptic_constructions in *. cbn [app flat_map].
    rewrite flat_map_app, Hql, Hqe. reflexivity.
  - unfold panoptic_update_calls in *. cbn [app filter is_panoptic_update].
    rewrite filter_app, length_app, Hnl, Hne. lia.
Qed.

(** X9: a run of [evaluate] that returns reports the statistics of the
    returned accumulator: those of type ["bbox"] under ["coco_eval_bbox"]
    when there is a ["bbox"] postprocessor, and those of type ["segm"]
    under ["coco_eval_masks"] when there is a ["segm"] one. *)
Theorem stats_report_coco_eval (postprocessors : dict string PostProcessor)
  (data_loader : DataLoader) (base_ds : BaseDs) (output_dir : string)
  (stats : dict string StatVal) (coco : CocoEvaluator) :
  fst (evaluate postprocessors data_loader base_ds output_dir)
  = Ok (stats, coco) ->
  (contains String.eqb "bbox"%string postprocessors = true ->
   exists s, coco_eval_stats coco "bbox" = Ok s /\
             dict_get String.eqb "coco_eval_bbox"%string stats
             = Some (StatList s)) /\
  (contains String.eqb "segm"%string postprocessors = true ->
   exists s, coco_eval_stats coco "segm" = Ok s /\
             dict_get String.eqb "coco_eval_masks"%string stats
             = Some (StatList s)).
Proof.
  intros Hrun.
  destruct (evaluate postprocessors data_loader base_ds output_dir)
    as [r evs] eqn:E. cbn [fst] in Hrun. subst r.
  apply evaluate_returns in E as (pe & evp & st & evl & eve & _ & _ & He & _).
  apply eval_epilogue_returns in He as (-> & Hstats & _).
  unfold make_stats in Hstats.
  destruct (averages _) as [avgs|e]; [|discriminate]. cbn [rbind] in Hstats.
  set (stats0 := map (fun kv => (fst kv, StatFloat (snd kv))) avgs) in Hstats.
  destruct (contains String.eqb "bbox"%string postprocessors) eqn:Eb.
  - destruct (coco_eval_stats (coco_evaluator st) "bbox") as [sb|e] eqn:Esb;
      [|discriminate].
    cbn [rbind] in Hstats.
    destruct (contains String.eqb "segm"%string postprocessors) eqn:Es.
    + destruct (coco_eval_stats (coco_evaluator st) "segm") as [ss|e] eqn:Ess;
        [|discriminate].
      cbn [rbind] in Hstats.
      destruct (match panoptic_evaluator st with
                | Some pe0 => panoptic_summarize pe0
                | None => None
                end) as [res|].
      * destruct (getitem res "All"); [|discriminate].
        destruct (getitem res "Things"); [|discriminate].
        destruct (getitem res "Stuff"); [|discriminate].
        cbn [rbind] in Hstats. injection Hstats as <-.
        split; intros _; eexists; (split; [reflexivity|]).
        -- rewrite !dict_get_set_other by discriminate.
           apply dict_get_set_same.
        -- rewrite !dict_get_set_other by discriminate.
           apply dict_get_set_same.
      * injection Hstats as <-.
        split; intros _; eexists; (split; [reflexivity|]).
        -- rewrite !dict_get_set_other by discriminate.
           apply dict_get_set_same.
        -- apply dict_get_set_same.
    + cbn [rbind] in Hstats.
      destruct (match panoptic_evaluator st with
                | Some pe0 => panoptic_summarize pe0
                | None => None
                end) as [res|].
      * destruct (getitem res "All"); [|discriminate].
        destruct (getitem res "Things"); [|discriminate].
        destruct (getitem res "Stuff"); [|discriminate].
        cbn [rbind] in Hstats. injection Hstats as <-.
        split; [intros _|discriminate]. eexists. split; [reflexivity|].
        rewrite !dict_get_set_other by discriminate.
        apply dict_get_set_same.
      * injection Hstats as <-.
        split; [intros _|discriminate]. eexists. split; [reflexivity|].
        apply dict_get_set_same.
  - cbn [rbind] in Hstats.
    destruct (contains String.eqb "segm"%string postprocessors) eqn:Es.
    + destruct (coco_eval_stats (coco_evaluator st) "segm") as [ss|e] eqn:Ess;
        [|discriminate].
      cbn [rbind] in Hstats.
      destruct (match panoptic_evaluator st with
                | Some pe0 => panoptic_summarize pe0
                | None => None
                end) as [res|].
      * destruct (getitem res "All"); [|discriminate].
        destruct (getitem res "Things"); [|discriminate].
        destruct (getitem res "Stuff"); [|discriminate].
        cbn [rbind] in Hstats. injection Hstats as <-.
        split; [discriminate|intros _]. eexists. split; [reflexivity|].
        rewrite !dict_get_set_other by discriminate.
        apply dict_get_set_same.
      * injection Hstats as <-.
        split; [discriminate|intros _]. eexists. split; [reflexivity|].
        apply dict_get_set_same.
    + split; discriminate.
Qed.

(** X10: with a ["panoptic"] postprocessor and a dataset that has no
    [ann_file] attribute, [evaluate] raises an [AttributeError] once the
    detection accumulator is built and before any batch is read. *)
Theorem panoptic_needs_ann_file (postprocessors : dict string PostProcessor)
  (data_loader : DataLoader) (base_ds : BaseDs) (output_dir : string) :
  contains String.eqb "panoptic"%string postprocessors = true ->
  dataset_ann_file data_loader = None ->
  evaluate postprocessors data_loader base_ds output_dir =
  (Raise (AttributeError "ann_file"),
   [Call_model_eval; Call_criterion_eval;
    New_CocoEvaluator
      (filter (fun k => contains String.eqb k postprocessors)
              ["segm"%string; "bbox"%string])]).
Proof.
  intros Hpano Hfile. unfold evaluate, make_panoptic_evaluator. cbv zeta.
  rewrite !bind_emit_eq, Hpano, Hfile. reflexivity.
Qed.

(** ** The mapping from image ids to results *)

Lemma zdict_get_set_same (d : dict Z Result) (k : Z) (v : Result) :
  dict_get Z.eqb k (dict_set Z.eqb k v d) = Some v.
Proof.
  induction d as [|[k' v'] d IH]; simpl.
  - rewrite Z.eqb_refl. reflexivity.
  - destruct (Z.eqb_spec k k') as [->|Hne]; simpl.
    + rewrite Z.eqb_refl. reflexivity.
    + destruct (Z.eqb_spec k k'); [contradiction|exact IH].
Qed.

Lemma zdict_get_set_other (d : dict Z Result) (k k' : Z) (v : Result) :
  k' <> k ->
  dict_get Z.eqb k' (dict_set Z.eqb k v d) = dict_get Z.eqb k' d.
Proof.
  intros Hne. induction d as [|[k1 v1] d IH]; simpl.
  - destruct (Z.eqb_spec k' k); [contradiction|reflexivity].
  - destruct (Z.eqb_spec k k1) as [->|Hne1]; simpl.
    + destruct (Z.eqb_spec k' k1); [contradiction|reflexivity].
    + destruct (Z.eqb_spec k' k1); [reflexivity|exact IH].
Qed.

Lemma zkeys_dict_set (d : dict Z Result) (k k' : Z) (v : Result) :
  In k' (keys (dict_set Z.eqb k v d)) <-> k' = k \/ In k' (keys d).
Proof.
  induction d as [|[k1 v1] d IH]; simpl.
  - intuition.
  - destruct (Z.eqb_spec k k1) as [->|Hne]; simpl.
    + intuition.
    + rewrite IH. intuition.
Qed.

Lemma zfold_other (items : list (Z * Result)) (k : Z) :
  forall d : dict Z Result,
    (forall kv, In kv items -> fst kv <> k) ->
    dict_get Z.eqb k
      (fold_left (fun d kv => dict_set Z.eqb (fst kv) (snd kv) d) items d)
    = dict_get Z.eqb k d.
Proof.
  induction items as [|[k1 v1] items IH]; intros d H; cbn [fold_left];
    [reflexivity|].
  rewrite IH by (intros kv Hin; apply H; right; exact Hin).
  apply zdict_get_set_other. intros E.
  apply (H (k1, v1) (or_introl eq_refl)). symmetry. exact E.
Qed.

Lemma zfold_last (items : list (Z * Result)) (k : Z) (v : Result) :
  forall (d : dict Z Result) (j : nat),
    nth_error items j = Some (k, v) ->
    (forall j' kv, (j < j')%nat -> nth_error items j' = Some kv ->
                   fst kv <> k) ->
    dict_get Z.eqb k
      (fold_left (fun d kv => dict_set Z.eqb (fst kv) (snd kv) d) items d)
    = Some v.
Proof.
  induction items as [|[k1 v1] items IH]; intros d [|j] Hj Hlater;
    try discriminate; cbn [fold_left nth_error] in *.
  - injection Hj as -> ->. rewrite zfold_other; [apply zdict_get_set_same|].
    intros kv Hin. apply In_nth_error in Hin as [j' Hj'].
    apply (Hlater (S j') kv); [lia|exact Hj'].
  - apply (IH _ j Hj). intros j' kv Hlt Hkv.
    apply (Hlater (S j') kv); [lia|exact Hkv].
Qed.

Lemma zfold_keys (items : list (Z * Result)) (k : Z) :
  forall d : dict Z Result,
    In k (keys (fold_left (fun d kv => dict_set Z.eqb (fst kv) (snd kv) d)
                          items d)) <->
    In k (keys d) \/ In k (map fst items).
Proof.
  induction items as [|[k1 v1] items IH]; intros d; cbn [fold_left map In].
  - intuition.
  - rewrite IH, zkeys_dict_set. cbn [fst snd]. intuition.
Qed.

Lemma nth_error_combine {A B} (a : list A) (b : list B) (j : nat) (x : A)
  (y : B) :
  nth_error (combine a b) j = Some (x, y) <->
  nth_error a j = Some x /\ nth_error b j = Some y.
Proof.
  revert b j. induction a as [|a0 a IH]; intros [|b0 b] [|j]; cbn;
    try (split; [discriminate|intros [? ?]; discriminate]).
  - split; [intros [= -> ->]; split; reflexivity
           |intros [[= ->] [= ->]]; reflexivity].
  - apply IH.
Qed.

(** X11: in the mapping fed to the detection accumulator, the result at
    a target's position in the batch is found under that target's image
    id, provided no later target that has a result bears the same id: of
    two targets with one id, the later one's result is kept. *)
Theorem res_dict_last_target_wins (targets : list Target)
  (results : list Result) (j : nat) (target : Target) (r : Result) :
  nth_error targets j = Some target ->
  nth_error results j = Some r ->
  (forall j' target' r',
      (j < j')%nat -> nth_error targets j' = Some target' ->
      nth_error results j' = Some r' ->
      image_id target' <> image_id target) ->
  dict_get Z.eqb (image_id target) (res_dict targets results) = Some r.
Proof.
  intros Ht Hr Hlater. unfold res_dict, dict_of_items.
  apply zfold_last with (j := j).
  - rewrite nth_error_map.
    rewrite (proj2 (nth_error_combine targets results j target r)
                   (conj Ht Hr)).
    reflexivity.
  - intros j' [k v] Hlt Hkv. rewrite nth_error_map in Hkv.
    destruct (nth_error (combine targets results) j') as [[t' r']|] eqn:Ec;
      [|discriminate].
    cbn in Hkv. injection Hkv as <- <-.
    apply nth_error_combine in Ec as [Ht' Hr']. cbn [fst].
    exact (Hlater j' t' r' Hlt Ht' Hr').
Qed.

(** X12: the mapping fed to the detection accumulator has an entry for an
    image id exactly when a target of the batch that has a result at its
    position bears that id: targets beyond the results, and results
    beyond the targets, leave nothing. *)
Theorem res_dict_keys (targets : list Target) (results : list Result)
  (id : Z) :
  In id (keys (res_dict targets results)) <->
  exists j target r,
    nth_error targets j = Some target /\ nth_error results j = Some r /\
    image_id target = id.
Proof.
  unfold res_dict, dict_of_items. rewrite zfold_keys. cbn [keys map In].
  rewrite map_map. cbn [fst]. split.
  - intros [[]|H]. apply in_map_iff in H as [[t r] [<- Hin]].
    apply In_nth_error in Hin as [j Hj].
    apply nth_error_combine in Hj as [Ht Hr]. exists j, t, r. auto.
  - intros (j & t & r & Ht & Hr & <-). right.
    apply in_map_iff. exists (t, r). split; [reflexivity|].
    apply nth_error_In with (n := j). apply nth_error_combine. auto.
Qed.

(** ** Tagging the panoptic results *)

Lemma length_list_set {A} (l : list A) (i : nat) (x : A) :
  List.length (list_set i x l) = List.length l.
Proof.
  revert i. induction l as [|y l IH]; intros [|i]; cbn; try reflexivity.
  rewrite IH. reflexivity.
Qed.

Lemma annotate_enough (targets : list Target) :
  forall (i : nat) (res_pano : list PanoResult),
    (i + List.length targets <= List.length res_pano)%nat ->
    exists annotated,
      annotate i targets res_pano = Ok annotated /\
      List.length annotated = List.length res_pano.
Proof.
  induction targets as [|target rest IH]; intros i res_pano Hlen;
    cbn [annotate].
  - exists res_pano. split; reflexivity.
  - cbn [List.length] in Hlen.
    destruct (nth_error res_pano i) as [r|] eqn:Er.
    + edestruct IH as (annotated & Ha & Hl);
        [|exists annotated; split; [exact Ha|]].
      * rewrite length_list_set. lia.
      * rewrite Hl. apply length_list_set.
    + apply nth_error_None in Er. lia.
Qed.

Lemma annotate_short (targets : list Target) :
  forall (i : nat) (res_pano : list PanoResult),
    (i <= List.length res_pano)%nat ->
    (List.length res_pano < i + List.length targets)%nat ->
    annotate i targets res_pano = Raise IndexError.
Proof.
  induction targets as [|target rest IH]; intros i res_pano Hi Hlen;
    cbn [annotate List.length] in *; [lia|].
  destruct (nth_error res_pano i) as [r|] eqn:Er; [|reflexivity].
  assert (Hlt : (i < List.length res_pano)%nat)
    by (apply nth_error_Some; congruence).
  apply IH; rewrite length_list_set; lia.
Qed.

Lemma annotate_outside (targets : list Target) :
  forall (i : nat) (res_pano annotated : list PanoResult),
    annotate i targets res_pano = Ok annotated ->
    forall j, (j < i \/ i + List.length targets <= j)%nat ->
              nth_error annotated j = nth_error res_pano j.
Proof.
  induction targets as [|target rest IH]; intros i res_pano annotated H j Hj;
    cbn [annotate List.length] in *.
  - injection H as <-. reflexivity.
  - destruct (nth_error res_pano i) as [r|]; [|discriminate].
    erewrite IH; [|exact H|lia].
    apply nth_error_list_set_other. lia.
Qed.

(** X13: tagging the panoptic results of a batch goes through exactly
    when the panoptic postprocessor returned at least one result per
    target, and then returns as many results as it was given; with fewer
    results than targets it raises an [IndexError]. *)
Theorem annotate_needs_result_per_target (targets : list Target)
  (res_pano : list PanoResult) :
  ((List.length targets <= List.length res_pano)%nat ->
   exists annotated,
     annotate 0 targets res_pano = Ok annotated /\
     List.length annotated = List.length res_pano) /\
  ((List.length res_pano < List.length targets)%nat ->
   annotate 0 targets res_pano = Raise IndexError).
Proof.
  split; intros H.
  - apply annotate_enough. exact H.
  - apply annotate_short; lia.
Qed.

(** X14: tagging writes nothing but the two keys ["image_id"] and
    ["file_name"]: a panoptic result beyond the targets comes back as it
    was, and every other key of every result keeps its value. *)
Theorem annotate_frame (targets : list Target)
  (res_pano annotated : list PanoResult) :
  annotate 0 targets res_pano = Ok annotated ->
  (forall j, (List.length targets <= j)%nat ->
             nth_error annotated j = nth_error res_pano j) /\
  (forall j r k,
      nth_error res_pano j = Some r ->
      k <> "image_id"%string -> k <> "file_name"%string ->
      exists r', nth_error annotated j = Some r' /\
                 dict_get String.eqb k r' = dict_get String.eqb k r).
Proof.
  intros H. split.
  - intros j Hj. eapply annotate_outside; [exact H|]. right. exact Hj.
  - intros j r k Hr Hk1 Hk2.
    destruct (nth_error targets j) as [target|] eqn:Et.
    + destruct (annotate_spec _ _ _ H) as [_ Hs].
      destruct (Hs j target Et) as (r0 & Hr0 & Ha). cbn [Nat.add] in *.
      rewrite Hr in Hr0. injection Hr0 as <-.
      exists (tagged target r). split; [exact Ha|]. unfold tagged.
      rewrite !dict_get_set_other by assumption. reflexivity.
    + apply nth_error_None in Et. exists r. split; [|reflexivity].
      erewrite annotate_outside; [exact Hr|exact H|]. right. exact Et.
Qed.

(** ** Reading a file name back *)

(** a decimal number with an optional minus sign *)
Definition read_int (s : string) : option Z :=
  match s with
  | EmptyString => None
  | String c t =>
      if Ascii.eqb c "-"%char
      then option_map Z.opp (FormatFacts.parse_digits t 0)
      else FormatFacts.parse_digits s 0
  end.

Lemma read_int_digits (s : string) (n : Z) :
  s <> EmptyString -> FormatFacts.parse_digits s 0 = Some n ->
  read_int s = Some n.
Proof.
  destruct s as [|c t]; [contradiction|]. intros _ H. unfold read_int.
  destruct (Ascii.eqb_spec c "-"%char) as [->|_]; [|exact H].
  cbn in H. discriminate.
Qed.

Lemma zfill_width (width : nat) (s : string) :
  (width <= String.length (zfill width s))%nat.
Proof. unfold zfill. rewrite length_append, FormatFacts.length_zeros. lia. Qed.

Lemma read_format_0d (width : nat) (n : Z) :
  (1 <= width)%nat -> read_int (format_0d width n) = Some n.
Proof.
  intros Hw. unfold format_0d. destruct (Z.ltb_spec n 0) as [Hneg|Hpos].
  - unfold read_int. cbn [Ascii.eqb Bool.eqb]. unfold zfill.
    rewrite FormatFacts.parse_zeros.
    destruct (@FormatFacts.decimal_spec (- n)%Z ltac:(lia)) as [_ ->].
    cbn [option_map]. f_equal. lia.
  - apply read_int_digits.
    + intros E. pose proof (zfill_width width (decimal n)) as Hl.
      rewrite E in Hl. cbn in Hl. lia.
    + unfold zfill. rewrite FormatFacts.parse_zeros.
      apply FormatFacts.decimal_spec. exact Hpos.
Qed.

Lemma length_format_0d (width : nat) (n : Z) :
  (width <= String.length (format_0d width n))%nat.
Proof.
  unfold format_0d. destruct (n <? 0)%Z.
  - cbn [String.length]. pose proof (zfill_width (width - 1) (decimal (- n))).
    lia.
  - apply zfill_width.
Qed.

(** X15: for every integer image id, negative ones included, the file
    name is at least sixteen characters long and its part before
    [".png"] reads back as the id; so two targets get the same file name
    only when they have the same id. *)
Theorem file_name_reads_back (id : Z) :
  (16 <= String.length (file_name id))%nat /\
  read_int (format_0d 12 id) = Some id /\
  (forall id', file_name id' = file_name id -> id' = id).
Proof.
  split; [|split].
  - unfold file_name. rewrite length_append.
    pose proof (length_format_0d 12 id). cbn [String.length]. lia.
  - apply read_format_0d. lia.
  - intros id' H. unfold file_name in H. apply append_inj_l in H.
    pose proof (@read_format_0d 12 id' ltac:(lia)) as H1.
    pose proof (@read_format_0d 12 id ltac:(lia)) as H2.
    rewrite H in H1. congruence.
Qed.

End Driver.
End Eval.

(* ===================================================================== *)
(** * A small evaluation setup                                            *)
(* ===================================================================== *)

Module EvalExample.
Import Py Loss Metric PyFacts LossFacts MetricFacts Eval.

(** Opaque model outputs and results; a criterion with one weighted term;
    postprocessors that return one result per image. *)
Definition ex_model (samples : unit) : unit := tt.

Definition ex_criterion (outputs : unit) (targets : list Target) : LossDict :=
  [("loss_ce"%string, f1); ("class_error"%string, f0)].

Definition ex_weight_dict : WeightDict := [("loss_ce"%string, f1)].

Definition single_worker (d : LossDict) : LossDict := d.

Definition ex_path_join (a b : string) : string := (a ++ "/" ++ b)%string.

Definition ex_bbox (pp outputs : unit) (sizes : list (Z * Z)) : list unit :=
  map (fun _ => tt) sizes.

Definition ex_segm (pp : unit) (results : list unit) (outputs : unit)
  (orig_sizes sizes : list (Z * Z)) : list unit := results.

Definition ex_panoptic (pp outputs : unit) (sizes orig_sizes : list (Z * Z))
  : list (PanoResult unit) :=
  map (fun _ => []) sizes.

(** the accumulator has statistics for the types it was built with *)
Definition ex_coco_stats (coco : CocoEvaluator unit unit) (iou_type : string)
  : result (list float) :=
  if existsb (String.eqb iou_type) (iou_types coco)
  then Ok [] else Raise (KeyError iou_type).

Definition ex_summarize (pe : PanopticEvaluator unit)
  : option (dict string unit) := None.

Definition ex_evaluate (criterion : unit -> list Target -> LossDict)
  (weight_dict : WeightDict) (postprocessors : dict string unit)
  (data_loader : DataLoader unit) :=
  evaluate ex_model criterion weight_dict single_worker [] ex_path_join
    ex_bbox ex_segm ex_panoptic ex_coco_stats ex_summarize postprocessors
    data_loader tt "out".

(** one batch with the one image 17, from a panoptic dataset *)
Definition ex_loader : DataLoader unit :=
  {| batches := [(tt, [{| image_id := 17; orig_size := (480, 640)%Z;
                          size := (800, 1066)%Z |}])];
     dataset_ann_file := Some "panoptic_val.json"%string;
     dataset_ann_folder := Some "panoptic_val"%string |}.

Definition bbox_only : dict string unit := [("bbox"%string, tt)].

Definition bbox_and_panoptic : dict string unit :=
  [("bbox"%string, tt); ("panoptic"%string, tt)].

(** a criterion one of whose weighted terms is called ["PQ_all"] *)
Definition pq_criterion (outputs : unit) (targets : list Target) : LossDict :=
  [("PQ_all"%string, f1); ("class_error"%string, f0)].

Definition pq_weight_dict : WeightDict := [("PQ_all"%string, f1)].

(** C4, the code at the failing input: with a ["bbox"] and a ["panoptic"]
    postprocessor and no ["segm"] one, [evaluate] builds both
    accumulators, feeds the detection one, and on the first batch raises
    on the unbound [target_sizes] before the panoptic postprocessor runs;
    the panoptic accumulator is fed nothing. *)
Theorem panoptic_without_segm_unbound :
  ex_evaluate ex_criterion ex_weight_dict bbox_and_panoptic ex_loader
  = (Raise (UnboundLocalError "target_sizes"),
     [Call_model_eval _ _; Call_criterion_eval _ _;
      New_CocoEvaluator _ _ ["bbox"%string];
      New_PanopticEvaluator _ _ "panoptic_val.json" "panoptic_val"
                            "out/panoptic_eval";
      Call_coco_update _ [(17%Z, tt)]]).
Proof. vm_compute. reflexivity. Qed.

(** with the ["segm"] postprocessor there as well, the same batch tags the
    panoptic result and feeds it to the accumulator *)
Example panoptic_with_segm_feeds :
  exists stats coco,
    fst (ex_evaluate ex_criterion ex_weight_dict
           [("bbox"%string, tt); ("segm"%string, tt); ("panoptic"%string, tt)]
           ex_loader) = Ok (stats, coco) /\
    In (Call_panoptic_update _
          [[("image_id"%string, PanoInt unit 17);
            ("file_name"%string, PanoStr unit "000000000017.png")]])
       (snd (ex_evaluate ex_criterion ex_weight_dict
               [("bbox"%string, tt); ("segm"%string, tt);
                ("panoptic"%string, tt)] ex_loader)).
Proof.
  eexists. eexists. split; [vm_compute; reflexivity|].
  vm_compute. intuition.
Qed.

(** why the theorem on the bbox-only pass speaks of the names of the loss
    terms: a meter is named after its loss term, so a criterion with a
    weighted term called ["PQ_all"], which the criterion of this
    repository has not, would have that meter reported under this key *)
Example pq_key_among_bbox_only_keys :
  keys bbox_only = ["bbox"%string] /\
  exists stats coco,
    fst (ex_evaluate pq_criterion pq_weight_dict bbox_only ex_loader)
    = Ok (stats, coco) /\
    In "PQ_all"%string (keys stats).
Proof.
  split; [reflexivity|]. eexists. eexists.
  split; [vm_compute; reflexivity|]. vm_compute. intuition.
Qed.

(** with the criterion of the example, whose one weighted term is
    [loss_ce], the bbox-only pass builds no panoptic accumulator and
    returns stats without any of the four keys *)
Lemma bbox_only_stats_witness :
  keys bbox_only = ["bbox"%string] /\
  (forall batch k,
      In batch (batches ex_loader) ->
      In k (common_keys
              (reduced_of ex_model ex_criterion single_worker batch)
              ex_weight_dict) ->
      ~ In k ["PQ_all"; "PQ_th"; "PQ_st"; "coco_eval_masks"]%string) /\
  panoptic_constructions
    (snd (ex_evaluate ex_criterion ex_weight_dict bbox_only ex_loader)) = [] /\
  exists stats coco,
    fst (ex_evaluate ex_criterion ex_weight_dict bbox_only ex_loader)
    = Ok (stats, coco) /\
    keys stats = ["class_error"; "loss"; "loss_ce"; "loss_ce_unscaled";
                  "class_error_unscaled"; "coco_eval_bbox"]%string /\
    forall k,
      In k ["PQ_all"; "PQ_th"; "PQ_st"; "coco_eval_masks"]%string ->
      ~ In k (keys stats).
Proof.
  assert (H : keys bbox_only = ["bbox"%string]) by reflexivity.
  assert (Ht : forall batch k,
             In batch (batches ex_loader) ->
             In k (common_keys
                     (reduced_of ex_model ex_criterion single_worker batch)
                     ex_weight_dict) ->
             ~ In k ["PQ_all"; "PQ_th"; "PQ_st"; "coco_eval_masks"]%string).
  { intros batch k _ Hk Hin. cbn in Hk. destruct Hk as [<-|[]].
    cbn in Hin. intuition discriminate. }
  assert (Hrun : exists stats coco,
             fst (ex_evaluate ex_criterion ex_weight_dict bbox_only ex_loader)
             = Ok (stats, coco) /\
             keys stats = ["class_error"; "loss"; "loss_ce";
                           "loss_ce_unscaled"; "class_error_unscaled";
                           "coco_eval_bbox"]%string)
    by (eexists; eexists; split; vm_compute; reflexivity).
  split; [exact H|]. split; [exact Ht|].
  destruct (@bbox_only_stats _ _ _ _ _ _ _ ex_model ex_criterion
              ex_weight_dict single_worker [] ex_path_join ex_bbox ex_segm
              ex_panoptic ex_coco_stats ex_summarize bbox_only ex_loader
              tt "out"%string H Ht) as [Hno Hstats].
  split; [exact Hno|].
  destruct Hrun as (stats & coco & Hr & Hk). exists stats, coco.
  split; [exact Hr|]. split; [exact Hk|].
  exact (proj2 (Hstats stats coco Hr)).
Defined.

(** C7, the claim as stated fails: an id of thirteen digits is written in
    full, on thirteen digits. *)
Lemma file_name_thirteen_digits :
  file_name (10 ^ 12) = "1000000000000.png"%string /\
  String.length "1000000000000" = 13%nat.
Proof. split; vm_compute; reflexivity. Qed.

Example file_name_negative : file_name (-17) = "-00000000017.png"%string.
Proof. vm_compute. reflexivity. Qed.

Lemma file_name_zero_padded_witness :
  (0 <= 17 < 10 ^ 12)%Z /\ file_name 17 = "000000000017.png"%string.
Proof.
  assert (H : (0 <= 17 < 10 ^ 12)%Z) by (split; [discriminate|reflexivity]).
  split; [exact H|].
  exact (proj1 (proj2 (@file_name_zero_padded unit 17%Z H))).
Defined.

(** ** Instances of the further facts on the evaluation pass *)

Definition segm_only : dict string unit := [("segm"%string, tt)].

Definition all_three : dict string unit :=
  [("bbox"%string, tt); ("segm"%string, tt); ("panoptic"%string, tt)].

(** the same batch from a detection dataset, which has no annotation
    file for panoptic segmentation *)
Definition detection_loader : DataLoader unit :=
  {| batches := batches ex_loader;
     dataset_ann_file := None;
     dataset_ann_folder := None |}.

Lemma evaluate_needs_bbox_witness :
  contains String.eqb "bbox"%string segm_only = false /\
  batches ex_loader <> [] /\
  exists e,
    ex_evaluate ex_criterion ex_weight_dict segm_only ex_loader
    = (Raise e,
       [Call_model_eval _ _; Call_criterion_eval _ _;
        New_CocoEvaluator _ _
          (filter (fun k => contains String.eqb k segm_only)
                  ["segm"%string; "bbox"%string])] ++
       snd (make_panoptic_evaluator unit unit ex_path_join segm_only
                                    ex_loader "out")).
Proof.
  assert (Hb : contains String.eqb "bbox"%string segm_only = false)
    by reflexivity.
  assert (Hne : batches ex_loader <> []) by discriminate.
  split; [exact Hb|]. split; [exact Hne|].
  exact (@evaluate_needs_bbox _ _ _ _ _ _ _ ex_model ex_criterion
           ex_weight_dict single_worker [] ex_path_join ex_bbox ex_segm
           ex_panoptic ex_coco_stats ex_summarize segm_only ex_loader tt
           "out"%string Hb Hne).
Defined.

Lemma detections_fed_per_batch_witness :
  exists stats coco,
    fst (ex_evaluate ex_criterion ex_weight_dict bbox_only ex_loader)
    = Ok (stats, coco) /\
    coco_updates coco
    = map (res_of ex_model ex_bbox ex_segm bbox_only) (batches ex_loader).
Proof.
  assert (H : exists stats coco,
             fst (ex_evaluate ex_criterion ex_weight_dict bbox_only ex_loader)
             = Ok (stats, coco))
    by (eexists; eexists; vm_compute; reflexivity).
  destruct H as (stats & coco & H). exists stats, coco. split; [exact H|].
  exact (proj2 (proj2
           (@detections_fed_per_batch _ _ _ _ _ _ _ ex_model ex_criterion
              ex_weight_dict single_worker [] ex_path_join ex_bbox ex_segm
              ex_panoptic ex_coco_stats ex_summarize bbox_only ex_loader tt
              "out"%string stats coco H))).
Defined.

Lemma panoptic_fed_per_batch_witness :
  contains String.eqb "panoptic"%string all_three = true /\
  panoptic_update_calls
    (snd (ex_evaluate ex_criterion ex_weight_dict all_three ex_loader))
  = 1%nat.
Proof.
  assert (Hp : contains String.eqb "panoptic"%string all_three = true)
    by reflexivity.
  assert (H : exists r,
             fst (ex_evaluate ex_criterion ex_weight_dict all_three ex_loader)
             = Ok r)
    by (eexists; vm_compute; reflexivity).
  split; [exact Hp|]. destruct H as (r & H).
  destruct (@panoptic_fed_per_batch _ _ _ _ _ _ _ ex_model ex_criterion
              ex_weight_dict single_worker [] ex_path_join ex_bbox ex_segm
              ex_panoptic ex_coco_stats ex_summarize all_three ex_loader tt
              "out"%string r Hp H) as (file & folder & _ & _ & _ & _ & Hn).
  exact Hn.
Defined.

Lemma stats_report_coco_eval_witness :
  exists stats coco,
    fst (ex_evaluate ex_criterion ex_weight_dict bbox_only ex_loader)
    = Ok (stats, coco) /\
    exists s, ex_coco_stats coco "bbox" = Ok s /\
              dict_get String.eqb "coco_eval_bbox"%string stats
              = Some (StatList unit s).
Proof.
  assert (H : exists stats coco,
             fst (ex_evaluate ex_criterion ex_weight_dict bbox_only ex_loader)
             = Ok (stats, coco))
    by (eexists; eexists; vm_compute; reflexivity).
  destruct H as (stats & coco & H). exists stats, coco. split; [exact H|].
  exact (proj1
           (@stats_report_coco_eval _ _ _ _ _ _ _ ex_model ex_criterion
              ex_weight_dict single_worker [] ex_path_join ex_bbox ex_segm
              ex_panoptic ex_coco_stats ex_summarize bbox_only ex_loader tt
              "out"%string stats coco H) eq_refl).
Defined.

Lemma panoptic_needs_ann_file_witness :
  contains String.eqb "panoptic"%string bbox_and_panoptic = true /\
  dataset_ann_file detection_loader = None /\
  ex_evaluate ex_criterion ex_weight_dict bbox_and_panoptic detection_loader
  = (Raise (AttributeError "ann_file"),
     [Call_model_eval _ _; Call_criterion_eval _ _;
      New_CocoEvaluator _ _
        (filter (fun k => contains String.eqb k bbox_and_panoptic)
                ["segm"%string; "bbox"%string])]).
Proof.
  assert (Hp : contains String.eqb "panoptic"%string bbox_and_panoptic = true)
    by reflexivity.
  assert (Hf : dataset_ann_file detection_loader = None) by reflexivity.
  split; [exact Hp|]. split; [exact Hf|].
  exact (@panoptic_needs_ann_file _ _ _ _ _ _ _ ex_model ex_criterion
           ex_weight_dict single_worker [] ex_path_join ex_bbox ex_segm
           ex_panoptic ex_coco_stats ex_summarize bbox_and_panoptic
           detection_loader tt "out"%string Hp Hf).
Defined.

Definition image17 : Target :=
  {| image_id := 17; orig_size := (480, 640)%Z; size := (800, 1066)%Z |}.

(** two targets with the id 17: the second result is the one kept *)
Lemma res_dict_last_target_wins_witness :
  dict_get Z.eqb 17%Z (res_dict [image17; image17] [1%Z; 2%Z]) = Some 2%Z.
Proof.
  refine (@res_dict_last_target_wins Z [image17; image17] [1%Z; 2%Z] 1
            image17 2%Z eq_refl eq_refl _).
  intros j' target' r' Hlt Ht.
  destruct j' as [|[|[|j']]]; try lia; discriminate Ht.
Defined.

Lemma annotate_frame_witness :
  annotate 0 [image17] [[("segments_info"%string, PanoStr unit "none")]; []]
  = Ok [[("segments_info"%string, PanoStr unit "none");
         ("image_id"%string, PanoInt unit 17);
         ("file_name"%string, PanoStr unit "000000000017.png")]; []] /\
  forall j, (1 <= j)%nat ->
    nth_error [[("segments_info"%string, PanoStr unit "none");
                ("image_id"%string, PanoInt unit 17);
                ("file_name"%string, PanoStr unit "000000000017.png")]; []] j
    = nth_error [[("segments_info"%string, PanoStr unit "none")]; []] j.
Proof.
  assert (H : annotate 0 [image17]
                [[("segments_info"%string, PanoStr unit "none")]; []]
              = Ok [[("segments_info"%string, PanoStr unit "none");
                     ("image_id"%string, PanoInt unit 17);
                     ("file_name"%string, PanoStr unit "000000000017.png")];
                    []])
    by (vm_compute; reflexivity).
  split; [exact H|].
  exact (proj1 (@annotate_frame unit _ _ _ H)).
Defined.

Lemma panoptic_needs_segm_witness :
  contains String.eqb "panoptic"%string bbox_and_panoptic = true /\
  contains String.eqb "segm"%string bbox_and_panoptic = false /\
  batches ex_loader <> [] /\
  exists e,
    fst (ex_evaluate ex_criterion ex_weight_dict bbox_and_panoptic ex_loader)
    = Raise e.
Proof.
  assert (Hp : contains String.eqb "panoptic"%string bbox_and_panoptic = true)
    by reflexivity.
  assert (Hs : contains String.eqb "segm"%string bbox_and_panoptic = false)
    by reflexivity.
  assert (Hne : batches ex_loader <> []) by discriminate.
  split; [exact Hp|]. split; [exact Hs|]. split; [exact Hne|].
  exact (@panoptic_needs_segm _ _ _ _ _ _ _ ex_model ex_criterion
           ex_weight_dict single_worker [] ex_path_join ex_bbox ex_segm
           ex_panoptic ex_coco_stats ex_summarize bbox_and_panoptic ex_loader
           tt "out"%string Hp Hs Hne).
Defined.

End EvalExample.

(* ===================================================================== *)
(** * [plot_image_with_labels] and [plot_prediction]                      *)
(* ===================================================================== *)

Module Plot.
Import Py.

(** A box tensor is the list of its rows.  Iterating over a tensor yields
    views of its rows, and an item assignment through a view writes into
    the tensor: the procedures below pass the tensor along and return it
    as it is after the writes. *)
Definition Boxes : Type := list (list float).

(** the image tensors of a batch, by their last two dimensions *)
Definition Images : Type := list (Z * Z).

(** [torch.tensor(0.99)] *)
Definition c099 : float := Fin (Q2Qc (99 # 100)).

Definition colors : list string :=
  ["blue"; "red"; "orange"; "green"; "yellow"]%string.

Inductive Event : Type :=
| Print_image_size (h w : Z)
| Imshow (h w : Z)
| Scatter (x y : float) (color : string)
| Show
| Print_coords_shape (rows : nat)
| Print_predictions (n : nat).

(** the two tests on [coord[i]], engine.py lines 225 to 228: the second
    reads what the first may have written *)
Definition clamp_at (coord : list float) (i : nat) : list float :=
  match nth_error coord i with
  | None => coord
  | Some x =>
      let coord1 := if fge x f1 then list_set i c099 coord else coord in
      match nth_error coord1 i with
      | None => coord1
      | Some y => if fle y f0 then list_set i c099 coord1 else coord1
      end
  end.

(** [for i in range(len(coord))] *)
Definition clamp_row (coord : list float) : list float :=
  fold_left clamp_at (seq 0 (List.length coord)) coord.

(** [coord[0]] to [coord[7]], read in this order *)
Definition corners (coord : list float) : result (list (float * float)) :=
  match coord with
  | x0 :: y0 :: x1 :: y1 :: x2 :: y2 :: x3 :: y3 :: _ =>
      Ok [(x0, y0); (x1, y1); (x2, y2); (x3, y3)]
  | _ => Raise IndexError
  end.

Definition scatter (h w : Z) (color : string) (pts : list (float * float))
  : list Event :=
  map (fun p => Scatter (fmul (fst p) (of_Z w)) (fmul (snd p) (of_Z h)) color)
      pts.

(** [for gate_coord, color in zip(coords, colors)], lines 222 to 237;
    returns the tensor after the loop *)
Fixpoint plot_gates (threshold : bool) (h w : Z) (coords : Boxes)
  (palette : list string) : result unit * Boxes * list Event :=
  match coords, palette with
  | gate_coord :: rest, color :: palette' =>
      let gate_coord' := if threshold then clamp_row gate_coord
                         else gate_coord in
      match corners gate_coord' with
      | Raise e => (Raise e, gate_coord' :: rest, [])
      | Ok pts =>
          match plot_gates threshold h w rest palette' with
          | (r, rest', evs) =>
              (r, gate_coord' :: rest', scatter h w color pts ++ evs)
          end
      end
  | _, _ => (Ok tt, coords, [])
  end.

(** engine.py lines 203 to 241; returns the box tensors of the targets as
    they are after the call *)
Definition plot_image_with_labels (samples : Images) (targets : list Boxes)
  (num_sample : nat) (threshold : bool)
  : result unit * list Boxes * list Event :=
  match nth_error samples num_sample with
  | None => (Raise IndexError, targets, [])
  | Some (h, w) =>
      match nth_error targets num_sample with
      | None => (Raise IndexError, targets, [])
      | Some coords =>
          match plot_gates threshold h w coords colors with
          | (Ok _, coords', evs) =>
              (Ok tt, list_set num_sample coords' targets,
               [Print_image_size h w; Imshow h w] ++ evs ++
               [Show; Print_coords_shape (List.length coords')])
          | (Raise e, coords', evs) =>
              (Raise e, list_set num_sample coords' targets,
               [Print_image_size h w; Imshow h w] ++ evs)
          end
      end
  end.

Section Prediction.

(** the index that [torch.max(logit, 0)] returns *)
Variable torch_max_index : list float -> Z.

(** [for logit, coord, color in zip(logits, coords, colors)], lines 265 to
    283; returns the count of predictions and the tensor after the loop *)
Fixpoint plot_queries (h w : Z) (logits coords : Boxes)
  (palette : list string) (num_predictions : nat)
  : result nat * Boxes * list Event :=
  match logits, coords, palette with
  | logit :: logits', coord :: rest, color :: palette' =>
      if Z.eqb (torch_max_index logit) 1 then
        match plot_queries h w logits' rest palette' num_predictions with
        | (r, rest', evs) => (r, coord :: rest', evs)
        end
      else
        let coord' := clamp_row coord in
        match corners coord' with
        | Raise e => (Raise e, coord' :: rest, [])
        | Ok pts =>
            match plot_queries h w logits' rest palette' (S num_predictions) with
            | (r, rest', evs) =>
                (r, coord' :: rest', scatter h w color pts ++ evs)
            end
        end
  | _, _, _ => (Ok num_predictions, coords, [])
  end.

(** [for image, logits, coords in zip(samples.tensors, logits_batch,
    coords_batch)], lines 258 to 287; returns [pred_boxes] after the call *)
Fixpoint plot_prediction (samples : Images) (pred_logits pred_boxes : list Boxes)
  : result unit * list Boxes * list Event :=
  match samples, pred_logits, pred_boxes with
  | (h, w) :: samples', logits :: pred_logits', coords :: pred_boxes' =>
      match plot_queries h w logits coords colors 0 with
      | (Raise e, coords', evs) =>
          (Raise e, coords' :: pred_boxes', Imshow h w :: evs)
      | (Ok n, coords', evs) =>
          match plot_prediction samples' pred_logits' pred_boxes' with
          | (r, boxes', evs') =>
              (r, coords' :: boxes',
               (Imshow h w :: evs) ++ [Print_predictions n; Show] ++ evs')
          end
      end
  | _, _, _ => (Ok tt, pred_boxes, [])
  end.

(** ** What the procedures write *)

(** [y] is [x], or 0.99 in place of an [x] that is [>= 1.0] or [<= 0.0] *)
Definition clamped_from (x y : float) : Prop :=
  y = x \/ (y = c099 /\ (fge x f1 = true \/ fle x f0 = true)).

Lemma clamped_refl (x : float) : clamped_from x x.
Proof. left. reflexivity. Qed.

Lemma clamped_trans (x y z : float) :
  clamped_from x y -> clamped_from y z -> clamped_from x z.
Proof.
  intros [->|[-> Hx]] [->|[-> Hy]].
  - left. reflexivity.
  - right. split; [reflexivity|exact Hy].
  - right. split; [reflexivity|exact Hx].
  - right. split; [reflexivity|exact Hx].
Qed.

Lemma Forall2_refl_on {A} (R : A -> A -> Prop) (l : list A) :
  (forall x, R x x) -> Forall2 R l l.
Proof. intros H. induction l; constructor; auto. Qed.

Lemma Forall2_trans_on {A} (R : A -> A -> Prop) (l1 l2 l3 : list A) :
  (forall x y z, R x y -> R y z -> R x z) ->
  Forall2 R l1 l2 -> Forall2 R l2 l3 -> Forall2 R l1 l3.
Proof.
  intros Ht H12. revert l3. induction H12 as [|x y l1 l2 Hxy _ IH];
    intros l3 H23; inversion H23; subst; constructor; eauto.
Qed.

Lemma Forall2_list_set {A} (R : A -> A -> Prop) (l : list A) (i : nat)
  (x y : A) :
  (forall a, R a a) -> nth_error l i = Some x -> R x y ->
  Forall2 R l (list_set i y l).
Proof.
  intros Hr. revert i. induction l as [|a l IH]; intros [|i] Hi Hxy;
    simpl in *; try discriminate.
  - injection Hi as ->. constructor; [exact Hxy|apply Forall2_refl_on, Hr].
  - constructor; [apply Hr|apply IH; assumption].
Qed.

Lemma clamp_at_clamped (coord : list float) (i : nat) :
  Forall2 clamped_from coord (clamp_at coord i).
Proof.
  unfold clamp_at. destruct (nth_error coord i) as [x|] eqn:Ex;
    [|apply Forall2_refl_on, clamped_refl].
  set (coord1 := if fge x f1 then list_set i c099 coord else coord).
  assert (H1 : Forall2 clamped_from coord coord1).
  { unfold coord1. destruct (fge x f1) eqn:Hge;
      [|apply Forall2_refl_on, clamped_refl].
    eapply Forall2_list_set; [apply clamped_refl|exact Ex|].
    right. split; [reflexivity|left; exact Hge]. }
  destruct (nth_error coord1 i) as [y|] eqn:Ey; [|exact H1].
  destruct (fle y f0) eqn:Hle; [|exact H1].
  eapply Forall2_trans_on; [apply clamped_trans|exact H1|].
  eapply Forall2_list_set; [apply clamped_refl|exact Ey|].
  right. split; [reflexivity|right; exact Hle].
Qed.

Lemma clamp_row_clamped (coord : list float) :
  Forall2 clamped_from coord (clamp_row coord).
Proof.
  unfold clamp_row. generalize (seq 0 (List.length coord)) as idx.
  intros idx.
  assert (H : forall cur, Forall2 clamped_from coord cur ->
              Forall2 clamped_from coord (fold_left clamp_at idx cur)).
  { induction idx as [|i idx IH]; intros cur Hc; simpl; [exact Hc|].
    apply IH. eapply Forall2_trans_on; [apply clamped_trans|exact Hc|].
    apply clamp_at_clamped. }
  apply H, Forall2_refl_on, clamped_refl.
Qed.

(** a whole tensor, row by row and coordinate by coordinate *)
Definition boxes_clamped (before after : Boxes) : Prop :=
  Forall2 (Forall2 clamped_from) before after.

Lemma boxes_clamped_refl (coords : Boxes) : boxes_clamped coords coords.
Proof.
  apply Forall2_refl_on. intros row. apply Forall2_refl_on, clamped_refl.
Qed.

Lemma plot_gates_clamped (threshold : bool) (h w : Z) (coords : Boxes) :
  forall palette,
    boxes_clamped coords (snd (fst (plot_gates threshold h w coords palette))).
Proof.
  induction coords as [|gate_coord rest IH]; intros palette;
    cbn [plot_gates]; [constructor|].
  destruct palette as [|color palette']; [apply boxes_clamped_refl|].
  set (gc := if threshold then clamp_row gate_coord else gate_coord).
  assert (Hgc : Forall2 clamped_from gate_coord gc).
  { unfold gc. destruct threshold; [apply clamp_row_clamped|].
    apply Forall2_refl_on, clamped_refl. }
  destruct (corners gc) as [pts|e]; cbn [fst snd].
  - specialize (IH palette').
    destruct (plot_gates threshold h w rest palette') as [[r rest'] evs].
    cbn [fst snd] in *. constructor; assumption.
  - constructor; [exact Hgc|apply boxes_clamped_refl].
Qed.

Lemma plot_gates_no_threshold (h w : Z) (coords : Boxes) :
  forall palette,
    snd (fst (plot_gates false h w coords palette)) = coords.
Proof.
  induction coords as [|gate_coord rest IH]; intros palette;
    cbn [plot_gates]; [reflexivity|].
  destruct palette as [|color palette']; [reflexivity|].
  destruct (corners gate_coord) as [pts|e]; cbn [fst snd]; [|reflexivity].
  specialize (IH palette').
  destruct (plot_gates false h w rest palette') as [[r rest'] evs].
  cbn [fst snd] in *. rewrite IH. reflexivity.
Qed.

Lemma list_set_nth_same {A} (l : list A) (i : nat) (x : A) :
  nth_error l i = Some x -> list_set i x l = l.
Proof.
  revert i. induction l as [|a l IH]; intros [|i] H; simpl in *;
    try discriminate.
  - injection H as ->. reflexivity.
  - f_equal. apply IH, H.
Qed.

Lemma plot_queries_clamped (h w : Z) (logits coords : Boxes) :
  forall palette n,
    boxes_clamped coords
      (snd (fst (plot_queries h w logits coords palette n))).
Proof.
  revert coords. induction logits as [|logit logits' IH];
    intros coords palette n; cbn [plot_queries];
    [apply boxes_clamped_refl|].
  destruct coords as [|coord rest]; [constructor|].
  destruct palette as [|color palette']; [apply boxes_clamped_refl|].
  destruct (Z.eqb (torch_max_index logit) 1).
  - specialize (IH rest palette' n).
    destruct (plot_queries h w logits' rest palette' n) as [[r rest'] evs].
    cbn [fst snd] in *. constructor; [|exact IH].
    apply Forall2_refl_on, clamped_refl.
  - destruct (corners (clamp_row coord)) as [pts|e]; cbn [fst snd].
    + specialize (IH rest palette' (S n)).
      destruct (plot_queries h w logits' rest palette' (S n))
        as [[r rest'] evs].
      cbn [fst snd] in *. constructor; [apply clamp_row_clamped|exact IH].
    + constructor; [apply clamp_row_clamped|apply boxes_clamped_refl].
Qed.

(** C9, as amended: with the threshold off, [plot_image_with_labels]
    leaves every box tensor of the targets as it was; with it on, and in
    [plot_prediction], box tensors keep their shape and each coordinate is
    after the call what it was before, or 0.99 written in place of a value
    that was [>= 1.0] or [<= 0.0]; the images and the logits are only
    read. *)
Theorem plots_write_clamped_boxes (samples : Images)
  (targets pred_logits pred_boxes : list Boxes) (num_sample : nat)
  (threshold : bool) :
  snd (fst (plot_image_with_labels samples targets num_sample false))
  = targets /\
  Forall2 boxes_clamped targets
    (snd (fst (plot_image_with_labels samples targets num_sample threshold)))
  /\
  Forall2 boxes_clamped pred_boxes
    (snd (fst (plot_prediction samples pred_logits pred_boxes))).
Proof.
  split; [|split].
  - unfold plot_image_with_labels.
    destruct (nth_error samples num_sample) as [[h w]|]; [|reflexivity].
    destruct (nth_error targets num_sample) as [coords|] eqn:Et;
      [|reflexivity].
    pose proof (plot_gates_no_threshold h w coords colors) as H.
    destruct (plot_gates false h w coords colors) as [[[u|e] coords'] evs];
      cbn [fst snd] in *; subst coords'; apply list_set_nth_same, Et.
  - unfold plot_image_with_labels.
    destruct (nth_error samples num_sample) as [[h w]|];
      [|apply Forall2_refl_on, boxes_clamped_refl].
    destruct (nth_error targets num_sample) as [coords|] eqn:Et;
      [|apply Forall2_refl_on, boxes_clamped_refl].
    pose proof (plot_gates_clamped threshold h w coords colors) as H.
    destruct (plot_gates threshold h w coords colors)
      as [[[u|e] coords'] evs]; cbn [fst snd] in *;
      (eapply Forall2_list_set; [apply boxes_clamped_refl|exact Et|exact H]).
  - revert pred_logits pred_boxes.
    induction samples as [|[h w] samples' IH]; intros pl pb;
      cbn [plot_prediction]; [apply Forall2_refl_on, boxes_clamped_refl|].
    destruct pl as [|logits pl']; [apply Forall2_refl_on, boxes_clamped_refl|].
    destruct pb as [|coords pb']; [constructor|].
    pose proof (plot_queries_clamped h w logits coords colors 0) as H.
    destruct (plot_queries h w logits coords colors 0)
      as [[[n|e] coords'] evs]; cbn [fst snd] in *.
    + specialize (IH pl' pb').
      destruct (plot_prediction samples' pl' pb') as [[r boxes'] evs'].
      cbn [fst snd] in *. constructor; assumption.
    + constructor; [exact H|apply Forall2_refl_on, boxes_clamped_refl].
Qed.

(** ** Further facts on the two plotting procedures *)

(** what the two tests of lines 225 to 228 leave in place of [x] *)
Definition clamp (x : float) : float :=
  if fge x f1 then c099 else if fle x f0 then c099 else x.

Lemma nth_error_middle {A} (pre rest : list A) (x : A) :
  nth_error (pre ++ x :: rest) (List.length pre) = Some x.
Proof. induction pre as [|a pre IH]; cbn; [reflexivity|exact IH]. Qed.

Lemma list_set_middle {A} (pre rest : list A) (x y : A) :
  list_set (List.length pre) y (pre ++ x :: rest) = pre ++ y :: rest.
Proof.
  induction pre as [|a pre IH]; cbn; [reflexivity|]. rewrite IH. reflexivity.
Qed.

Lemma clamp_at_set (coord : list float) (i : nat) (x : float) :
  nth_error coord i = Some x -> clamp_at coord i = list_set i (clamp x) coord.
Proof.
  intros Hx. unfold clamp_at, clamp. rewrite Hx.
  destruct (fge x f1) eqn:Hge.
  - rewrite (@Eval.nth_error_list_set_same _ coord i c099 x Hx).
    change (fle c099 f0) with false. reflexivity.
  - rewrite Hx. destruct (fle x f0); [reflexivity|].
    symmetry. apply list_set_nth_same, Hx.
Qed.

Lemma clamp_fold (rest : list float) :
  forall pre : list float,
    fold_left clamp_at (seq (List.length pre) (List.length rest)) (pre ++ rest)
    = pre ++ map clamp rest.
Proof.
  induction rest as [|x rest IH]; intros pre; cbn [List.length seq fold_left map].
  - reflexivity.
  - rewrite (@clamp_at_set _ _ x (nth_error_middle pre rest x)),
      list_set_middle.
    specialize (IH (pre ++ [clamp x])).
    rewrite length_app, Nat.add_1_r, <- !app_assoc in IH. exact IH.
Qed.

Lemma clamp_row_map (coord : list float) : clamp_row coord = map clamp coord.
Proof. unfold clamp_row. exact (clamp_fold coord []). Qed.

Lemma clamp_in_range (x : float) :
  fge (clamp x) f1 = false /\ fle (clamp x) f0 = false.
Proof.
  unfold clamp. destruct (fge x f1) eqn:Hge; [split; reflexivity|].
  destruct (fle x f0) eqn:Hle; [split; reflexivity|]. split; assumption.
Qed.

Lemma clamp_idem (x : float) : clamp (clamp x) = clamp x.
Proof.
  destruct (clamp_in_range x) as [Hge Hle]. unfold clamp at 1.
  rewrite Hge, Hle. reflexivity.
Qed.

Lemma clamp_row_idem (coord : list float) :
  clamp_row (clamp_row coord) = clamp_row coord.
Proof.
  rewrite !clamp_row_map, map_map. apply map_ext. intros x. apply clamp_idem.
Qed.

(** X16: the thresholding loop works coordinate by coordinate: it puts
    0.99 in place of every value that is [>= 1.0] or [<= 0.0] and keeps
    every other value, nan included; after it no coordinate of the row is
    [>= 1.0] or [<= 0.0]. *)
Theorem clamp_row_pointwise (coord : list float) :
  clamp_row coord = map clamp coord /\
  Forall (fun y => fge y f1 = false /\ fle y f0 = false) (clamp_row coord) /\
  clamp NaN = NaN.
Proof.
  split; [apply clamp_row_map|]. split; [|reflexivity].
  rewrite clamp_row_map. apply Forall_forall. intros y Hy.
  apply in_map_iff in Hy as [x [<- _]]. apply clamp_in_range.
Qed.

Lemma plot_gates_again (threshold : bool) (h w : Z) (coords : Boxes) :
  forall (palette : list string) (r : result unit) (coords' : Boxes)
         (evs : list Event),
    plot_gates threshold h w coords palette = (r, coords', evs) ->
    plot_gates threshold h w coords' palette = (r, coords', evs).
Proof.
  induction coords as [|gate_coord rest IH]; intros palette r coords' evs H;
    cbn [plot_gates] in H.
  - injection H as <- <- <-. reflexivity.
  - destruct palette as [|color palette'].
    + injection H as <- <- <-. reflexivity.
    + set (gc := if threshold then clamp_row gate_coord else gate_coord) in *.
      assert (Hgc : (if threshold then clamp_row gc else gc) = gc).
      { unfold gc. destruct threshold; [apply clamp_row_idem|reflexivity]. }
      destruct (corners gc) as [pts|e] eqn:Ec.
      * destruct (plot_gates threshold h w rest palette')
          as [[r0 rest'] evs0] eqn:Er.
        injection H as <- <- <-. cbn [plot_gates]. rewrite Hgc, Ec.
        erewrite IH; [reflexivity|exact Er].
      * injection H as <- <- <-. cbn [plot_gates]. rewrite Hgc, Ec.
        reflexivity.
Qed.

Lemma list_set_twice {A} (l : list A) (i : nat) (x y : A) :
  list_set i y (list_set i x l) = list_set i y l.
Proof.
  revert i. induction l as [|a l IH]; intros [|i]; cbn; try reflexivity.
  rewrite IH. reflexivity.
Qed.

(** X17: calling [plot_image_with_labels] again on the targets that a
    first call left behind changes nothing further: the second call has
    the outcome of the first, plots the same points and leaves the
    targets as the first call left them. *)
Theorem plot_twice_same (samples : Images) (targets : list Boxes)
  (num_sample : nat) (threshold : bool) :
  plot_image_with_labels samples
    (snd (fst (plot_image_with_labels samples targets num_sample threshold)))
    num_sample threshold
  = plot_image_with_labels samples targets num_sample threshold.
Proof.
  unfold plot_image_with_labels.
  destruct (nth_error samples num_sample) as [[h w]|] eqn:Es;
    [|reflexivity].
  destruct (nth_error targets num_sample) as [coords|] eqn:Et;
    [|cbn [fst snd]; rewrite Et; reflexivity].
  destruct (plot_gates threshold h w coords colors) as [[r coords'] evs] eqn:Eg.
  pose proof (@plot_gates_again _ _ _ _ _ _ _ _ Eg) as Eg'.
  destruct r as [u|e]; cbn [fst snd];
    rewrite (@Eval.nth_error_list_set_same _ targets num_sample coords'
               coords Et), Eg',
      list_set_twice; reflexivity.
Qed.

Lemma plot_gates_beyond (threshold : bool) (h w : Z) (coords : Boxes) :
  forall (palette : list string) (i : nat),
    (List.length palette <= i)%nat ->
    nth_error (snd (fst (plot_gates threshold h w coords palette))) i
    = nth_error coords i.
Proof.
  induction coords as [|gate_coord rest IH]; intros palette i Hi;
    cbn [plot_gates]; [reflexivity|].
  destruct palette as [|color palette']; [reflexivity|].
  cbn [List.length] in Hi. destruct i as [|i]; [lia|].
  destruct (corners _) as [pts|e]; cbn [fst snd nth_error]; [|reflexivity].
  specialize (IH palette' i ltac:(lia)).
  destruct (plot_gates threshold h w rest palette') as [[r rest'] evs].
  exact IH.
Qed.

Lemma plot_gates_length (threshold : bool) (h w : Z) (coords : Boxes) :
  forall palette : list string,
    List.length (snd (fst (plot_gates threshold h w coords palette)))
    = List.length coords.
Proof.
  induction coords as [|gate_coord rest IH]; intros palette;
    cbn [plot_gates]; [reflexivity|].
  destruct palette as [|color palette']; [reflexivity|].
  destruct (corners _) as [pts|e]; [|reflexivity].
  specialize (IH palette').
  destruct (plot_gates threshold h w rest palette') as [[r rest'] evs].
  cbn [fst snd List.length] in *. rewrite IH. reflexivity.
Qed.

(** X18: [plot_image_with_labels] can write only in the first five
    boxes of the sample it plots: the box tensor of every other sample
    comes back as it was, and so does every box from the sixth on of the
    plotted sample, which keeps its number of boxes. *)
Theorem plot_writes_first_five_boxes (samples : Images)
  (targets : list Boxes) (num_sample : nat) (threshold : bool) :
  (forall k, k <> num_sample ->
     nth_error
       (snd (fst (plot_image_with_labels samples targets num_sample threshold)))
       k
     = nth_error targets k) /\
  (forall coords,
     nth_error targets num_sample = Some coords ->
     exists coords',
       nth_error
         (snd (fst (plot_image_with_labels samples targets num_sample
                                           threshold))) num_sample
       = Some coords' /\
       List.length coords' = List.length coords /\
       forall i, (5 <= i)%nat -> nth_error coords' i = nth_error coords i).
Proof.
  unfold plot_image_with_labels. split.
  - intros k Hk.
    destruct (nth_error samples num_sample) as [[h w]|]; [|reflexivity].
    destruct (nth_error targets num_sample) as [coords|]; [|reflexivity].
    destruct (plot_gates threshold h w coords colors) as [[[u|e] coords'] evs];
      cbn [fst snd]; apply Eval.nth_error_list_set_other; congruence.
  - intros coords Et. rewrite Et.
    destruct (nth_error samples num_sample) as [[h w]|].
    + pose proof (plot_gates_length threshold h w coords colors) as Hl.
      pose proof (plot_gates_beyond threshold h w coords colors) as Hb.
      destruct (plot_gates threshold h w coords colors)
        as [[[u|e] coords'] evs]; cbn [fst snd] in *;
        (exists coords';
         split; [apply (@Eval.nth_error_list_set_same _ targets num_sample
                          coords' coords Et)|];
         split; [exact Hl|exact Hb]).
    + exists coords. cbn [fst snd]. repeat split. exact Et.
Qed.

Lemma corners_short (coord : list float) :
  (List.length coord < 8)%nat -> corners coord = Raise IndexError.
Proof.
  intros H. do 8 (destruct coord as [|? coord]; [reflexivity|]).
  cbn in H. lia.
Qed.

Lemma length_clamp_row (coord : list float) :
  List.length (clamp_row coord) = List.length coord.
Proof. rewrite clamp_row_map. apply length_map. Qed.

(** X19: a first box with fewer than eight coordinates, such as a box of
    the four values centre, width and height, makes
    [plot_image_with_labels] raise an [IndexError] once the image is
    shown and before any point is plotted; with the threshold on, that
    box has been overwritten all the same. *)
Theorem plot_needs_eight_coordinates (samples : Images)
  (targets : list Boxes) (num_sample : nat) (threshold : bool) (h w : Z)
  (gate_coord : list float) (rest : Boxes) :
  nth_error samples num_sample = Some (h, w) ->
  nth_error targets num_sample = Some (gate_coord :: rest) ->
  (List.length gate_coord < 8)%nat ->
  plot_image_with_labels samples targets num_sample threshold =
  (Raise IndexError,
   list_set num_sample
     ((if threshold then map clamp gate_coord else gate_coord) :: rest)
     targets,
   [Print_image_size h w; Imshow h w]).
Proof.
  intros Hs Ht Hlen. unfold plot_image_with_labels. rewrite Hs, Ht.
  unfold colors. cbn [plot_gates].
  rewrite corners_short.
  - rewrite clamp_row_map. reflexivity.
  - destruct threshold; [rewrite length_clamp_row|]; exact Hlen.
Qed.

Lemma plot_queries_skips (h w : Z) (logits : Boxes) :
  forall (coords : Boxes) (palette : list string) (n j : nat)
         (logit : list float),
    nth_error logits j = Some logit ->
    torch_max_index logit = 1%Z ->
    nth_error (snd (fst (plot_queries h w logits coords palette n))) j
    = nth_error coords j.
Proof.
  induction logits as [|logit0 logits' IH];
    intros coords palette n j logit Hj Hidx; [destruct j; discriminate|].
  cbn [plot_queries].
  destruct coords as [|coord rest]; [reflexivity|].
  destruct palette as [|color palette']; [reflexivity|].
  destruct j as [|j]; cbn [nth_error] in Hj.
  - injection Hj as ->. rewrite Hidx. cbn [Z.eqb Pos.eqb].
    destruct (plot_queries h w logits' rest palette' n) as [[r rest'] evs].
    reflexivity.
  - destruct (Z.eqb (torch_max_index logit0) 1).
    + specialize (IH rest palette' n j logit Hj Hidx).
      destruct (plot_queries h w logits' rest palette' n) as [[r rest'] evs].
      exact IH.
    + destruct (corners (clamp_row coord)) as [pts|e]; [|reflexivity].
      specialize (IH rest palette' (S n) j logit Hj Hidx).
      destruct (plot_queries h w logits' rest palette' (S n))
        as [[r rest'] evs].
      exact IH.
Qed.


(** an event that is not a count of predictions above five *)
Definition capped (ev : Event) : Prop :=
  match ev with Print_predictions n => (n <= 5)%nat | _ => True end.

Lemma plot_queries_count (h w : Z) (logits : Boxes) :
  forall (coords : Boxes) (palette : list string) (n n' : nat)
         (coords' : Boxes) (evs : list Event),
    plot_queries h w logits coords palette n = (Ok n', coords', evs) ->
    (n <= n' <= n + List.length palette)%nat.
Proof.
  induction logits as [|logit logits' IH];
    intros coords palette n n' coords' evs H; cbn [plot_queries] in H.
  - injection H as <- _ _. lia.
  - destruct coords as [|coord rest]; [injection H as <- _ _; lia|].
    destruct palette as [|color palette']; [injection H as <- _ _; lia|].
    cbn [List.length].
    destruct (Z.eqb (torch_max_index logit) 1).
    + destruct (plot_queries h w logits' rest palette' n)
        as [[r rest'] evs0] eqn:Er.
      injection H as -> _ _. apply IH in Er. lia.
    + destruct (corners (clamp_row coord)) as [pts|e]; [|discriminate].
      destruct (plot_queries h w logits' rest palette' (S n))
        as [[r rest'] evs0] eqn:Er.
      injection H as -> _ _. apply IH in Er. lia.
Qed.

Lemma plot_queries_capped (h w : Z) (logits : Boxes) :
  forall (coords : Boxes) (palette : list string) (n : nat),
    Forall capped (snd (plot_queries h w logits coords palette n)).
Proof.
  induction logits as [|logit logits' IH]; intros coords palette n;
    cbn [plot_queries]; [constructor|].
  destruct coords as [|coord rest]; [constructor|].
  destruct palette as [|color palette']; [constructor|].
  destruct (Z.eqb (torch_max_index logit) 1).
  - specialize (IH rest palette' n).
    destruct (plot_queries h w logits' rest palette' n) as [[r rest'] evs].
    exact IH.
  - destruct (corners (clamp_row coord)) as [pts|e]; [|constructor].
    specialize (IH rest palette' (S n)).
    destruct (plot_queries h w logits' rest palette' (S n))
      as [[r rest'] evs].
    cbn [snd] in *. apply Forall_app. split; [|exact IH].
    unfold scatter. apply Forall_forall. intros ev Hev.
    apply in_map_iff in Hev as [pt [<- _]]. exact I.
Qed.

(** X21: the number of predictions that [plot_prediction] prints for an
    image is never above five, however many queries the image has: the
    queries are paired with the five colours, and the count stops with
    them. *)
Theorem printed_predictions_at_most_five (samples : Images) :
  forall pred_logits pred_boxes : list Boxes,
    Forall capped (snd (plot_prediction samples pred_logits pred_boxes)).
Proof.
  induction samples as [|[h w] samples' IH]; intros pl pb;
    cbn [plot_prediction]; [constructor|].
  destruct pl as [|logits pl']; [constructor|].
  destruct pb as [|coords pb']; [constructor|].
  pose proof (plot_queries_capped h w logits coords colors 0) as Hc.
  destruct (plot_queries h w logits coords colors 0)
    as [[[n|e] coords'] evs] eqn:Eq; cbn [snd] in *.
  - apply plot_queries_count in Eq. cbn in Eq.
    specialize (IH pl' pb').
    destruct (plot_prediction samples' pl' pb') as [[r boxes'] evs'].
    cbn [snd] in *. apply Forall_app. split.
    + constructor; [exact I|exact Hc].
    + constructor; [cbn; lia|]. constructor; [exact I|exact IH].
  - constructor; [exact I|exact Hc].
Qed.

End Prediction.

(** C9, the claim as stated fails: a box coordinate of 1.5 is 0.99 after
    [plot_image_with_labels] with its default threshold, and a coordinate
    of 0.0 likewise. *)
Lemma plot_overwrites_boxes :
  snd (fst (plot_image_with_labels
              [(480, 640)%Z]
              [[[Fin (Q2Qc (3 # 2)); f0; f1; Fin (Q2Qc (1 # 2));
                 Fin (Q2Qc (1 # 4)); Fin (Q2Qc (1 # 4));
                 Fin (Q2Qc (3 # 4)); Fin (Q2Qc (3 # 4))]]] 0 true))
  = [[[c099; c099; c099; Fin (Q2Qc (1 # 2));
       Fin (Q2Qc (1 # 4)); Fin (Q2Qc (1 # 4));
       Fin (Q2Qc (3 # 4)); Fin (Q2Qc (3 # 4))]]] /\
  fcompare (Fin (Q2Qc (3 # 2))) c099 = Some Gt.
Proof. split; vm_compute; reflexivity. Qed.

(** ** Instances of the further facts on the plotting procedures *)

(** a box in the format of the detection targets: centre, width, height *)
Definition centre_size_box : list float :=
  [Fin (Q2Qc (1 # 2)); Fin (Q2Qc (1 # 2)); Fin (Q2Qc (1 # 4));
   Fin (Q2Qc (1 # 4))].

Lemma plot_needs_eight_coordinates_witness :
  plot_image_with_labels [(480, 640)%Z] [[centre_size_box]] 0 true
  = (Raise IndexError,
     list_set 0 [map clamp centre_size_box] [[centre_size_box]],
     [Print_image_size 480 640; Imshow 480 640]).
Proof.
  refine (@plot_needs_eight_coordinates [(480, 640)%Z] [[centre_size_box]] 0
            true 480%Z 640%Z centre_size_box [] eq_refl eq_refl _).
  cbn. lia.
Defined.

(** the index of the first largest value *)
Fixpoint argmax_from (best : float) (best_i i : Z) (l : list float) : Z :=
  match l with
  | [] => best_i
  | x :: l' =>
      if fgt x best then argmax_from x i (i + 1)%Z l'
      else argmax_from best best_i (i + 1)%Z l'
  end.

Definition argmax (l : list float) : Z :=
  match l with
  | [] => 0%Z
  | x :: l' => argmax_from x 0%Z 1%Z l'
  end.

(** a box all of whose coordinates are 2.0 *)
Definition out_box : list float :=
  [of_Z 2; of_Z 2; of_Z 2; of_Z 2; of_Z 2; of_Z 2; of_Z 2; of_Z 2].


End Plot.

(* ===================================================================== *)
(** * [show_coco_sample]                                                  *)
(* ===================================================================== *)

Module CocoSample.
Import Py.

(** The fields of a target that [show_coco_sample] reads: the boxes as
    rows of centre, width and height relative to the image, the two
    entries of the size tensor, and the labels as the integers that
    index the class names. *)
Record Target : Type := {
  boxes : list (list float);
  size : Z * Z;
  labels : list Z
}.

(** an image tensor by its shape: channels, height, width *)
Definition Image : Type := (Z * Z * Z)%type.

Definition CLASSES : list string :=
  ["N/A"; "person"; "bicycle"; "car"; "motorcycle"; "airplane"; "bus";
   "train"; "truck"; "boat"; "traffic light"; "fire hydrant"; "N/A";
   "stop sign"; "parking meter"; "bench"; "bird"; "cat"; "dog"; "horse";
   "sheep"; "cow"; "elephant"; "bear"; "zebra"; "giraffe"; "N/A"; "backpack";
   "umbrella"; "N/A"; "N/A"; "handbag"; "tie"; "suitcase"; "frisbee"; "skis";
   "snowboard"; "sports ball"; "kite"; "baseball bat"; "baseball glove";
   "skateboard"; "surfboard"; "tennis racket"; "bottle"; "N/A"; "wine glass";
   "cup"; "fork"; "knife"; "spoon"; "bowl"; "banana"; "apple"; "sandwich";
   "orange"; "broccoli"; "carrot"; "hot dog"; "pizza"; "donut"; "cake";
   "chair"; "couch"; "potted plant"; "bed"; "N/A"; "dining table"; "N/A";
   "N/A"; "toilet"; "N/A"; "tv"; "laptop"; "mouse"; "remote"; "keyboard";
   "cell phone"; "microwave"; "oven"; "toaster"; "sink"; "refrigerator"; "N/A";
   "book"; "clock"; "vase"; "scissors"; "teddy bear"; "hair drier";
   "toothbrush"]%string.

Definition colors : list string :=
  ["blue"; "red"; "green"; "yellow"; "orange"; "white"]%string.

Inductive Event : Type :=
| Imshow (c h w : Z)
| Scatter (x y : float) (color : string)
| Text (x y : float) (s color : string)
| Title (shape : list Z)
| Show.

(** [l[i]] for a Python integer [i]: a negative index counts from the end *)
Definition py_index {A} (l : list A) (i : Z) : result A :=
  let n := Z.of_nat (List.length l) in
  let j := if (i <? 0)%Z then (i + n)%Z else i in
  if ((0 <=? j) && (j <? n))%Z then
    match nth_error l (Z.to_nat j) with
    | Some x => Ok x
    | None => Raise IndexError
    end
  else Raise IndexError.

Definition fsub (x y : float) : float := fadd x (fneg y).

(** [x / 2] *)
Definition fhalf (x : float) : float := fmul x (Fin (Q2Qc (1 # 2))).

(** the body of the loop, engine.py lines 325 to 331: [box[2]] and
    [box[3]] are read first, the class name last *)
Definition draw_box (img_h img_w : Z) (box : list float) (color : string)
  (label : Z) : result unit * list Event :=
  match nth_error box 2, nth_error box 3 with
  | Some b2, Some b3 =>
      let w := fmul b2 (of_Z img_w) in
      let h := fmul b3 (of_Z img_h) in
      match nth_error box 0, nth_error box 1 with
      | Some b0, Some b1 =>
          let x := fmul b0 (of_Z img_w) in
          let y := fmul b1 (of_Z img_h) in
          let marks :=
            [Scatter (fsub x (fhalf w)) (fsub y (fhalf h)) color;
             Scatter (fsub x (fhalf w)) (fadd y (fhalf h)) color;
             Scatter (fadd x (fhalf w)) (fadd y (fhalf h)) color;
             Scatter (fadd x (fhalf w)) (fsub y (fhalf h)) color] in
          match py_index CLASSES label with
          | Ok name => (Ok tt, marks ++ [Text x y name color])
          | Raise e => (Raise e, marks)
          end
      | _, _ => (Raise IndexError, [])
      end
  | _, _ => (Raise IndexError, [])
  end.

(** [for box, color, label in zip(boxes, colors, labels)] *)
Fixpoint draw_boxes (img_h img_w : Z) (boxes : list (list float))
  (palette : list string) (labels : list Z) : result unit * list Event :=
  match boxes, palette, labels with
  | box :: boxes', color :: palette', label :: labels' =>
      match draw_box img_h img_w box color label with
      | (Raise e, evs) => (Raise e, evs)
      | (Ok _, evs) =>
          match draw_boxes img_h img_w boxes' palette' labels' with
          | (r, evs') => (r, evs ++ evs')
          end
      end
  | _, _, _ => (Ok tt, [])
  end.

(** engine.py lines 290 to 334.  The image is rescaled into a new tensor
    for display, which takes its minimum and maximum: an image with no
    element has none. *)
Definition show_coco_sample (samples : list Image) (targets : list Target)
  (s_num : nat) : result unit * list Event :=
  match nth_error samples s_num with
  | None => (Raise IndexError, [])
  | Some (c, h, w) =>
      if (c * h * w =? 0)%Z
      then (Raise (RuntimeError "min of a tensor with no element"), [])
      else
        match nth_error targets s_num with
        | None => (Raise IndexError, [])
        | Some target =>
            let (img_h, img_w) := size target in
            match draw_boxes img_h img_w (boxes target) colors
                             (labels target) with
            | (Ok _, evs) =>
                (Ok tt, Imshow c h w :: evs ++ [Title [c; h; w]; Show])
            | (Raise e, evs) => (Raise e, Imshow c h w :: evs)
            end
        end
  end.

(** ** What is drawn *)

Definition texts (evs : list Event) : nat :=
  List.length (filter (fun ev => match ev with Text _ _ _ _ => true
                                          | _ => false end) evs).

Definition marks (evs : list Event) : nat :=
  List.length (filter (fun ev => match ev with Scatter _ _ _ => true
                                          | _ => false end) evs).

(** X22: there are 91 class names: a label names a class exactly when it
    is from -91 up to 90, a negative one counting from the end of the
    list; the label 1 is a person and the label -1 a toothbrush. *)
Theorem class_name_range (label : Z) :
  List.length CLASSES = 91%nat /\
  ((exists name, py_index CLASSES label = Ok name) <->
   (-91 <= label < 91)%Z) /\
  py_index CLASSES 1 = Ok "person"%string /\
  py_index CLASSES (-1) = Ok "toothbrush"%string.
Proof.
  split; [reflexivity|]. split; [|split; reflexivity].
  unfold py_index. change (Z.of_nat (List.length CLASSES)) with 91%Z.
  cbv zeta.
  destruct (Z.ltb_spec label 0) as [Hneg|Hpos].
  - destruct (Z.leb_spec 0 (label + 91)) as [H1|H1];
      destruct (Z.ltb_spec (label + 91) 91) as [H2|H2]; cbn [andb];
        try (split; [intros [name H]; discriminate|lia]).
    destruct (nth_error CLASSES (Z.to_nat (label + 91))) as [name|] eqn:E.
    + split; [lia|]. intros _. exists name. reflexivity.
    + apply nth_error_None in E. change (List.length CLASSES) with 91%nat in E.
      lia.
  - destruct (Z.leb_spec 0 label) as [H1|H1];
      destruct (Z.ltb_spec label 91) as [H2|H2]; cbn [andb];
        try (split; [intros [name H]; discriminate|lia]).
    destruct (nth_error CLASSES (Z.to_nat label)) as [name|] eqn:E.
    + split; [lia|]. intros _. exists name. reflexivity.
    + apply nth_error_None in E. change (List.length CLASSES) with 91%nat in E.
      lia.
Qed.

Lemma half_half : (Q2Qc (1 # 2) + Q2Qc (1 # 2) = 1)%Qc.
Proof. apply Qc_is_canon. reflexivity. Qed.

Lemma sub_half_add (a b : Qc) :
  (a + - (b * Q2Qc (1 # 2)) + b = a + b * Q2Qc (1 # 2))%Qc.
Proof.
  assert (E : (b = b * Q2Qc (1 # 2) + b * Q2Qc (1 # 2))%Qc).
  { rewrite <- Qcmult_plus_distr_r, half_half, Qcmult_1_r. reflexivity. }
  rewrite E at 2. ring.
Qed.

(** X23: a box is read as a centre, a width and a height relative to the
    image: for finite values the four marks of a box are the corners of
    the rectangle whose centre is where the class name is written and
    whose sides are [box[2] * img_w] and [box[3] * img_h]. *)
Theorem marks_are_box_corners (img_h img_w : Z) (cx cy bw bh : Qc)
  (more : list float) (color : string) (label : Z) (name : string) :
  py_index CLASSES label = Ok name ->
  exists x1 x2 y1 y2,
    draw_box img_h img_w (Fin cx :: Fin cy :: Fin bw :: Fin bh :: more)
             color label
    = (Ok tt,
       [Scatter x1 y1 color; Scatter x1 y2 color; Scatter x2 y2 color;
        Scatter x2 y1 color;
        Text (fmul (Fin cx) (of_Z img_w)) (fmul (Fin cy) (of_Z img_h))
             name color]) /\
    fadd x1 x2
    = fadd (fmul (Fin cx) (of_Z img_w)) (fmul (Fin cx) (of_Z img_w)) /\
    fadd y1 y2
    = fadd (fmul (Fin cy) (of_Z img_h)) (fmul (Fin cy) (of_Z img_h)) /\
    fadd x1 (fmul (Fin bw) (of_Z img_w)) = x2 /\
    fadd y1 (fmul (Fin bh) (of_Z img_h)) = y2.
Proof.
  intros Hname. unfold draw_box. cbn [nth_error]. rewrite Hname.
  do 4 eexists. split; [reflexivity|].
  unfold fsub, fhalf, of_Z. cbn [fmul fadd fneg].
  repeat split; f_equal; try ring; apply sub_half_add.
Qed.

Lemma draw_box_ok (img_h img_w : Z) (box : list float) (color : string)
  (label : Z) (u : unit) (evs : list Event) :
  draw_box img_h img_w box color label = (Ok u, evs) ->
  texts evs = 1%nat /\ marks evs = 4%nat.
Proof.
  unfold draw_box.
  destruct (nth_error box 2); [|discriminate].
  destruct (nth_error box 3); [|discriminate].
  destruct (nth_error box 0); [|discriminate].
  destruct (nth_error box 1); [|discriminate].
  destruct (py_index CLASSES label); [|discriminate].
  intros [= _ <-]. split; reflexivity.
Qed.

Lemma draw_boxes_ok (img_h img_w : Z) (boxes : list (list float)) :
  forall (palette : list string) (labels : list Z) (u : unit)
         (evs : list Event),
    draw_boxes img_h img_w boxes palette labels = (Ok u, evs) ->
    texts evs
    = Nat.min (Nat.min (List.length boxes) (List.length palette))
              (List.length labels) /\
    marks evs = (4 * texts evs)%nat.
Proof.
  induction boxes as [|box boxes' IH]; intros palette labels u evs H;
    cbn [draw_boxes] in H.
  - injection H as _ <-. split; reflexivity.
  - destruct palette as [|color palette'];
      [injection H as _ <-; split; reflexivity|].
    destruct labels as [|label labels'].
    { injection H as _ <-. cbn [List.length]. rewrite Nat.min_0_r.
      split; reflexivity. }
    destruct (draw_box img_h img_w box color label) as [[u1|e] evs1] eqn:Eb;
      [|discriminate].
    destruct (draw_boxes img_h img_w boxes' palette' labels')
      as [[u2|e] evs2] eqn:Er; [|discriminate].
    injection H as _ <-.
    apply draw_box_ok in Eb as [Ht Hm]. apply IH in Er as [Ht' Hm'].
    unfold texts, marks in *.
    rewrite !filter_app, !length_app, Ht, Hm, Hm', Ht'.
    cbn [List.length]. rewrite <- !Nat.succ_min_distr. split; lia.
Qed.

(** X24: when [show_coco_sample] returns, it has written one class name
    and plotted four marks for each box that has a label, and for six
    boxes at most: the boxes are paired with the six colours. *)
Theorem six_boxes_at_most (samples : list Image) (targets : list Target)
  (s_num : nat) (evs : list Event) :
  show_coco_sample samples targets s_num = (Ok tt, evs) ->
  exists target,
    nth_error targets s_num = Some target /\
    texts evs = Nat.min (Nat.min (List.length (boxes target)) 6)
                        (List.length (labels target)) /\
    marks evs = (4 * texts evs)%nat /\
    (texts evs <= 6)%nat.
Proof.
  unfold show_coco_sample.
  destruct (nth_error samples s_num) as [[[c h] w]|]; [|discriminate].
  destruct (c * h * w =? 0)%Z; [discriminate|].
  destruct (nth_error targets s_num) as [target|]; [|discriminate].
  destruct (size target) as [img_h img_w].
  destruct (draw_boxes img_h img_w (boxes target) colors (labels target))
    as [[u|e] evs1] eqn:Ed; [|discriminate].
  intros [= <-]. exists target. split; [reflexivity|].
  apply draw_boxes_ok in Ed as [Ht Hm].
  change (List.length colors) with 6%nat in Ht.
  assert (Ht' : texts (Imshow c h w :: evs1 ++ [Title [c; h; w]; Show])
                = texts evs1).
  { unfold texts. cbn [filter]. rewrite filter_app, length_app. cbn. lia. }
  assert (Hm' : marks (Imshow c h w :: evs1 ++ [Title [c; h; w]; Show])
                = marks evs1).
  { unfold marks. cbn [filter]. rewrite filter_app, length_app. cbn. lia. }
  rewrite Ht', Hm', Hm, Ht. repeat split. lia.
Qed.

(** ** A sample with two boxes *)

Definition ex_target : Target :=
  {| boxes := [[Fin (Q2Qc (1 # 2)); Fin (Q2Qc (1 # 2)); Fin (Q2Qc (1 # 4));
                Fin (Q2Qc (1 # 4))];
               [Fin (Q2Qc (1 # 4)); Fin (Q2Qc (1 # 4)); Fin (Q2Qc (1 # 8));
                Fin (Q2Qc (1 # 8))]];
     size := (480, 640)%Z;
     labels := [1%Z; 18%Z] |}.

Lemma marks_are_box_corners_witness :
  py_index CLASSES 18 = Ok "dog"%string /\
  exists x1 x2 y1 y2,
    draw_box 480 640
      [Fin (Q2Qc (1 # 4)); Fin (Q2Qc (1 # 4)); Fin (Q2Qc (1 # 8));
       Fin (Q2Qc (1 # 8))] "red" 18
    = (Ok tt,
       [Scatter x1 y1 "red"; Scatter x1 y2 "red"; Scatter x2 y2 "red";
        Scatter x2 y1 "red";
        Text (fmul (Fin (Q2Qc (1 # 4))) (of_Z 640))
             (fmul (Fin (Q2Qc (1 # 4))) (of_Z 480)) "dog" "red"]) /\
    fadd x1 (fmul (Fin (Q2Qc (1 # 8))) (of_Z 640)) = x2.
Proof.
  assert (H : py_index CLASSES 18 = Ok "dog"%string) by reflexivity.
  split; [exact H|].
  destruct (@marks_are_box_corners 480 640 (Q2Qc (1 # 4)) (Q2Qc (1 # 4))
              (Q2Qc (1 # 8)) (Q2Qc (1 # 8)) [] "red" 18 "dog" H)
    as (x1 & x2 & y1 & y2 & Hd & _ & _ & Hx & _).
  exists x1, x2, y1, y2. split; [exact Hd|exact Hx].
Defined.

Definition ex_events : list Event :=
  snd (show_coco_sample [(3, 480, 640)%Z] [ex_target] 0).

Lemma six_boxes_at_most_witness :
  show_coco_sample [(3, 480, 640)%Z] [ex_target] 0 = (Ok tt, ex_events) /\
  texts ex_events = 2%nat.
Proof.
  assert (H : show_coco_sample [(3, 480, 640)%Z] [ex_target] 0
              = (Ok tt, ex_events)) by (vm_compute; reflexivity).
  split; [exact H|].
  destruct (@six_boxes_at_most [(3, 480, 640)%Z] [ex_target] 0 ex_events H)
    as (target & Ht & Hn & _ & _).
  injection Ht as <-. exact Hn.
Defined.

End CocoSample.
